(** * E-Responde Admin: the crime forecasting and risk-scoring engine

    A shallow embedding of the forecasting code of the dashboard
    (the local forecasting service and the forecasting, heat-map, live-chart
    and user-account functions of [UserAccountManagement.jsx]) together with
    the properties of its specification and further properties of the code.

    Numbers.  A JavaScript number is modelled by an exact rational ([Q]);
    a value produced by [Math.round] is an integer ([Z]).  Results that
    JavaScript reports as [NaN] or [Infinity] (a division by zero) are
    [None] in an [option Q].  Library functions whose result is not a
    rational function of their argument ([Math.sqrt], number printing and
    parsing, the [Date] calendar) are fields of the classes below, so every
    general theorem holds for any implementation of them; a reference
    instance is given for evaluation on concrete inputs.

    Doubles.  Where the outcome hangs on how binary64 rounds (the risk
    thresholds of a forecast day, the digits of the printed trend), the code
    is embedded in binary64 itself, with the kernel's floating-point
    numbers ([Double], [Daily64], [Realtime.trendOf]). *)

From Stdlib Require Uint63.
From Stdlib Require Import Floats.
From Stdlib Require Import ZArith QArith Qround Qminmax Qabs String Ascii Bool List Lia Lqa.
From Stdlib Require Import Permutation Sorted DecimalString DecimalN.
Import ListNotations.

Local Open Scope Q_scope.

Set Warnings "-inexact-float".

(** ** JavaScript numbers and [Math] *)

Module Math.

(** [Math.round]: the nearest integer, a tie going up. *)
Definition round (x : Q) : Z := Qfloor (x + (1 # 2)).

(** [Math.max] / [Math.min] on two finite numbers. *)
Definition max (a b : Q) : Q := Qmax a b.
Definition min (a b : Q) : Q := Qmin a b.

(** [Math.pow(x, 2)]. *)
Definition pow2 (x : Q) : Q := x * x.

End Math.

(** [a / b] as JavaScript computes it: not a finite number when [b] is zero. *)
Definition Number_div (a b : Q) : option Q :=
  if Qeq_bool b 0 then None else Some (a / b).

(** [v || d] on a number that is possibly [NaN]: zero and [NaN] are falsy. *)
Definition number_or (v : option Q) (d : Q) : Q :=
  match v with
  | Some q => if Qeq_bool q 0 then d else q
  | None => d
  end.

(** [Math.sqrt] is supplied by the runtime. *)
Class MathLib := { Math_sqrt : Q -> Q }.

(** [Array.prototype.reduce] with the element index. *)
Fixpoint reduce_from {A B : Type} (f : B -> A -> nat -> B) (i : nat) (l : list A) (acc : B) : B :=
  match l with
  | [] => acc
  | a :: l' => reduce_from f (S i) l' (f acc a i)
  end.

Definition reduce {A B : Type} (f : B -> A -> nat -> B) (l : list A) (init : B) : B :=
  reduce_from f 0 l init.

Definition ofNat (n : nat) : Q := inject_Z (Z.of_nat n).

(** ** Trend Forecaster ([generateForecast], [calculateRSquared]) *)

Module Trend.

(** The object returned on the regression path. *)
Record Fit := {
  forecast : list Z;
  confidenceUpper : list Z;
  confidenceLower : list Z;
  trend : Q;
  rSquared : option Q
}.

(** [generateForecast] returns a bare array on the fallback path and an
    object on the regression path. *)
Inductive Result :=
| Flat (values : list Q)
| Fitted (fit : Fit).

(** [Array.from({length: n}, (_, i) => i)] *)
Definition xs (n : nat) : list Q := map ofNat (seq 0 n).

Definition sumX (n : nat) : Q := reduce (fun a b _ => a + b) (xs n) 0.
Definition sumY (y : list Q) : Q := reduce (fun a b _ => a + b) y 0.
Definition sumXY (y : list Q) : Q :=
  reduce (fun sum xi i => sum + xi * nth i y 0) (xs (length y)) 0.
Definition sumXX (n : nat) : Q := reduce (fun sum xi _ => sum + xi * xi) (xs n) 0.

Definition slope (y : list Q) : Q :=
  let n := length y in
  (ofNat n * sumXY y - sumX n * sumY y) / (ofNat n * sumXX n - sumX n * sumX n).

Definition intercept (y : list Q) : Q :=
  (sumY y - slope y * sumX (length y)) / ofNat (length y).

Definition variance (y : list Q) : Q :=
  let avg := sumY y / ofNat (length y) in
  reduce (fun sum yi _ => sum + Math.pow2 (yi - avg)) y 0 / ofNat (length y).

Definition calculateRSquared (x y : list Q) (slope intercept : Q) : option Q :=
  let n := length x in
  let yMean := reduce (fun sum yi _ => sum + yi) y 0 / ofNat n in
  let ssRes := reduce (fun sum yi i =>
                         let predicted := slope * nth i x 0 + intercept in
                         sum + Math.pow2 (yi - predicted)) y 0 in
  let ssTot := reduce (fun sum yi _ => sum + Math.pow2 (yi - yMean)) y 0 in
  option_map (fun r => 1 - r) (Number_div ssRes ssTot).

Section WithMath.
Context {M : MathLib}.

Definition stdDev (y : list Q) : Q := Math_sqrt (variance y).

(** The value pushed on [forecast] at loop index [i], on exact values: where
    [slope * xValue + intercept] is a half within a rounding error, the
    engine's double may round to the neighbouring integer. *)
Definition predictedAt (y : list Q) (i : nat) : Z :=
  let xValue := ofNat (length y + i) in
  Z.max 0 (Math.round (slope y * xValue + intercept y)).

Definition confidence (y : list Q) : Q := (196 # 100) * stdDev y.

Definition upperAt (y : list Q) (i : nat) : Z :=
  Z.max 0 (Math.round (inject_Z (predictedAt y i) + confidence y)).

Definition lowerAt (y : list Q) (i : nat) : Z :=
  Z.max 0 (Math.round (inject_Z (predictedAt y i) - confidence y)).

Definition generateForecast (historicalData : list Q) (months : nat) : Result :=
  if (length historicalData <? 3)%nat then
    let lastValue := number_or (nth_error historicalData (length historicalData - 1)) 0 in
    Flat (repeat (Math.max 0 lastValue) months)
  else
    let y := historicalData in
    let loop := seq 0 months in
    Fitted {| forecast := map (predictedAt y) loop;
              confidenceUpper := map (upperAt y) loop;
              confidenceLower := map (lowerAt y) loop;
              trend := slope y;
              rSquared := calculateRSquared (xs (length y)) y (slope y) (intercept y) |}.

End WithMath.

End Trend.

(** ** JavaScript values

    The values a Realtime Database snapshot holds: scalars and objects with
    string keys.  Reading a property of a value that is not an object gives
    [Undefined] (none of the property names the engine reads exists on a
    string, number or boolean); the engine reads properties of possibly
    missing values only behind a truthiness guard. *)

Class NumberLib := {
  Number_toString : Q -> string;           (* String(n) *)
  parseFloat_string : string -> option Q   (* parseFloat(s), None = NaN *)
}.

Module JS.

#[warnings="-register-all"]
Inductive Value :=
| Undefined
| Null
| Bool (b : bool)
| Num (q : Q)
| Str (s : string)
| Obj (fields : list (string * Value)).

Definition truthy (v : Value) : bool :=
  match v with
  | Undefined | Null => false
  | Bool b => b
  | Num q => negb (Qeq_bool q 0)
  | Str s => negb (String.eqb s EmptyString)
  | Obj _ => true
  end.

(** [a || b] *)
Definition or (a b : Value) : Value := if truthy a then a else b.

Fixpoint lookup (k : string) (fields : list (string * Value)) : Value :=
  match fields with
  | [] => Undefined
  | (k', v) :: rest => if String.eqb k' k then v else lookup k rest
  end.

(** [v.k] *)
Definition get (v : Value) (k : string) : Value :=
  match v with
  | Obj fields => lookup k fields
  | _ => Undefined
  end.

(** [typeof v === 'object' && v !== null] *)
Definition isObject (v : Value) : bool :=
  match v with
  | Obj _ => true
  | _ => false
  end.

(** [v === s] for a string [s] *)
Definition eqString (v : Value) (s : string) : bool :=
  match v with
  | Str s' => String.eqb s' s
  | _ => false
  end.

Section WithNumbers.
Context {N : NumberLib}.

(** [String(v)] *)
Definition toString (v : Value) : string :=
  match v with
  | Undefined => "undefined"
  | Null => "null"
  | Bool true => "true"
  | Bool false => "false"
  | Num q => Number_toString q
  | Str s => s
  | Obj _ => "[object Object]"
  end.

(** [parseFloat(v)]: the argument is converted to a string first;
    printing a number and parsing it back gives the number. *)
Definition parseFloat (v : Value) : option Q :=
  match v with
  | Num q => Some q
  | Str s => parseFloat_string s
  | _ => None
  end.

End WithNumbers.

End JS.

Notation "a '|||' b" := (JS.or a b) (at level 50, left associativity).

(** ** Historical Aggregator: field-name normalization ([fetchHistoricalData]) *)

Module Historical.
Section WithNumbers.
Context {N : NumberLib}.

Definition reportType (report : JS.Value) : string :=
  JS.toString (JS.get report "type" ||| JS.get report "crimeType"
               ||| JS.get report "crime_type" ||| JS.Str EmptyString).

Definition reportLocation (report : JS.Value) : string :=
  let reportLocation :=
    JS.get report "location" ||| JS.get report "location_address" ||| JS.get report "address" in
  let reportLocation :=
    if JS.isObject reportLocation
    then JS.get reportLocation "address" ||| JS.get reportLocation "name" ||| JS.Str "Unknown"
    else reportLocation in
  JS.toString (reportLocation ||| JS.Str EmptyString).

(** The predicate of the [filter] over [Object.values(allReports)]. *)
Definition matches (crimeType location : string) (report : JS.Value) : bool :=
  String.eqb (reportType report) crimeType
  && String.eqb (reportLocation report) location
  && JS.truthy (JS.get report "date").

Definition filterReports (crimeType location : string) (allReports : list JS.Value)
  : list JS.Value :=
  filter (matches crimeType location) allReports.

End WithNumbers.
End Historical.

(** ** Dates

    A [Date] is its time value: milliseconds since the epoch, an integer.
    The calendar accessors depend on the time zone of the host and are
    supplied by the runtime. *)

Class DateLib := {
  Date_parse : string -> option Z;   (* new Date(s); None is an Invalid Date *)
  toISOString : Z -> string;
  getHours : Z -> Z;
  getDay : Z -> Z;
  getDate : Z -> Z;
  getMonth : Z -> Z;
  setMonth : Z -> Z -> Z             (* the time value after d.setMonth(m) *)
}.

Definition msPerDay : Z := 1000 * 60 * 60 * 24.

(** [s.split('T')[0]] *)
Fixpoint beforeT (s : string) : string :=
  match s with
  | EmptyString => EmptyString
  | String c rest => if Ascii.eqb c "T" then EmptyString else String c (beforeT rest)
  end.

(** ** Objects keyed by small integers

    [Object.entries] lists integer-like keys in ascending order, so such an
    object is an association list with ascending, distinct keys. *)

Module IntObj.

Definition t := list (nat * Z).

Fixpoint get (k : nat) (o : t) : option Z :=
  match o with
  | [] => None
  | (k', v) :: rest => if (k' =? k)%nat then Some v else get k rest
  end.

Fixpoint set (k : nat) (v : Z) (o : t) : t :=
  match o with
  | [] => [(k, v)]
  | (k', v') :: rest =>
      if (k =? k')%nat then (k, v) :: rest
      else if (k <? k')%nat then (k, v) :: (k', v') :: rest
      else (k', v') :: set k v rest
  end.

End IntObj.

(** [Array.prototype.sort(cmp)]: a stable sort; [cmp a b <= 0] keeps [a]
    before [b]. *)
Fixpoint sortInsert {A : Type} (cmp : A -> A -> Z) (x : A) (l : list A) : list A :=
  match l with
  | [] => [x]
  | y :: rest => if (cmp x y <=? 0)%Z then x :: y :: rest else y :: sortInsert cmp x rest
  end.

Fixpoint sortBy {A : Type} (cmp : A -> A -> Z) (l : list A) : list A :=
  match l with
  | [] => []
  | x :: rest => sortInsert cmp x (sortBy cmp rest)
  end.

(** ** Pattern-Based Daily Forecaster ([generateCrimeForecast]) *)

Module Day.
Record DailyForecast := {
  date : string;
  dayOfWeek : string;
  predictedCrimes : Z;
  hourlyBreakdown : IntObj.t;
  riskLevel : string
}.
End Day.
Abbreviation DailyForecast := Day.DailyForecast.

Module Daily.

(** An element of [historicalData]; [timestamp] is the time value of
    [new Date(item.timestamp)] (the caller keeps valid dates only). *)
Record Item := { timestamp : Z }.

(** The pattern tables: [undefined] where nothing was counted. *)
Definition Patterns := Z -> option Q.

Definition noPatterns : Patterns := fun _ => None.

(** [p[k] = (p[k] || 0) + 1] *)
Definition bump (k : Z) (p : Patterns) : Patterns :=
  fun k' => if (k' =? k)%Z then Some (number_or (p k) 0 + 1) else p k'.

Definition dayNames : list string :=
  ["Sunday"; "Monday"; "Tuesday"; "Wednesday"; "Thursday"; "Friday"; "Saturday"]%string.

Definition forecastDays (period : string) : nat :=
  if String.eqb period "1week" then 7%nat
  else if String.eqb period "2weeks" then 14%nat else 30%nat.

(** [undefined / d] is [NaN]. *)
Definition divPattern (c : option Q) (d : Q) : option Q :=
  match c with
  | Some c => Number_div c d
  | None => None
  end.

(** The risk level on exact values.  The engine compares doubles, and its
    thresholds [baseRate * 1.5] and [baseRate * 1.2] are rounded products; a
    prediction within a rounding error of a threshold may get another level
    there.  The level as the engine computes it is [Daily64.classify]. *)
Definition classify (dailyPrediction baseRate : Q) : string :=
  if Qlt_le_dec (baseRate * (15 # 10)) dailyPrediction then "High"
  else if Qlt_le_dec (baseRate * (12 # 10)) dailyPrediction then "Medium"
  else "Low".

Section WithDates.
Context {D : DateLib}.

(** [now] is the clock reading; [random k] is the [k]-th draw of
    [Math.random()], one per forecast day. *)
Variable now : Z.
Variable random : nat -> Q.

Definition hourlyPatterns (historicalData : list Item) : Patterns :=
  fold_left (fun p item => bump (getHours (timestamp item)) p) historicalData noPatterns.
Definition dailyPatterns (historicalData : list Item) : Patterns :=
  fold_left (fun p item => bump (getDay (timestamp item)) p) historicalData noPatterns.
Definition weeklyPatterns (historicalData : list Item) : Patterns :=
  fold_left (fun p item => bump (Qfloor (inject_Z (getDate (timestamp item)) / 7)) p)
            historicalData noPatterns.

Definition totalCrimes (historicalData : list Item) : Q := ofNat (length historicalData).

Definition daysInHistory (historicalData : list Item) : Q :=
  match historicalData with
  | [] => 1
  | first :: _ => Math.max 1 (inject_Z (now - timestamp first) / inject_Z msPerDay)
  end.

Definition baseRate (historicalData : list Item) : Q :=
  totalCrimes historicalData / daysInHistory historicalData.

Definition forecastDate (i : nat) : Z := (now + Z.of_nat i * 24 * 60 * 60 * 1000)%Z.

(** [dailyPrediction] after the three multipliers, for loop index [i >= 1]. *)
Definition dailyPrediction (historicalData : list Item) (i : nat) : Q :=
  let dayOfWeek := getDay (forecastDate i) in
  let weekOfMonth := Qfloor (inject_Z (getDate (forecastDate i)) / 7) in
  let dailyPrediction := baseRate historicalData in
  let dayMultiplier :=
    number_or (divPattern (dailyPatterns historicalData dayOfWeek)
                          (totalCrimes historicalData / 7)) 1 in
  let dailyPrediction := dailyPrediction * dayMultiplier in
  let weekMultiplier :=
    number_or (divPattern (weeklyPatterns historicalData weekOfMonth)
                          (totalCrimes historicalData / 4)) 1 in
  let dailyPrediction := dailyPrediction * weekMultiplier in
  let randomFactor := (8 # 10) + random (i - 1) * (4 # 10) in
  dailyPrediction * randomFactor.

Definition hourMultiplier (historicalData : list Item) (hour : nat) : Q :=
  number_or (Number_div (number_or (hourlyPatterns historicalData (Z.of_nat hour)) 0)
                        (totalCrimes historicalData / 24)) 1.

Definition hourlyBreakdownFor (historicalData : list Item) (dailyPrediction : Q) : IntObj.t :=
  fold_left (fun o hour =>
               IntObj.set hour
                 (Math.round (dailyPrediction / 24 * hourMultiplier historicalData hour)) o)
            (seq 0 24) [].

Definition forecastDay (historicalData : list Item) (i : nat) : DailyForecast :=
  let dailyPrediction := dailyPrediction historicalData i in
  {| Day.date := beforeT (toISOString (forecastDate i));
     Day.dayOfWeek := nth (Z.to_nat (getDay (forecastDate i))) dayNames "undefined"%string;
     Day.predictedCrimes := Math.round dailyPrediction;
     Day.hourlyBreakdown := hourlyBreakdownFor historicalData dailyPrediction;
     Day.riskLevel := classify dailyPrediction (baseRate historicalData) |}.

Definition generateCrimeForecast (historicalData : list Item) (period : string)
  : list DailyForecast :=
  match historicalData with
  | [] => []
  | _ => map (forecastDay historicalData) (seq 1 (forecastDays period))
  end.

End WithDates.
End Daily.

(** ** Insight Synthesizer ([generateForecastInsights]) *)

Module Insight.

Record PeakHour := { hour : Z; count : Z }.
Record PeakDay := { date : string; dayOfWeek : string; crimes : Z }.

Record Insights := {
  predictedCrimeCount : Z;
  riskLevel : string;
  peakHours : list PeakHour;
  peakDays : list PeakDay;
  recommendations : list string
}.

Definition empty : Insights :=
  {| predictedCrimeCount := 0; riskLevel := "Low"; peakHours := []; peakDays := [];
     recommendations := [] |}.

Definition totalPredicted (forecastData : list DailyForecast) : Z :=
  fold_left (fun sum day => (sum + Day.predictedCrimes day)%Z) forecastData 0%Z.

Definition hourlyTotals (forecastData : list DailyForecast) : IntObj.t :=
  fold_left
    (fun totals day =>
       fold_left
         (fun totals entry =>
            let '(hour, count) := entry in
            IntObj.set hour
              (match IntObj.get hour totals with Some v => v | None => 0 end + count)%Z totals)
         (Day.hourlyBreakdown day) totals)
    forecastData [].

Definition peakHoursOf (forecastData : list DailyForecast) : list PeakHour :=
  map (fun entry => {| hour := Z.of_nat (fst entry); count := snd entry |})
      (firstn 3 (sortBy (fun a b => (snd b - snd a)%Z) (hourlyTotals forecastData))).

(** [forecastData.sort(...)]: the array itself, after the call. *)
Definition sortedByCrimes (forecastData : list DailyForecast) : list DailyForecast :=
  sortBy (fun a b => (Day.predictedCrimes b - Day.predictedCrimes a)%Z) forecastData.

Definition highRiskDays (forecastData : list DailyForecast) : nat :=
  length (filter (fun day => String.eqb (Day.riskLevel day) "High") forecastData).

Definition overallRisk (highRiskDays days : nat) : string :=
  if Qlt_le_dec (ofNat days * (3 # 10)) (ofNat highRiskDays) then "High"
  else if Qlt_le_dec (ofNat days * (1 # 10)) (ofNat highRiskDays) then "Medium"
  else "Low".

Definition recommend (riskLevel : string) (peakHours : list PeakHour)
           (peakDays : list PeakDay) (totalPredicted : Z) (historical : nat) : list string :=
  (if String.eqb riskLevel "High"
   then ["Increase police patrols during peak hours";
         "Deploy additional resources in high-risk areas"]
   else [])%string
  ++ (if existsb (fun h => (18 <=? hour h)%Z || (hour h <=? 6)%Z) peakHours
      then ["Enhance night-time security measures"] else [])%string
  ++ (if existsb (fun d => String.eqb (dayOfWeek d) "Friday"
                           || String.eqb (dayOfWeek d) "Saturday") peakDays
      then ["Prepare for weekend crime surge"] else [])%string
  ++ (if Qlt_le_dec (ofNat historical * (5 # 10)) (inject_Z totalPredicted)
      then ["Consider community awareness campaigns"] else [])%string.

(** The function returns the insights; the second component is the
    argument array [forecastData] as the call leaves it. *)
Definition generateForecastInsights {A : Type}
           (forecastData : list DailyForecast) (historicalData : list A)
  : Insights * list DailyForecast :=
  match forecastData with
  | [] => (empty, forecastData)
  | _ =>
      let totalPredicted := totalPredicted forecastData in
      let peakHours := peakHoursOf forecastData in
      let forecastData := sortedByCrimes forecastData in
      let peakDays :=
        map (fun day => {| date := Day.date day; dayOfWeek := Day.dayOfWeek day;
                           crimes := Day.predictedCrimes day |})
            (firstn 3 forecastData) in
      let riskLevel := overallRisk (highRiskDays forecastData) (length forecastData) in
      ({| predictedCrimeCount := totalPredicted;
          riskLevel := riskLevel;
          peakHours := peakHours;
          peakDays := peakDays;
          recommendations :=
            recommend riskLevel peakHours peakDays totalPredicted (length historicalData) |},
       forecastData)
  end.

End Insight.

(** ** Spatial Density Aggregator ([createHeatmapData]) *)

(** [n.toString()] for a natural number. *)
Definition digits (n : Z) : string := NilZero.string_of_uint (N.to_uint (Z.to_N n)).

(** The last four decimal digits of [n], zero padded. *)
Definition fourDigits (n : Z) : string :=
  match digits (10000 + n mod 10000) with
  | String _ rest => rest
  | EmptyString => EmptyString
  end.

(** [x.toFixed(4)] for [|x| < 1e21]: the integer [n] with [n / 10^4] nearest
    to [|x|] (the larger on a tie), printed with four fractional digits. *)
Definition toFixed4 (x : Q) : string :=
  let n := Qfloor (Qabs x * 10000 + (1 # 2)) in
  ((if Qlt_le_dec x 0 then "-" else EmptyString) ++ digits (n / 10000) ++ "." ++ fourDigits n)%string.

Module Heatmap.

Record Group := {
  lat : Q;
  lng : Q;
  count : Z;
  reports : list JS.Value
}.

(** A [Map] with string keys, in insertion order. *)
Definition Groups := list (string * Group).

Fixpoint has (key : string) (m : Groups) : bool :=
  match m with
  | [] => false
  | (k, _) :: rest => String.eqb k key || has key rest
  end.

(** [m.get(key).count++; m.get(key).reports.push(report)] *)
Fixpoint update (key : string) (report : JS.Value) (m : Groups) : Groups :=
  match m with
  | [] => []
  | (k, g) :: rest =>
      if String.eqb k key
      then (k, {| lat := lat g; lng := lng g; count := count g + 1;
                  reports := reports g ++ [report] |}) :: rest
      else (k, g) :: update key report rest
  end.

Definition isZero (x : Q) : bool := Qeq_bool x 0.
Definition lt (a b : Q) : bool := if Qlt_le_dec a b then true else false.

Section WithNumbers.
Context {N : NumberLib}.

(** The pair [(lat, lng)] after the two [parseFloat] calls; [None] is [NaN]. *)
Definition coordinates (report : JS.Value) : option Q * option Q :=
  let location := JS.get report "location" in
  if JS.truthy location then
    (JS.parseFloat (JS.get location "latitude" ||| JS.get location "lat"),
     JS.parseFloat (JS.get location "longitude" ||| JS.get location "lng"))
  else
    (JS.parseFloat (JS.get report "latitude" ||| JS.get report "lat"),
     JS.parseFloat (JS.get report "longitude" ||| JS.get report "lng")).

(** The body of the [forEach] over the filtered reports. *)
Definition addReport (locationGroups : Groups) (report : JS.Value) : Groups :=
  match coordinates report with
  | (Some lat, Some lng) =>
      if isZero lat || isZero lng then locationGroups
      else if lt lat 4 || lt 22 lat || lt lng 116 || lt 127 lng then locationGroups
      else
        let key := (toFixed4 lat ++ "," ++ toFixed4 lng)%string in
        if has key locationGroups then update key report locationGroups
        else locationGroups ++ [(key, {| lat := lat; lng := lng; count := 1;
                                         reports := [report] |})]
  | _ => locationGroups
  end.

Definition locationGroups (filteredReports : list JS.Value) : Groups :=
  fold_left addReport filteredReports [].

Definition heatPoint (intensity : Q) (group : Group) : Q * Q * Q :=
  let baseIntensity := Math.min 1 (inject_Z (count group) / 10) in
  let userIntensityMultiplier := intensity / 10 in
  let finalIntensity := Math.min 1 (baseIntensity * userIntensityMultiplier) in
  (lat group, lng group, finalIntensity).

Definition createHeatmapData (intensity : Q) (filteredReports : list JS.Value)
  : list (Q * Q * Q) :=
  map (fun entry => heatPoint intensity (snd entry)) (locationGroups filteredReports).

End WithNumbers.
End Heatmap.

(** ** The statistical fallback of [fetchCrimeForecast] *)

Module Fetch.

(** One prediction of the external service. *)
Record MLPrediction := {
  date : string;
  day_of_week : string;
  predicted_crimes : Q;
  risk_level : string
}.

(** The component state the function writes. *)
Record State := {
  forecastLoading : bool;
  forecastError : option string;
  forecastData : list DailyForecast;
  forecastInsights : option Insight.Insights
}.

(** An element of [historicalData] as far as it is read afterwards. *)
Record Item := {
  id : string;
  timestamp : JS.Value;
  crimeType : JS.Value
}.

Definition noData : string :=
  "No historical crime data available for forecasting".
Definition insufficient : string :=
  "Insufficient historical data for accurate forecasting (minimum 10 records required)".

Section WithRuntime.
Context {N : NumberLib} {D : DateLib}.

Variable now : Z.
Variable random : nat -> Q.

(** The time value of [new Date(v)]; [None] is an Invalid Date. *)
Definition newDate (v : JS.Value) : option Z :=
  match v with
  | JS.Str s => Date_parse s
  | JS.Num q =>
      if Qle_bool (Qabs q) (inject_Z (864 * 10 ^ 13))
      then Some (if Qle_bool 0 q then Qfloor q else Qceiling q) else None
  | JS.Bool b => Some (if b then 1 else 0)%Z
  | JS.Null => Some 0%Z
  | JS.Undefined => None
  | JS.Obj _ => Date_parse "[object Object]"
  end.

Definition toItem (entry : string * JS.Value) : Item :=
  let '(key, data) := entry in
  let reportData :=
    if JS.truthy (JS.get data "reportId")
    then JS.get data (JS.toString (JS.get data "reportId")) ||| data
    else data in
  {| id := key;
     timestamp := JS.get reportData "dateTime" ||| JS.get reportData "createdAt"
                  ||| JS.get reportData "timestamp" ||| JS.Str (toISOString now);
     crimeType := JS.get reportData "crimeType" ||| JS.Str "Unknown" |}.

Definition threeMonthsAgo : Z := setMonth now (getMonth now - 3).

(** The predicate of the [filter]: the selected crime type, then the
    three-month cutoff. *)
Definition qualifies (forecastCrimeType : string) (item : Item) : bool :=
  if negb (String.eqb forecastCrimeType EmptyString)
     && negb (JS.eqString (crimeType item) forecastCrimeType)
  then false
  else match newDate (timestamp item) with
       | Some t => (threeMonthsAgo <=? t)%Z
       | None => false
       end.

Definition historicalData (forecastCrimeType : string) (rawData : list (string * JS.Value))
  : list Item :=
  filter (qualifies forecastCrimeType) (map toItem rawData).

Definition asDailyItem (item : Item) : Daily.Item :=
  {| Daily.timestamp := match newDate (timestamp item) with Some t => t | None => 0%Z end |}.

Definition fromML (pred : MLPrediction) : DailyForecast :=
  {| Day.date := date pred;
     Day.dayOfWeek := day_of_week pred;
     Day.predictedCrimes := Math.round (predicted_crimes pred);
     Day.hourlyBreakdown := [];
     Day.riskLevel := risk_level pred |}.

(** [ml] is the outcome of the attempt on the prediction service: the
    predictions, or [None] when no model is trained or a request fails.
    [snapshot] is the read of the report store: [None] when nothing
    exists, else [Object.entries] of its value.  The state holds the very
    array that [generateForecastInsights] is then called on. *)
Definition fetchCrimeForecast (st : State) (ml : option (list MLPrediction))
           (snapshot : option (list (string * JS.Value)))
           (forecastCrimeType forecastPeriod : string) : State :=
  match ml with
  | Some mlPredictions =>
      let forecast := map fromML mlPredictions in
      let '(insights, forecast) := Insight.generateForecastInsights forecast (@nil Item) in
      {| forecastLoading := false; forecastError := None;
         forecastData := forecast; forecastInsights := Some insights |}
  | None =>
      match snapshot with
      | None =>
          {| forecastLoading := false; forecastError := Some noData;
             forecastData := forecastData st; forecastInsights := forecastInsights st |}
      | Some rawData =>
          let historicalData := historicalData forecastCrimeType rawData in
          if (length historicalData <? 10)%nat then
            {| forecastLoading := false; forecastError := Some insufficient;
               forecastData := forecastData st; forecastInsights := forecastInsights st |}
          else
            let forecast :=
              Daily.generateCrimeForecast now random
                (map asDailyItem historicalData) forecastPeriod in
            let '(insights, forecast) :=
              Insight.generateForecastInsights forecast historicalData in
            {| forecastLoading := false; forecastError := None;
               forecastData := forecast; forecastInsights := Some insights |}
      end
  end.

End WithRuntime.
End Fetch.

(** ** A reference runtime

    Used to evaluate the functions on concrete inputs: a square root exact
    to [2^-52], decimal printing and parsing of numbers, and the calendar of
    a host whose time zone is UTC. *)

Module Reference.

Definition sqrt (v : Q) : Q :=
  Z.sqrt (Qfloor (v * inject_Z (4 ^ 52))) # (2 ^ 52).

Definition math : MathLib := {| Math_sqrt := sqrt |}.

(** *** Numbers *)

(** The first [k] digits of the fraction [r] in [0, 1). *)
Fixpoint fraction (k : nat) (r : Q) : string :=
  match k with
  | O => EmptyString
  | S k' =>
      if Qeq_bool r 0 then EmptyString
      else let d := Qfloor (r * 10) in
           (digits d ++ fraction k' (r * 10 - inject_Z d))%string
  end.

Definition numberToString (q : Q) : string :=
  let a := Qabs q in
  let whole := Qfloor a in
  let frac := fraction 20 (a - inject_Z whole) in
  ((if Qlt_le_dec q 0 then "-" else EmptyString) ++ digits whole
   ++ (if String.eqb frac EmptyString then EmptyString else "." ++ frac))%string.

Definition digitValue (c : ascii) : option Z :=
  let n := nat_of_ascii c in
  if ((48 <=? n) && (n <=? 57))%nat then Some (Z.of_nat (n - 48)) else None.

(** The longest prefix of digits: its value, its length, the rest. *)
Fixpoint readDigits (s : string) (acc : Z) (len : nat) : Z * nat * string :=
  match s with
  | String c rest =>
      match digitValue c with
      | Some d => readDigits rest (acc * 10 + d) (S len)
      | None => (acc, len, s)
      end
  | EmptyString => (acc, len, s)
  end.

Definition parseUnsigned (s : string) : option Q :=
  let '(whole, n, rest) := readDigits s 0 0 in
  match rest with
  | String "." rest' =>
      let '(frac, m, _) := readDigits rest' 0 0 in
      if ((n =? 0) && (m =? 0))%nat then None
      else Some (inject_Z whole + inject_Z frac / inject_Z (10 ^ Z.of_nat m))
  | _ => if (n =? 0)%nat then None else Some (inject_Z whole)
  end.

Definition parseFloatString (s : string) : option Q :=
  match s with
  | String "-" rest => option_map Qopp (parseUnsigned rest)
  | String "+" rest => parseUnsigned rest
  | _ => parseUnsigned s
  end.

Definition numbers : NumberLib :=
  {| Number_toString := numberToString; parseFloat_string := parseFloatString |}.

(** *** The proleptic Gregorian calendar, in UTC *)

Definition daysFromCivil (y m d : Z) : Z :=
  let y := if (m <=? 2)%Z then (y - 1)%Z else y in
  let era := (y / 400)%Z in
  let yoe := (y - era * 400)%Z in
  let doy := ((153 * (if (2 <? m)%Z then m - 3 else m + 9) + 2) / 5 + d - 1)%Z in
  let doe := (yoe * 365 + yoe / 4 - yoe / 100 + doy)%Z in
  (era * 146097 + doe - 719468)%Z.

Definition civilFromDays (z : Z) : Z * Z * Z :=
  let z := (z + 719468)%Z in
  let era := (z / 146097)%Z in
  let doe := (z - era * 146097)%Z in
  let yoe := ((doe - doe / 1460 + doe / 36524 - doe / 146096) / 365)%Z in
  let doy := (doe - (365 * yoe + yoe / 4 - yoe / 100))%Z in
  let mp := ((5 * doy + 2) / 153)%Z in
  let d := (doy - (153 * mp + 2) / 5 + 1)%Z in
  let m := if (mp <? 10)%Z then (mp + 3)%Z else (mp - 9)%Z in
  ((yoe + era * 400 + (if (m <=? 2)%Z then 1 else 0))%Z, m, d).

Definition dayNumber (t : Z) : Z := (t / msPerDay)%Z.
Definition timeInDay (t : Z) : Z := (t mod msPerDay)%Z.

Definition year (t : Z) : Z := fst (fst (civilFromDays (dayNumber t))).
Definition month (t : Z) : Z := (snd (fst (civilFromDays (dayNumber t))) - 1)%Z.
Definition dayOfMonth (t : Z) : Z := snd (civilFromDays (dayNumber t)).
Definition weekDay (t : Z) : Z := ((dayNumber t + 4) mod 7)%Z.
Definition hours (t : Z) : Z := (timeInDay t / 3600000)%Z.

Definition withMonth (t m : Z) : Z :=
  let ym := (year t * 12 + m)%Z in
  ((daysFromCivil (ym / 12) (ym mod 12 + 1) 1 + (dayOfMonth t - 1)) * msPerDay
   + timeInDay t)%Z.

(** [n] printed with at least [k] digits. *)
Fixpoint padded (k : nat) (n : Z) : string :=
  match k with
  | O => EmptyString
  | S k' => (padded k' (n / 10) ++ digits (n mod 10))%string
  end.

Definition isoString (t : Z) : string :=
  let s := timeInDay t in
  (padded 4 (year t) ++ "-" ++ padded 2 (month t + 1) ++ "-" ++ padded 2 (dayOfMonth t)
   ++ "T" ++ padded 2 (s / 3600000) ++ ":" ++ padded 2 (s / 60000 mod 60)
   ++ ":" ++ padded 2 (s / 1000 mod 60) ++ "." ++ padded 3 (s mod 1000) ++ "Z")%string.

(** Exactly [k] digits, then the rest. *)
Fixpoint readFixed (k : nat) (s : string) (acc : Z) : option (Z * string) :=
  match k, s with
  | O, _ => Some (acc, s)
  | S k', String c rest =>
      match digitValue c with
      | Some d => readFixed k' rest (acc * 10 + d)
      | None => None
      end
  | S _, EmptyString => None
  end.

Definition expect (c : ascii) (s : string) : option string :=
  match s with
  | String c' rest => if Ascii.eqb c c' then Some rest else None
  | EmptyString => None
  end.

Definition bind {A B : Type} (o : option A) (f : A -> option B) : option B :=
  match o with
  | Some a => f a
  | None => None
  end.

Notation "'do' x <- e ; k" := (bind e (fun x => k))
  (at level 10, x pattern, e at level 100, k at level 200).

(** The formats [YYYY-MM-DD] and [YYYY-MM-DDTHH:mm:ss.sssZ]. *)
Definition parseDate (s : string) : option Z :=
  do (y, s) <- readFixed 4 s 0; do s <- expect "-" s;
  do (m, s) <- readFixed 2 s 0; do s <- expect "-" s;
  do (d, s) <- readFixed 2 s 0;
  if ((1 <=? m) && (m <=? 12) && (1 <=? d) && (d <=? 31))%Z then
    let day := (daysFromCivil y m d * msPerDay)%Z in
    match s with
    | EmptyString => Some day
    | _ =>
        do s <- expect "T" s; do (h, s) <- readFixed 2 s 0; do s <- expect ":" s;
        do (mi, s) <- readFixed 2 s 0; do s <- expect ":" s;
        do (sec, s) <- readFixed 2 s 0; do s <- expect "." s;
        do (ms, s) <- readFixed 3 s 0; do s <- expect "Z" s;
        match s with
        | EmptyString =>
            if ((h <? 24) && (mi <? 60) && (sec <? 60))%Z
            then Some (day + h * 3600000 + mi * 60000 + sec * 1000 + ms)%Z else None
        | _ => None
        end
    end
  else None.

Definition utc : DateLib :=
  {| Date_parse := parseDate;
     toISOString := isoString;
     getHours := hours;
     getDay := weekDay;
     getDate := dayOfMonth;
     getMonth := month;
     setMonth := withMonth |}.

End Reference.

(** ** Monthly buckets and labels ([fetchHistoricalData], [generateForecastLabels]) *)

(** [Number(s)] for a string, and [getFullYear], are supplied by the runtime. *)
Class StringLib := { Number_ofString : string -> option Q }.
Class YearLib := { getFullYear : Z -> Z }.

(** [String(n)] for an integer [n]. *)
Definition intString (z : Z) : string :=
  if (z <? 0)%Z then ("-" ++ digits (- z))%string else digits z.

(** [s.padStart(2, '0')] *)
Definition padStart2 (s : string) : string :=
  match String.length s with
  | O => "00"%string
  | S O => ("0" ++ s)%string
  | _ => s
  end.

(** [s.split(c)] *)
Fixpoint splitOn (c : ascii) (s : string) : list string :=
  match s with
  | EmptyString => [EmptyString]
  | String a rest =>
      if Ascii.eqb a c then EmptyString :: splitOn c rest
      else match splitOn c rest with
           | part :: parts => String a part :: parts
           | [] => [String a EmptyString]
           end
  end.

(** The default comparison of [Array.prototype.sort]: by code units. *)
Definition compareStrings (a b : string) : Z :=
  match String.compare a b with
  | Lt => (-1)%Z
  | Eq => 0%Z
  | Gt => 1%Z
  end.

(** The truncation of a number to an integer, as the [Date] constructor
    takes its arguments. *)
Definition toInteger (q : Q) : Z := if Qle_bool 0 q then Qfloor q else Qceiling q.

(** [(d.getFullYear(), d.getMonth())] for [d = new Date(year, monthIndex, 1)]:
    the month index carries into the year, and a year from 0 to 99 counts
    from 1900 (within the range of time values). *)
Definition firstOfMonth (year monthIndex : Z) : Z * Z :=
  let year := if ((0 <=? year) && (year <=? 99))%Z then (1900 + year)%Z else year in
  ((year + monthIndex / 12)%Z, (monthIndex mod 12)%Z).

(** The label of a year and a month index (0 is January); [NaN-NaN] for an
    Invalid Date. *)
Definition labelOf (fullYear month : Z) : string :=
  (intString fullYear ++ "-" ++ padStart2 (intString (month + 1)))%string.

Definition invalidLabel : string := "NaN-NaN".

Module Monthly.

(** [monthlyData]: an object with the month keys in insertion order. *)
Definition Buckets := list (string * Z).

(** [if (!m[key]) m[key] = 0; m[key]++] *)
Fixpoint increment (key : string) (m : Buckets) : Buckets :=
  match m with
  | [] => [(key, 1%Z)]
  | (k, v) :: rest =>
      if String.eqb k key then (k, ((if (v =? 0)%Z then 0 else v) + 1)%Z) :: rest
      else (k, v) :: increment key rest
  end.

Fixpoint lookup (key : string) (m : Buckets) : Z :=
  match m with
  | [] => 0%Z
  | (k, v) :: rest => if String.eqb k key then v else lookup key rest
  end.

Record HistoricalData := {
  labels : list string;
  data : list Z;
  rawData : list JS.Value
}.

Definition noReports : string := "No crime reports found in database".

Section WithRuntime.
Context {N : NumberLib} {D : DateLib} {Y : YearLib} {S : StringLib} {M : MathLib}.

(** The month key of [new Date(report.date)]. *)
Definition monthKey (report : JS.Value) : string :=
  match Fetch.newDate (JS.get report "date") with
  | Some t => labelOf (getFullYear t) (getMonth t)
  | None => invalidLabel
  end.

(** [new Date(a.date) - new Date(b.date)]; a [NaN] counts as 0 in a sort.
    With an invalid date among the reports the comparison is not an order
    and the engine may leave the array in another order than the one taken
    here; labels and counts do not depend on the order. *)
Definition byDate (a b : JS.Value) : Z :=
  match Fetch.newDate (JS.get a "date"), Fetch.newDate (JS.get b "date") with
  | Some ta, Some tb => (ta - tb)%Z
  | _, _ => 0%Z
  end.

Definition monthlyData (reports : list JS.Value) : Buckets :=
  fold_left (fun m report => increment (monthKey report) m) reports [].

(** [snapshot] is [None] when nothing exists at the reference, else
    [Object.values] of its value. *)
Definition fetchHistoricalData (snapshot : option (list JS.Value))
           (crimeType location : string) : string + HistoricalData :=
  match snapshot with
  | None => inl noReports
  | Some allReports =>
      let reports := Historical.filterReports crimeType location allReports in
      let reports := sortBy byDate reports in
      let monthlyData := monthlyData reports in
      let sortedMonths := sortBy compareStrings (map fst monthlyData) in
      let counts := map (fun month => lookup month monthlyData) sortedMonths in
      inr {| labels := sortedMonths; data := counts; rawData := reports |}
  end.

Variable now : Z.

(** [undefined] and unreadable parts are [NaN] in the arithmetic. *)
Definition forecastLabel (year month : option Q) (i : nat) : string :=
  match year, month with
  | Some year, Some month =>
      let '(fullYear, monthIndex) :=
        firstOfMonth (toInteger year) (toInteger (month - 1 + ofNat i)) in
      labelOf fullYear monthIndex
  | _, _ => invalidLabel
  end.

Definition generateForecastLabels (historicalLabels : list string) (months : nat)
  : list string :=
  match historicalLabels with
  | [] =>
      map (fun i =>
             let '(fullYear, monthIndex) :=
               firstOfMonth (getFullYear now) (getMonth now + Z.of_nat i) in
             labelOf fullYear monthIndex)
          (seq 1 months)
  | _ =>
      let lastLabel := last historicalLabels EmptyString in
      let parts := map Number_ofString (splitOn "-" lastLabel) in
      let year := nth 0 parts None in
      let month := nth 1 parts None in
      map (forecastLabel year month) (seq 1 months)
  end.

(** The response of [performLocalForecasting]; a field is [None] where the
    object holds [undefined]. *)
Record Response := {
  crime_type : string;
  location : string;
  forecast_months : nat;
  history_labels : list string;
  history_data : list Z;
  forecast_labels : list string;
  forecast_data : option (list Z);
  confidence_upper : option (list Z);
  confidence_lower : option (list Z);
  trend : option Q;
  r_squared : option (option Q);
  data_points : nat;
  last_known_value : option Z
}.

Definition noHistory (crimeType location : string) : string :=
  ("No historical data found for " ++ crimeType ++ " in " ++ location)%string.

(** A property of the result of [generateForecast]: an array has none of
    the properties of the fitted object. *)
Definition fitField {A : Type} (field : Trend.Fit -> A) (result : Trend.Result) : option A :=
  match result with
  | Trend.Fitted fit => Some (field fit)
  | Trend.Flat _ => None
  end.

Definition performLocalForecasting (snapshot : option (list JS.Value))
           (crimeType location : string) (months : nat) : string + Response :=
  match fetchHistoricalData snapshot crimeType location with
  | inl error => inl error
  | inr historicalData =>
      match data historicalData with
      | [] => inl (noHistory crimeType location)
      | _ =>
          let forecastResult :=
            Trend.generateForecast (map inject_Z (data historicalData)) months in
          let forecastLabels := generateForecastLabels (labels historicalData) months in
          inr {| crime_type := crimeType;
                 location := location;
                 forecast_months := months;
                 history_labels := labels historicalData;
                 history_data := data historicalData;
                 forecast_labels := forecastLabels;
                 forecast_data := fitField Trend.forecast forecastResult;
                 confidence_upper := fitField Trend.confidenceUpper forecastResult;
                 confidence_lower := fitField Trend.confidenceLower forecastResult;
                 trend := fitField Trend.trend forecastResult;
                 r_squared := fitField Trend.rSquared forecastResult;
                 data_points := length (data historicalData);
                 last_known_value :=
                   nth_error (data historicalData) (length (data historicalData) - 1) |}
      end
  end.

End WithRuntime.
End Monthly.

(** A reference for [Number] on strings and for [getFullYear]: a string of
    decimal digits (the empty string included) is read as its decimal value,
    any other string as [NaN]; years are those of the UTC calendar. *)
Module ReferenceText.

Definition numberOfString (s : string) : option Q :=
  option_map (fun d => inject_Z (Z.of_N (N.of_uint d))) (NilEmpty.uint_of_string s).

Definition strings : StringLib := {| Number_ofString := numberOfString |}.
Definition years : YearLib := {| getFullYear := Reference.year |}.

End ReferenceText.

(** ** Text and calendar functions of the host *)

Class HostLib := {
  toLowerCase : string -> string;
  toLocaleTimeString : Z -> string;  (* en-US, two-digit hour and minute, 24 hours *)
  parseInt : string -> option Z;     (* None is NaN *)
  setDate : Z -> Z -> Z              (* the time value after d.setDate(n) *)
}.

(** [s.includes(sub)] *)
Fixpoint includes (s sub : string) : bool :=
  String.prefix sub s
  || match s with
     | EmptyString => false
     | String _ rest => includes rest sub
     end.

(** [Array.prototype.filter] with a predicate that may throw: [None] is the
    exception, which ends the call. *)
Fixpoint filterOrThrow {A : Type} (keep : A -> option bool) (l : list A) : option (list A) :=
  match l with
  | [] => Some []
  | x :: rest =>
      match keep x with
      | None => None
      | Some b =>
          match filterOrThrow keep rest with
          | None => None
          | Some kept => Some (if b then x :: kept else kept)
          end
      end
  end.

(** [x.toFixed(1)] for [|x| < 1e21], and the number that string reads as. *)
Definition tenths (x : Q) : Z := Qfloor (Qabs x * 10 + (1 # 2)).

Definition toFixed1 (x : Q) : string :=
  ((if Qlt_le_dec x 0 then "-" else EmptyString)
   ++ digits (tenths x / 10) ++ "." ++ digits (tenths x mod 10))%string.

Definition fixed1Value (x : Q) : Q :=
  if Qlt_le_dec x 0 then - (inject_Z (tenths x) / 10) else inject_Z (tenths x) / 10.

(** ** Doubles

    A JavaScript number as the engine holds it: a binary64 value, with the
    arithmetic of IEEE 754 ([PrimFloat]).  A decimal literal denotes the
    nearest binary64 value, as it does in the source. *)

Module Double.

(** The exact value of a finite number; [None] for [NaN] and the
    infinities. *)
Definition value (x : float) : option Q :=
  match Prim2SF x with
  | S754_zero _ => Some 0
  | S754_finite s m e =>
      let v := if (0 <=? e)%Z then inject_Z (Zpos m * 2 ^ e)
               else Zpos m # Z.to_pos (2 ^ (- e)) in
      Some (if s then - v else v)
  | _ => None
  end.

(** The sign bit: set for negative numbers, [-0] and [-Infinity]. *)
Definition negative (x : float) : bool :=
  match Prim2SF x with
  | S754_zero s => s
  | S754_infinity s => s
  | S754_finite s _ _ => s
  | S754_nan => false
  end.

(** The number that holds an integer (exactly, below [2^53]). *)
Definition ofZ (z : Z) : float :=
  if (z <? 0)%Z then (- of_uint63 (Uint63.of_Z (- z)))%float
  else of_uint63 (Uint63.of_Z z).

Definition ofNat (n : nat) : float := ofZ (Z.of_nat n).

(** Truthiness of a number: neither zero nor [NaN]. *)
Definition truthy (x : float) : bool := negb (x =? 0)%float && negb (is_nan x).

(** [v || d] for a number [v] that may be [undefined] ([None]). *)
Definition orElse (v : option float) (d : float) : float :=
  match v with
  | Some x => if truthy x then x else d
  | None => d
  end.

(** [Math.max(a, b)] *)
Definition max (a b : float) : float :=
  if is_nan a then a
  else if is_nan b then b
  else if (a <? b)%float then b
  else if (b <? a)%float then a
  else if negative a then b else a.

(** [Math.round(x)]: the nearest integer, the larger one on a tie; a
    result of zero keeps the sign of [x]. *)
Definition round (x : float) : float :=
  match value x with
  | Some q =>
      let n := Qfloor (q + (1 # 2)) in
      if (n =? 0)%Z then (if negative x then (-0)%float else 0%float)
      else if Qle_bool (inject_Z (2 ^ 52)) (Qabs q) then x
      else ofZ n
  | None => x
  end.

(** [x.toFixed(1)], for [|x| < 1e21] when [x] is finite: the digits are
    those of the exact value that [x] holds. *)
Definition toFixed1 (x : float) : string :=
  match Prim2SF x with
  | S754_nan => "NaN"%string
  | S754_infinity false => "Infinity"%string
  | S754_infinity true => "-Infinity"%string
  | _ => match value x with
         | Some q => toFixed1 q
         | None => EmptyString
         end
  end.

(** [x.toFixed(1) > 0]: the string is read back as a number. *)
Definition fixed1Positive (x : float) : bool :=
  match Prim2SF x with
  | S754_nan => false
  | S754_infinity s => negb s
  | _ => match value x with
         | Some q => if Qlt_le_dec 0 (fixed1Value q) then true else false
         | None => false
         end
  end.

End Double.

(** ** The daily forecaster in binary64 ([generateCrimeForecast])

    The loop of the forecaster as the engine computes it.  The dates are
    integers and are taken as in [Daily]; every other number is a double. *)

Module Daily64.

Record Day := {
  date : string;
  dayOfWeek : string;
  predictedCrimes : float;
  hourlyBreakdown : list (nat * float);
  riskLevel : string
}.

(** The pattern tables: [undefined] where nothing was counted. *)
Definition Patterns := Z -> option float.

Definition noPatterns : Patterns := fun _ => None.

(** [p[k] = (p[k] || 0) + 1] *)
Definition bump (k : Z) (p : Patterns) : Patterns :=
  fun k' => if (k' =? k)%Z then Some (Double.orElse (p k) 0 + 1)%float else p k'.

Section WithDates.
Context {D : DateLib}.

(** [now] is the clock reading; [random k] is the [k]-th draw of
    [Math.random()], one per forecast day. *)
Variable now : Z.
Variable random : nat -> float.

Definition hourlyPatterns (historicalData : list Daily.Item) : Patterns :=
  fold_left (fun p item => bump (getHours (Daily.timestamp item)) p) historicalData noPatterns.
Definition dailyPatterns (historicalData : list Daily.Item) : Patterns :=
  fold_left (fun p item => bump (getDay (Daily.timestamp item)) p) historicalData noPatterns.
Definition weeklyPatterns (historicalData : list Daily.Item) : Patterns :=
  fold_left (fun p item =>
               bump (Qfloor (inject_Z (getDate (Daily.timestamp item)) / 7)) p)
            historicalData noPatterns.

Definition totalCrimes (historicalData : list Daily.Item) : float :=
  Double.ofNat (length historicalData).

Definition daysInHistory (historicalData : list Daily.Item) : float :=
  match historicalData with
  | [] => 1%float
  | first :: _ =>
      Double.max 1 (Double.ofZ (now - Daily.timestamp first) / Double.ofZ msPerDay)%float
  end.

Definition baseRate (historicalData : list Daily.Item) : float :=
  (totalCrimes historicalData / daysInHistory historicalData)%float.

(** [pattern / (totalCrimes / k) || 1]; [undefined / d] is [NaN]. *)
Definition multiplier (pattern : option float) (historicalData : list Daily.Item)
           (k : float) : float :=
  Double.orElse (option_map (fun count => (count / (totalCrimes historicalData / k))%float)
                            pattern) 1.

(** [dailyPrediction] after the three multipliers, for loop index [i >= 1]. *)
Definition dailyPrediction (historicalData : list Daily.Item) (i : nat) : float :=
  let dayOfWeek := getDay (Daily.forecastDate now i) in
  let weekOfMonth := Qfloor (inject_Z (getDate (Daily.forecastDate now i)) / 7) in
  let dailyPrediction := baseRate historicalData in
  let dayMultiplier := multiplier (dailyPatterns historicalData dayOfWeek) historicalData 7 in
  let dailyPrediction := (dailyPrediction * dayMultiplier)%float in
  let weekMultiplier :=
    multiplier (weeklyPatterns historicalData weekOfMonth) historicalData 4 in
  let dailyPrediction := (dailyPrediction * weekMultiplier)%float in
  let randomFactor := (0.8 + random (i - 1) * 0.4)%float in
  (dailyPrediction * randomFactor)%float.

Definition hourMultiplier (historicalData : list Daily.Item) (hour : nat) : float :=
  multiplier (Some (Double.orElse (hourlyPatterns historicalData (Z.of_nat hour)) 0))
             historicalData 24.

Definition hourlyBreakdownFor (historicalData : list Daily.Item) (dailyPrediction : float)
  : list (nat * float) :=
  map (fun hour =>
         (hour, Double.round (dailyPrediction / 24 * hourMultiplier historicalData hour)%float))
      (seq 0 24).

(** [dailyPrediction > baseRate * 1.5 ? 'High'
     : dailyPrediction > baseRate * 1.2 ? 'Medium' : 'Low'] *)
Definition classify (dailyPrediction baseRate : float) : string :=
  if (baseRate * 1.5 <? dailyPrediction)%float then "High"
  else if (baseRate * 1.2 <? dailyPrediction)%float then "Medium"
  else "Low".

Definition forecastDay (historicalData : list Daily.Item) (i : nat) : Day :=
  let dailyPrediction := dailyPrediction historicalData i in
  {| date := beforeT (toISOString (Daily.forecastDate now i));
     dayOfWeek := nth (Z.to_nat (getDay (Daily.forecastDate now i))) Daily.dayNames
                      "undefined"%string;
     predictedCrimes := Double.round dailyPrediction;
     hourlyBreakdown := hourlyBreakdownFor historicalData dailyPrediction;
     riskLevel := classify dailyPrediction (baseRate historicalData) |}.

Definition generateCrimeForecast (historicalData : list Daily.Item) (period : string)
  : list Day :=
  match historicalData with
  | [] => []
  | _ => map (forecastDay historicalData) (seq 1 (Daily.forecastDays period))
  end.

End WithDates.
End Daily64.

(** ** User accounts ([fetchUsers], [handleSuspendUser]) *)

Module Updates.
Record t := {
  isSuspended : bool;
  suspendedAt : JS.Value;
  suspendedBy : JS.Value
}.
End Updates.

Module Users.

Record User := {
  id : string;
  firstName : JS.Value;
  email : JS.Value;
  createdAt : JS.Value;
  isSuspended : JS.Value;
  suspendedAt : JS.Value;
  suspendedBy : JS.Value
}.

(** The component state the two functions write. *)
Record State := {
  users : list User;
  loading : bool;
  error : string;
  totalUsers : nat;
  actionLoading : option string
}.

Definition loadFailed : string := "Failed to load user data. Please try again.".
Definition updateFailed : string := "Failed to update user status. Please try again.".
Definition admin : string := "admin@e-responde.com".

(** [userData.email && userData.firstName] *)
Definition complete (entry : string * JS.Value) : bool :=
  JS.truthy (JS.get (snd entry) "email") && JS.truthy (JS.get (snd entry) "firstName").

Definition toUser (entry : string * JS.Value) : User :=
  let '(userId, userData) := entry in
  {| id := userId;
     firstName := JS.get userData "firstName";
     email := JS.get userData "email";
     createdAt := JS.get userData "createdAt" ||| JS.Str "Unknown";
     isSuspended := JS.get userData "isSuspended" ||| JS.Bool false;
     suspendedAt := JS.get userData "suspendedAt" ||| JS.Null;
     suspendedBy := JS.get userData "suspendedBy" ||| JS.Null |}.

(** [read] is the outcome of the database read: [None] when it fails, else
    the snapshot, itself [None] when nothing exists and otherwise the
    entries of its value in the order of [Object.keys]. *)
Definition fetchUsers (st : State) (read : option (option (list (string * JS.Value))))
  : State :=
  match read with
  | None =>
      {| users := users st; loading := false; error := loadFailed;
         totalUsers := totalUsers st; actionLoading := actionLoading st |}
  | Some None =>
      {| users := []; loading := false; error := EmptyString;
         totalUsers := 0; actionLoading := actionLoading st |}
  | Some (Some civilianData) =>
      let userList := map toUser (filter complete civilianData) in
      {| users := userList; loading := false; error := EmptyString;
         totalUsers := length userList; actionLoading := actionLoading st |}
  end.

Section WithDates.
Context {D : DateLib}.

Variable now : Z.

Definition updates (currentStatus : JS.Value) : Updates.t :=
  {| Updates.isSuspended := negb (JS.truthy currentStatus);
     Updates.suspendedAt :=
       if negb (JS.truthy currentStatus) then JS.Str (toISOString now) else JS.Null;
     Updates.suspendedBy :=
       if negb (JS.truthy currentStatus) then JS.Str admin else JS.Null |}.

Definition withStatus (userId : string) (currentStatus : JS.Value) (user : User) : User :=
  if String.eqb (id user) userId
  then {| id := id user; firstName := firstName user; email := email user;
          createdAt := createdAt user;
          isSuspended := JS.Bool (negb (JS.truthy currentStatus));
          suspendedAt := Updates.suspendedAt (updates currentStatus);
          suspendedBy := Updates.suspendedBy (updates currentStatus) |}
  else user.

(** [written] tells whether the database accepts the update; the result is
    the state afterwards and the update sent for the account [userId]. *)
Definition handleSuspendUser (st : State) (written : bool) (userId : string)
           (currentStatus : JS.Value) : State * Updates.t :=
  ({| users := if written then map (withStatus userId currentStatus) (users st) else users st;
      loading := loading st;
      error := if written then EmptyString else updateFailed;
      totalUsers := totalUsers st;
      actionLoading := None |},
   updates currentStatus).

End WithDates.
End Users.

(** ** The live chart ([processRealtimeData], [calculateChartStats]) *)

Module Realtime.

Record Point := {
  time : Z;
  value : Z;
  label : string
}.

Record Stats := {
  currentValue : Z;
  peakToday : Z;
  average : Q;
  trend : string
}.

(** [timeWindowMs[timeWindow]]; [None] is [undefined]. *)
Definition timeWindowMs (timeWindow : string) : option Z :=
  if String.eqb timeWindow "1h" then Some (60 * 60 * 1000)%Z
  else if String.eqb timeWindow "6h" then Some (6 * 60 * 60 * 1000)%Z
  else if String.eqb timeWindow "24h" then Some (24 * 60 * 60 * 1000)%Z
  else if String.eqb timeWindow "7d" then Some (7 * 24 * 60 * 60 * 1000)%Z
  else None.

Definition intervalMs (timeWindow : string) : Z :=
  if String.eqb timeWindow "7d" then (24 * 60 * 60 * 1000)%Z else (60 * 60 * 1000)%Z.

(** [groupedData]: the keys are the printed interval starts, in the order
    in which they were first written. *)
Definition Grouped := list (Z * Z).

(** [if (!g[k]) g[k] = 0; g[k]++] *)
Fixpoint increment (k : Z) (g : Grouped) : Grouped :=
  match g with
  | [] => [(k, 1%Z)]
  | (k', c) :: rest =>
      if (k' =? k)%Z then (k', (c + 1)%Z) :: rest else (k', c) :: increment k rest
  end.

(** A key that is an array index is listed first by [Object.entries], in
    ascending order; the other keys follow in the order of their creation. *)
Definition isIndex (k : Z) : bool := ((0 <=? k) && (k <? 2 ^ 32 - 1))%Z.

Definition entries (g : Grouped) : Grouped :=
  sortBy (fun a b => (fst a - fst b)%Z) (filter (fun e => isIndex (fst e)) g)
  ++ filter (fun e => negb (isIndex (fst e))) g.

Section WithHost.
Context {D : DateLib} {H : HostLib}.

Variable now : Z.

(** The time value of
    [new Date(item.dateTime || item.createdAt || item.timestamp)]. *)
Definition itemTime (item : JS.Value) : option Z :=
  Fetch.newDate (JS.get item "dateTime" ||| JS.get item "createdAt"
                 ||| JS.get item "timestamp").

(** The time value of [cutoffTime]; [None] is an Invalid Date. *)
Definition cutoffTime (timeWindow : string) : option Z :=
  option_map (fun window => (now - window)%Z) (timeWindowMs timeWindow).

Definition timeMatch (timeWindow : string) (item : JS.Value) : bool :=
  match itemTime item, cutoffTime timeWindow with
  | Some t, Some cutoff => (cutoff <=? t)%Z
  | _, _ => false
  end.

(** [None]: [item.crimeType.toLowerCase] is not a function. *)
Definition crimeTypeMatch (crimeTypeFilter : string) (item : JS.Value) : option bool :=
  if negb (String.eqb crimeTypeFilter EmptyString) && JS.truthy (JS.get item "crimeType")
  then match JS.get item "crimeType" with
       | JS.Str crimeType =>
           Some (String.eqb (toLowerCase crimeType) (toLowerCase crimeTypeFilter))
       | _ => None
       end
  else Some true.

Definition keeps (timeWindow crimeTypeFilter : string) (item : JS.Value) : option bool :=
  option_map (andb (timeMatch timeWindow item)) (crimeTypeMatch crimeTypeFilter item).

(** [Math.floor(itemTime.getTime() / intervalMs) * intervalMs], for an item
    of [filteredData]: the filter keeps no item without a valid date. *)
Definition intervalKey (timeWindow : string) (item : JS.Value) : Z :=
  match itemTime item with
  | Some t => (t / intervalMs timeWindow * intervalMs timeWindow)%Z
  | None => 0%Z
  end.

Definition groupedData (timeWindow : string) (filteredData : list JS.Value) : Grouped :=
  fold_left (fun g item => increment (intervalKey timeWindow item) g) filteredData [].

Definition toPoint (entry : Z * Z) : Point :=
  {| time := fst entry; value := snd entry; label := toLocaleTimeString (fst entry) |}.

Definition processRealtimeData (data : list JS.Value) (timeWindow crimeTypeFilter : string)
  : option (list Point) :=
  match filterOrThrow (keeps timeWindow crimeTypeFilter) data with
  | None => None
  | Some filteredData =>
      Some (sortBy (fun a b => (time a - time b)%Z)
                   (map toPoint (entries (groupedData timeWindow filteredData))))
  end.

End WithHost.

(** [Math.max(...values)] for a non-empty array. *)
Definition maximum (values : list Z) : Z :=
  match values with
  | [] => 0%Z
  | v :: rest => fold_left Z.max rest v
  end.

(** [values.reduce((sum, val) => sum + val, 0) / values.length] *)
Definition mean (values : list Z) : Q :=
  inject_Z (fold_left Z.add values 0%Z) / ofNat (length values).

(** The same mean as the engine computes it, in binary64 (a count is an
    integer below [2^53]). *)
Definition average64 (values : list Z) : float :=
  (fold_left (fun sum val => sum + Double.ofZ val) values 0 / Double.ofNat (length values))%float.

(** The change of the second half against the first, in percent. *)
Definition change64 (firstHalf secondHalf : list Z) : float :=
  let firstAvg := average64 firstHalf in
  let secondAvg := average64 secondHalf in
  ((secondAvg - firstAvg) / firstAvg * 100)%float.

(** The trend of a first half with a second half.  [toFixed] prints the
    double that the division and the multiplication leave, and prints [NaN]
    and the infinities (a division by zero) by name. *)
Definition trendOf (firstHalf secondHalf : list Z) : string :=
  let trendValue := Double.toFixed1 (change64 firstHalf secondHalf) in
  if Double.fixed1Positive (change64 firstHalf secondHalf)
  then ("+" ++ trendValue ++ "%")%string
  else (trendValue ++ "%")%string.

Definition calculateChartStats (chartData : list Point) : Stats :=
  match chartData with
  | [] => {| currentValue := 0; peakToday := 0; average := 0; trend := "+0%" |}
  | _ =>
      let values := map value chartData in
      let currentValue := last values 0%Z in
      let peakToday := maximum values in
      let average := mean values in
      let midPoint := (length values / 2)%nat in
      let firstHalf := firstn midPoint values in
      let secondHalf := skipn midPoint values in
      let trend :=
        if ((0 <? length firstHalf) && (0 <? length secondHalf))%nat
        then trendOf firstHalf secondHalf
        else "+0%"%string in
      {| currentValue := Math.round (inject_Z currentValue);
         peakToday := Math.round (inject_Z peakToday);
         average := inject_Z (Math.round (average * 10)) / 10;
         trend := trend |}
  end.

(** The component state [fetchRealtimeChartData] writes. *)
Record State := {
  realtimeChartData : list Point;
  chartStats : Stats
}.

Definition noStats : Stats :=
  {| currentValue := 0; peakToday := 0; average := 0; trend := "+0%" |}.

Section WithRuntime.
Context {N : NumberLib} {D : DateLib} {H : HostLib}.

Variable now : Z.

(** An element of [dataArray], [{ id: key, ...reportData, timestamp, crimeType }],
    as far as its properties are read by name. *)
Definition toItem (entry : string * JS.Value) : JS.Value :=
  let '(key, data) := entry in
  let reportData :=
    if JS.truthy (JS.get data "reportId")
    then JS.get data (JS.toString (JS.get data "reportId")) ||| data
    else data in
  JS.Obj (("timestamp"%string,
           JS.get reportData "dateTime" ||| JS.get reportData "createdAt"
           ||| JS.get reportData "timestamp" ||| JS.Str (toISOString now))
          :: ("crimeType"%string, JS.get reportData "crimeType" ||| JS.Str "Unknown")
          :: match reportData with
             | JS.Obj fields => fields
             | _ => []
             end
          ++ [("id"%string, JS.Str key)]).

(** [read] is the outcome of the database read of the selected source:
    [None] when it fails, else the snapshot, itself [None] when nothing
    exists and otherwise [Object.entries] of its value.  An exception
    leaves the state as it was. *)
Definition fetchRealtimeChartData (st : State)
           (read : option (option (list (string * JS.Value))))
           (selectedTimeWindow selectedCrimeTypeFilter : string) : State :=
  match read with
  | None => st
  | Some None => {| realtimeChartData := []; chartStats := noStats |}
  | Some (Some rawData) =>
      match processRealtimeData now (map toItem rawData)
                                selectedTimeWindow selectedCrimeTypeFilter with
      | None => st
      | Some processedData =>
          {| realtimeChartData := processedData;
             chartStats := calculateChartStats processedData |}
      end
  end.

End WithRuntime.

End Realtime.

(** ** Notifications read per user ([fetchUserEngagement]) *)

Module Engagement.

Record Entry := {
  userId : string;
  engagementRate : Q;
  totalNotifications : nat;
  readNotifications : nat
}.

(** [Object.values(v)] for a stored value: the property values of an
    object, the characters of a string, nothing for a number or a boolean
    ([Object.keys(v)] has the same length). *)
Definition values (v : JS.Value) : list JS.Value :=
  match v with
  | JS.Obj fields => map snd fields
  | JS.Str s => map (fun c => JS.Str (String c EmptyString)) (list_ascii_of_string s)
  | _ => []
  end.

Definition toEntry (entry : string * JS.Value) : Entry :=
  let '(userId, userNotifications) := entry in
  let totalNotifications := length (values userNotifications) in
  let readNotifications :=
    length (filter (fun n => JS.truthy (JS.get n "isRead")) (values userNotifications)) in
  let engagementRate :=
    if (0 <? totalNotifications)%nat
    then ofNat readNotifications / ofNat totalNotifications * 100
    else 0 in
  {| userId := userId; engagementRate := engagementRate;
     totalNotifications := totalNotifications; readNotifications := readNotifications |}.

(** [read] is the outcome of the database read: [None] when it fails, else
    the snapshot, [None] when nothing exists.  Only an existing snapshot
    changes the state. *)
Definition fetchUserEngagement (userEngagement : list Entry)
           (read : option (option (list (string * JS.Value)))) : list Entry :=
  match read with
  | Some (Some notificationsData) => map toEntry notificationsData
  | _ => userEngagement
  end.

End Engagement.

(** ** The reports behind the heat map ([fetchHeatmapData], [getFilteredReports]) *)

Module Reports.

(** The own properties of a stored value, for an object spread. *)
Definition fields (v : JS.Value) : list (string * JS.Value) :=
  match v with
  | JS.Obj fields => fields
  | _ => []
  end.

(** [{ id: key, ...data, location: ... }], as far as its properties are read
    by name: [location] is the one given last, [id] is the key unless the
    stored record has an [id] of its own. *)
Definition toReport (entry : string * JS.Value) : JS.Value :=
  let '(key, data) := entry in
  JS.Obj (("location"%string,
           JS.get data "location"
           ||| JS.Obj [("latitude", JS.get data "latitude" ||| JS.get data "lat");
                       ("longitude", JS.get data "longitude" ||| JS.get data "lng");
                       ("address", JS.get data "address" ||| JS.get data "location_address"
                                   ||| JS.Str "Unknown location")]%string)
          :: fields data ++ [("id"%string, JS.Str key)]).

Definition reportsArray (reportsData : list (string * JS.Value)) : list JS.Value :=
  map toReport reportsData.

(** [report.location?.latitude && report.location?.longitude] *)
Definition hasPosition (report : JS.Value) : bool :=
  JS.truthy (JS.get (JS.get report "location") "latitude")
  && JS.truthy (JS.get (JS.get report "location") "longitude").

Section WithHost.
Context {D : DateLib} {H : HostLib}.

Variable now : Z.

(** The predicate of the filter by crime type; [None]: [toLowerCase] is not
    a function of [report.crimeType]. *)
Definition typeMatches (selectedCrimeTypeHeatmap : string) (report : JS.Value)
  : option bool :=
  match JS.get report "crimeType" ||| JS.Str EmptyString with
  | JS.Str reportCrimeType =>
      let selectedType := toLowerCase selectedCrimeTypeHeatmap in
      let lower := toLowerCase reportCrimeType in
      Some (if String.eqb lower selectedType then true
            else if includes lower selectedType then true
            else if String.eqb selectedType "breaking and entering"
                    && (includes lower "breaking" || includes lower "burglary") then true
            else if String.eqb selectedType "vehicle theft"
                    && (includes lower "vehicle" || includes lower "car") then true
            else if String.eqb selectedType "drug-related" && includes lower "drug" then true
            else if String.eqb selectedType "domestic violence"
                    && (includes lower "domestic" || includes lower "violence") then true
            else false)
  | _ => None
  end.

(** The time value of [cutoffDate]; [None] is an Invalid Date. *)
Definition cutoffDate (timeRange : string) : option Z :=
  option_map (fun days => setDate now (getDate now - days)%Z) (parseInt timeRange).

Definition recent (timeRange : string) (report : JS.Value) : bool :=
  match Fetch.newDate (JS.get report "dateTime" ||| JS.get report "createdAt"),
        cutoffDate timeRange with
  | Some reportDate, Some cutoff => (cutoff <=? reportDate)%Z
  | _, _ => false
  end.

Definition getFilteredReports (reports : list JS.Value)
           (selectedCrimeTypeHeatmap timeRange : string) : option (list JS.Value) :=
  let filtered := filter hasPosition reports in
  match (if negb (String.eqb selectedCrimeTypeHeatmap EmptyString)
         then filterOrThrow (typeMatches selectedCrimeTypeHeatmap) filtered
         else Some filtered) with
  | None => None
  | Some filtered =>
      Some (if negb (String.eqb timeRange "all") then filter (recent timeRange) filtered
            else filtered)
  end.

(** [createHeatmapData] as the component calls it: on the reports that
    [getFilteredReports] returns. *)
Definition heatmapPoints {N : NumberLib} (reports : list JS.Value)
           (selectedCrimeTypeHeatmap timeRange : string) (intensity : Q)
  : option (list (Q * Q * Q)) :=
  option_map (Heatmap.createHeatmapData intensity)
             (getFilteredReports reports selectedCrimeTypeHeatmap timeRange).

End WithHost.
End Reports.

(** A reference for the text and calendar functions: lower case of the
    ASCII letters, hours and minutes of the UTC day, strings of decimal
    digits, days of the UTC calendar. *)
Module ReferenceHost.

Definition lowerAscii (c : ascii) : ascii :=
  let n := nat_of_ascii c in
  if ((65 <=? n) && (n <=? 90))%nat then ascii_of_nat (n + 32) else c.

Fixpoint lower (s : string) : string :=
  match s with
  | EmptyString => EmptyString
  | String c rest => String (lowerAscii c) (lower rest)
  end.

Definition timeString (t : Z) : string :=
  (Reference.padded 2 (Reference.hours t) ++ ":"
   ++ Reference.padded 2 (Reference.timeInDay t / 60000 mod 60))%string.

Definition parseDigits (s : string) : option Z :=
  match s with
  | EmptyString => None
  | _ => option_map (fun d => Z.of_N (N.of_uint d)) (NilEmpty.uint_of_string s)
  end.

Definition withDate (t n : Z) : Z := (t + (n - Reference.dayOfMonth t) * msPerDay)%Z.

Definition host : HostLib :=
  {| toLowerCase := lower;
     toLocaleTimeString := timeString;
     parseInt := parseDigits;
     setDate := withDate |}.

End ReferenceHost.

(** ** Derived quantities used by the properties *)

(** The sum of the counts of an integer-keyed object. *)
Definition breakdownSum (o : IntObj.t) : Z := fold_right Z.add 0%Z (map snd o).

(** The count a pattern table holds for an hour: [(p[hour] || 0)]. *)
Definition countAt (p : Daily.Patterns) (hour : nat) : Q := number_or (p (Z.of_nat hour)) 0.

(** The number of hours of the day in which the history has no record. *)
Definition hoursWithoutRecords {D : DateLib} (historicalData : list Daily.Item) : nat :=
  length (filter (fun hour => Qeq_bool (countAt (Daily.hourlyPatterns historicalData) hour) 0)
                 (seq 0 24)).

(** A report the heat map ignores: a coordinate that is [NaN] or zero, or a
    position outside the bounding box. *)
Definition degenerate {N : NumberLib} (report : JS.Value) : Prop :=
  match Heatmap.coordinates report with
  | (Some lat, Some lng) =>
      lat == 0 \/ lng == 0 \/ lat < 4 \/ 22 < lat \/ lng < 116 \/ 127 < lng
  | _ => True
  end.

(** No key of the list holds a truthy value. *)
Definition unresolved (v : JS.Value) (keys : list string) : Prop :=
  forall k, In k keys -> JS.truthy (JS.get v k) = false.

(** Not a number, on the IEEE 754 datum that a double holds. *)
Definition isNaN (x : spec_float) : bool :=
  match x with
  | S754_nan => true
  | _ => false
  end.

(** The object a stored record is read from,
    [data.reportId ? data[data.reportId] || data : data]: the report nested
    under the record's own [reportId], where there is one. *)
Definition reportData {N : NumberLib} (data : JS.Value) : JS.Value :=
  if JS.truthy (JS.get data "reportId")
  then JS.get data (JS.toString (JS.get data "reportId")) ||| data
  else data.

(** A report the heat map keeps: both coordinates are numbers, not zero,
    and inside the bounding box. *)
Definition keptByHeatmap {N : NumberLib} (report : JS.Value) : bool :=
  match Heatmap.coordinates report with
  | (Some lat, Some lng) =>
      negb (Heatmap.isZero lat || Heatmap.isZero lng)
      && negb (Heatmap.lt lat 4 || Heatmap.lt 22 lat || Heatmap.lt lng 116 || Heatmap.lt 127 lng)
  | _ => false
  end.

(** The key of the group a kept report falls into. *)
Definition cellKey {N : NumberLib} (report : JS.Value) : string :=
  match Heatmap.coordinates report with
  | (Some lat, Some lng) => (toFixed4 lat ++ "," ++ toFixed4 lng)%string
  | _ => EmptyString
  end.

(** A group after one more report has fallen into it. *)
Definition bumped (report : JS.Value) (g : Heatmap.Group) : Heatmap.Group :=
  {| Heatmap.lat := Heatmap.lat g; Heatmap.lng := Heatmap.lng g;
     Heatmap.count := Heatmap.count g + 1; Heatmap.reports := Heatmap.reports g ++ [report] |}.

(** The position of a group lies inside the bounding box. *)
Definition inBox (lat lng : Q) : Prop := 4 <= lat /\ lat <= 22 /\ 116 <= lng /\ lng <= 127.

Definition nightTip : string := "Enhance night-time security measures".
Definition communityTip : string := "Consider community awareness campaigns".

(** The sum of a list of counts. *)
Definition sumZ (l : list Z) : Z := fold_right Z.add 0%Z l.

(** What the loop over the reports keeps true of the groups. *)
Definition groupsOf {N : NumberLib} (processed : list JS.Value) (groups : Heatmap.Groups) : Prop :=
  NoDup (map fst groups)
  /\ sumZ (map (fun e => Heatmap.count (snd e)) groups)
     = Z.of_nat (length (filter keptByHeatmap processed))
  /\ forall k g, In (k, g) groups ->
       inBox (Heatmap.lat g) (Heatmap.lng g)
       /\ Heatmap.count g = Z.of_nat (length (Heatmap.reports g))
       /\ (exists first, In first processed
                         /\ Heatmap.coordinates first
                            = (Some (Heatmap.lat g), Some (Heatmap.lng g)))
       /\ Heatmap.reports g <> []
       /\ forall r, In r (Heatmap.reports g) ->
                    In r processed /\ keptByHeatmap r = true /\ cellKey r = k.

(** Every report the heat map keeps sits in the group of its cell. *)
Definition allPlaced {N : NumberLib} (processed : list JS.Value) (groups : Heatmap.Groups)
  : Prop :=
  forall r, In r processed -> keptByHeatmap r = true ->
            exists g, In (cellKey r, g) groups /\ In r (Heatmap.reports g).

(** What a filter keeps when its predicate does not throw. *)
Definition passes {A : Type} (keep : A -> option bool) (x : A) : bool :=
  match keep x with
  | Some true => true
  | _ => false
  end.

(** An item whose date falls into the interval of length [len] from [from]. *)
Definition within {D : DateLib} (from len : Z) (item : JS.Value) : bool :=
  match Realtime.itemTime item with
  | Some t => ((from <=? t) && (t <? from + len))%Z
  | None => false
  end.

(** What the loop over the items keeps true of the buckets, for any key. *)
Definition bucketsOf (key : JS.Value -> Z) (items : list JS.Value) (g : Realtime.Grouped)
  : Prop :=
  NoDup (map fst g)
  /\ sumZ (map snd g) = Z.of_nat (length items)
  /\ (forall item, In item items -> In (key item) (map fst g))
  /\ forall k c, In (k, c) g ->
       c = Z.of_nat (length (filter (fun item => (key item =? k)%Z) items))
       /\ exists item, In item items /\ key item = k.

(** Strictly ascending, in the order of the code units. *)
Definition ascending (l : list string) : Prop :=
  Sorted (fun a b => String.ltb a b = true) l.

(** [Number] reads a string of decimal digits as its decimal value. *)
Definition readsNumerals {S : StringLib} : Prop :=
  forall s d, NilEmpty.uint_of_string s = Some d ->
              Number_ofString s = Some (inject_Z (Z.of_N (N.of_uint d))).

(** [f h] summed over the hours [h] of a list. *)
Definition sumOver (f : nat -> Q) (hours : list nat) : Q :=
  fold_right (fun h acc => f h + acc) 0 hours.

(** ** Concrete inputs *)

Module Scenario.

(** 2024-01-10T00:00:00.000Z, a Wednesday, and the day after as the clock. *)
Definition start : Z := (Reference.daysFromCivil 2024 1 10 * msPerDay)%Z.
Definition now : Z := (start + msPerDay)%Z.

(** Every draw of [Math.random()] is 0.25, respectively 0.5. *)
Definition quarter (k : nat) : Q := 1 # 4.
Definition half (k : nat) : Q := 1 # 2.

(** One record in each hour of the start day. *)
Definition everyHour : list Daily.Item :=
  map (fun h => {| Daily.timestamp := start + Z.of_nat h * 3600000 |}) (seq 0 24).

(** Ten records at midnight of the start day. *)
Definition midnight : list Daily.Item := repeat {| Daily.timestamp := start |} 10.

(** Ten days as the prediction service may return them, four of them High. *)
Definition mlDay (date risk : string) (predicted : Z) : DailyForecast :=
  {| Day.date := date; Day.dayOfWeek := "Monday"; Day.predictedCrimes := predicted;
     Day.hourlyBreakdown := []; Day.riskLevel := risk |}.

Definition tenDays : list DailyForecast :=
  [mlDay "2024-01-01" "High" 9; mlDay "2024-01-02" "Low" 2; mlDay "2024-01-03" "Medium" 5;
   mlDay "2024-01-04" "High" 8; mlDay "2024-01-05" "Low" 1; mlDay "2024-01-06" "Low" 2;
   mlDay "2024-01-07" "High" 9; mlDay "2024-01-08" "Medium" 4; mlDay "2024-01-09" "High" 7;
   mlDay "2024-01-10" "Low" 3]%string.

(** Reports as the mobile application stores them. *)
Definition located (lat lng : Q) : JS.Value :=
  JS.Obj [("crimeType", JS.Str "Theft");
          ("location", JS.Obj [("latitude", JS.Num lat); ("longitude", JS.Num lng)])]%string.

Definition reportA : JS.Value := located (1460421 # 100000) (12098223 # 100000).
Definition reportB : JS.Value := located (1460419 # 100000) (12098221 # 100000).
Definition origin : JS.Value := located 0 0.
Definition farAway : JS.Value := located 91 200.

(** A report without a category whose location is a pair of coordinates,
    without an address. *)
Definition pinned : JS.Value :=
  JS.Obj [("location", JS.Obj [("latitude", JS.Num (1460421 # 100000));
                               ("longitude", JS.Num (12098223 # 100000))]);
          ("date", JS.Str "2024-01-05")]%string.

(** A report with a date only. *)
Definition bare : JS.Value := JS.Obj [("date", JS.Str "2024-01-05")]%string.

(** Ten reports of May 2023, eight months before the clock reading. *)
Definition staleReports : list (string * JS.Value) :=
  map (fun i => (("report" ++ digits (Z.of_nat i))%string,
                 JS.Obj [("crimeType", JS.Str "Theft");
                         ("dateTime", JS.Str "2023-05-01T08:00:00.000Z")]%string))
      (seq 0 10).

Definition idle : Fetch.State :=
  {| Fetch.forecastLoading := false; Fetch.forecastError := None;
     Fetch.forecastData := []; Fetch.forecastInsights := None |}.

(** The first day of a one-week forecast on the reference runtime. *)
Definition forecast (random : nat -> Q) (history : list Daily.Item) : list DailyForecast :=
  @Daily.generateCrimeForecast Reference.utc now random history "1week".
Definition firstDay (random : nat -> Q) (history : list Daily.Item) : DailyForecast :=
  @Daily.forecastDay Reference.utc now random history 1.

(** A flat series of three months. *)
Definition flat : list Q := [5; 5; 5].

(** One day as the prediction service sends it. *)
Definition served : list Fetch.MLPrediction :=
  [{| Fetch.date := "2024-01-12"; Fetch.day_of_week := "Friday";
      Fetch.predicted_crimes := 7 # 2; Fetch.risk_level := "High" |}]%string.

(** A stored record without any timestamp. *)
Definition undated : JS.Value := JS.Obj [("crimeType", JS.Str "Theft")]%string.

(** A report whose date cannot be read as a date. *)
Definition misdated : JS.Value :=
  JS.Obj [("type", JS.Str "Theft"); ("location", JS.Str "Barangay 41");
          ("date", JS.Str "soon")]%string.

(** One account that has never been suspended. *)
Definition account : Users.User :=
  {| Users.id := "u1"; Users.firstName := JS.Str "Ana";
     Users.email := JS.Str "ana@example.com"; Users.createdAt := JS.Str "2024-01-02";
     Users.isSuspended := JS.Bool false; Users.suspendedAt := JS.Null;
     Users.suspendedBy := JS.Null |}%string.

Definition accounts : Users.State :=
  {| Users.users := [account]; Users.loading := false; Users.error := EmptyString;
     Users.totalUsers := 1; Users.actionLoading := None |}.

(** Three reports of the last two hours of the start day and an old one,
    and the chart of the last 24 hours they give. *)
Definition dated (dateTime : string) : JS.Value :=
  JS.Obj [("crimeType", JS.Str "Theft"); ("dateTime", JS.Str dateTime)]%string.

Definition liveItems : list JS.Value :=
  [dated "2024-01-10T22:15:00.000Z"; dated "2024-01-10T23:05:00.000Z";
   dated "2024-01-10T22:45:00.000Z"; dated "2023-05-01T08:00:00.000Z"]%string.

Definition liveChart : list Realtime.Point :=
  [{| Realtime.time := start + 22 * 3600000; Realtime.value := 2;
      Realtime.label := "22:00" |};
   {| Realtime.time := start + 23 * 3600000; Realtime.value := 1;
      Realtime.label := "23:00" |}]%string.

(** A stored record whose location is given as [lat]/[lng], and one whose
    coordinates are its own properties. *)
Definition shortNames : JS.Value :=
  JS.Obj [("crimeType", JS.Str "Theft");
          ("location", JS.Obj [("lat", JS.Num (1460421 # 100000));
                               ("lng", JS.Num (12098223 # 100000))])]%string.

Definition flatRecord : JS.Value :=
  JS.Obj [("crimeType", JS.Str "Theft"); ("lat", JS.Num (1460421 # 100000));
          ("lng", JS.Num (12098223 # 100000))]%string.

(** The notifications of one user, two of three read. *)
Definition inbox : list (string * JS.Value) :=
  [("u1", JS.Obj [("n1", JS.Obj [("isRead", JS.Bool true)]);
                  ("n2", JS.Obj [("isRead", JS.Bool false)]);
                  ("n3", JS.Obj [("isRead", JS.Bool true)])])]%string.

(** An empty live chart. *)
Definition blank : Realtime.State :=
  {| Realtime.realtimeChartData := []; Realtime.chartStats := Realtime.noStats |}.

(** Three records at the start and one a day later, with every draw of
    [Math.random()] equal to 0.14285714285714288, and the seventh day of the
    one-week forecast they give in binary64. *)
Definition fourReports : list Daily.Item :=
  [{| Daily.timestamp := start |}; {| Daily.timestamp := start |};
   {| Daily.timestamp := start |}; {| Daily.timestamp := now |}].

Definition seventh (k : nat) : float := 0.14285714285714288%float.

(** The exact value of that draw. *)
Definition seventhExact (k : nat) : Q := 5146971002709139 # 36028797018963968.

Definition seventhDay : Daily64.Day :=
  @Daily64.forecastDay Reference.utc now seventh fourReports 7.


(** Ten reports dated May 2030, six years after the clock reading. *)
Definition futureReports : list (string * JS.Value) :=
  map (fun i => (("report" ++ digits (Z.of_nat i))%string,
                 JS.Obj [("crimeType", JS.Str "Theft");
                         ("dateTime", JS.Str "2030-05-01T08:00:00.000Z")]%string))
      (seq 0 10).

(** A stored record that carries a date of its own and, under its
    [reportId], a report without any date. *)
Definition nested : JS.Value :=
  JS.Obj [("reportId", JS.Str "abc"); ("dateTime", JS.Str "2020-01-01T00:00:00.000Z");
          ("abc", JS.Obj [("crimeType", JS.Str "Theft")])]%string.

End Scenario.

(** * Properties *)

(** ** Rounding *)

Lemma Qfloor_unique (x : Q) (k : Z) :
  inject_Z k <= x -> x < inject_Z k + 1 -> Qfloor x = k.
Proof.
  intros Hlo Hhi.
  assert (H1 : (k <= Qfloor x)%Z).
  { rewrite <- (Qfloor_Z k). now apply Qfloor_resp_le. }
  assert (H2 : (Qfloor x < k + 1)%Z).
  { rewrite Zlt_Qlt, inject_Z_plus.
    apply Qle_lt_trans with x; [apply Qfloor_le | exact Hhi]. }
  lia.
Qed.

Lemma round_bounds (x : Q) :
  inject_Z (Math.round x) <= x + (1 # 2) /\ x + (1 # 2) < inject_Z (Math.round x) + 1.
Proof.
  unfold Math.round. split.
  - apply Qfloor_le.
  - generalize (Qlt_floor (x + (1 # 2))). now rewrite inject_Z_plus.
Qed.

Lemma round_unique (x : Q) (k : Z) :
  inject_Z k - (1 # 2) <= x -> x < inject_Z k + (1 # 2) -> Math.round x = k.
Proof.
  intros Hlo Hhi. apply Qfloor_unique; lra.
Qed.

Lemma round_mono (x y : Q) : x <= y -> (Math.round x <= Math.round y)%Z.
Proof.
  intros H. apply Qfloor_resp_le. lra.
Qed.

Lemma round_Z (z : Z) : Math.round (inject_Z z) = z.
Proof.
  apply round_unique; lra.
Qed.

Lemma Qeq_bool_false (x y : Q) : ~ x == y -> Qeq_bool x y = false.
Proof.
  intros H. destruct (Qeq_bool x y) eqn:E; [| reflexivity].
  apply Qeq_bool_iff in E. contradiction.
Qed.

(** A rounded value is within one half of the number it rounds. *)
Lemma round_error (x : Q) : Qabs (inject_Z (Math.round x) - x) <= 1 # 2.
Proof.
  destruct (round_bounds x) as [Hlo Hhi].
  apply Qabs_case; intros _; lra.
Qed.

(** ** Sums by [reduce] *)

Lemma reduce_from_nonneg {A : Type} (g : A -> nat -> Q) (l : list A) :
  (forall a i, 0 <= g a i) ->
  forall i acc, 0 <= acc -> 0 <= reduce_from (fun sum a i => sum + g a i) i l acc.
Proof.
  intros Hg. induction l as [|a l IH]; intros i acc Hacc; simpl.
  - exact Hacc.
  - apply IH. specialize (Hg a i). lra.
Qed.

Lemma pow2_nonneg (x : Q) : 0 <= Math.pow2 x.
Proof.
  unfold Math.pow2. nra.
Qed.

Lemma Qdiv_nonneg (a b : Q) : 0 <= a -> 0 <= b -> 0 <= a / b.
Proof.
  intros Ha Hb. unfold Qdiv.
  apply Qmult_le_0_compat; [exact Ha | now apply Qinv_le_0_compat].
Qed.

Lemma ofNat_nonneg (n : nat) : 0 <= ofNat n.
Proof.
  unfold ofNat. rewrite <- (Zle_Qle 0). lia.
Qed.

Lemma reduce_from_app {A B : Type} (f : B -> A -> nat -> B) (l l' : list A) :
  forall i acc,
    reduce_from f i (l ++ l') acc = reduce_from f (i + length l) l' (reduce_from f i l acc).
Proof.
  induction l as [|a l IH]; intros i acc; simpl.
  - now rewrite Nat.add_0_r.
  - rewrite IH. now rewrite Nat.add_succ_r.
Qed.

Lemma ofNat_S (n : nat) : ofNat (S n) == ofNat n + 1.
Proof.
  unfold ofNat. now rewrite Nat2Z.inj_succ, <- Z.add_1_r, inject_Z_plus.
Qed.

(** ** Trend Forecaster *)

(** The sums over the month numbers [0 .. n-1], and the denominator of the
    slope: it is positive from two points on, so the regression path (three
    points or more) never divides by zero. *)
Lemma xs_S (n : nat) : Trend.xs (S n) = Trend.xs n ++ [ofNat n].
Proof.
  unfold Trend.xs. now rewrite seq_S, map_app.
Qed.

Lemma sumX_closed (n : nat) : Trend.sumX n * 2 == ofNat n * (ofNat n - 1).
Proof.
  induction n as [|n IH].
  - reflexivity.
  - unfold Trend.sumX, reduce in *. rewrite xs_S, reduce_from_app. simpl.
    rewrite ofNat_S. lra.
Qed.

Lemma sumXX_closed (n : nat) :
  Trend.sumXX n * 6 == (ofNat n - 1) * ofNat n * (2 * ofNat n - 1).
Proof.
  induction n as [|n IH].
  - reflexivity.
  - unfold Trend.sumXX, reduce in *. rewrite xs_S, reduce_from_app. simpl.
    rewrite ofNat_S. nra.
Qed.

Lemma slope_denominator_positive (n : nat) :
  (2 <= n)%nat -> 0 < ofNat n * Trend.sumXX n - Trend.sumX n * Trend.sumX n.
Proof.
  intros Hn.
  assert (Hx : 2 <= ofNat n).
  { unfold ofNat. rewrite <- (Zle_Qle 2). lia. }
  pose proof (sumX_closed n) as H1. pose proof (sumXX_closed n) as H2.
  set (x := ofNat n) in *. set (a := Trend.sumX n) in *. set (b := Trend.sumXX n) in *.
  assert (Ha : a == x * (x - 1) / 2) by (field_simplify_eq; lra).
  assert (Hb : b == (x - 1) * x * (2 * x - 1) / 6) by (field_simplify_eq; lra).
  rewrite Ha, Hb.
  assert (E : x * ((x - 1) * x * (2 * x - 1) / 6) - x * (x - 1) / 2 * (x * (x - 1) / 2)
              == x * x * (x - 1) * (x + 1) / 12) by field.
  rewrite E.
  apply Qlt_shift_div_l; [lra | nra].
Qed.

Section TrendProperties.
Context {M : MathLib}.

Lemma variance_nonneg (y : list Q) : 0 <= Trend.variance y.
Proof.
  unfold Trend.variance. apply Qdiv_nonneg; [| apply ofNat_nonneg].
  unfold reduce.
  apply (reduce_from_nonneg (fun yi _ => Math.pow2 (yi - _))); [| lra].
  intros; apply pow2_nonneg.
Qed.

Lemma predictedAt_nonneg (y : list Q) (i : nat) : (0 <= Trend.predictedAt y i)%Z.
Proof.
  unfold Trend.predictedAt. lia.
Qed.

(** One forecast point: the band encloses the prediction and nothing is
    negative, as soon as the half-width is not negative. *)
Lemma band_encloses (y : list Q) (i : nat) :
  0 <= Trend.confidence y ->
  (0 <= Trend.lowerAt y i <= Trend.predictedAt y i)%Z
  /\ (Trend.predictedAt y i <= Trend.upperAt y i)%Z.
Proof.
  intros Hc.
  pose proof (predictedAt_nonneg y i) as Hp.
  assert (Hlo : (Math.round (inject_Z (Trend.predictedAt y i) - Trend.confidence y)
                 <= Trend.predictedAt y i)%Z).
  { rewrite <- (round_Z (Trend.predictedAt y i)) at 2. apply round_mono. lra. }
  assert (Hhi : (Trend.predictedAt y i
                 <= Math.round (inject_Z (Trend.predictedAt y i) + Trend.confidence y))%Z).
  { rewrite <- (round_Z (Trend.predictedAt y i)) at 1. apply round_mono. lra. }
  unfold Trend.lowerAt, Trend.upperAt. lia.
Qed.

Lemma generateForecast_fitted (y : list Q) (months : nat) :
  (3 <= length y)%nat ->
  Trend.generateForecast y months =
  Trend.Fitted
    {| Trend.forecast := map (Trend.predictedAt y) (seq 0 months);
       Trend.confidenceUpper := map (Trend.upperAt y) (seq 0 months);
       Trend.confidenceLower := map (Trend.lowerAt y) (seq 0 months);
       Trend.trend := Trend.slope y;
       Trend.rSquared :=
         Trend.calculateRSquared (Trend.xs (length y)) y (Trend.slope y) (Trend.intercept y) |}.
Proof.
  intros Hn. unfold Trend.generateForecast.
  destruct (Nat.ltb_spec (length y) 3); [lia | reflexivity].
Qed.

Lemma nth_map_seq {A : Type} (f : nat -> A) (n i : nat) (d : A) :
  (i < n)%nat -> nth i (map f (seq 0 n)) d = f i.
Proof.
  intros Hi.
  rewrite (nth_indep _ d (f 0%nat)) by now rewrite length_map, length_seq.
  rewrite (map_nth f (seq 0 n) 0%nat i), seq_nth by exact Hi.
  reflexivity.
Qed.

(** C6. For every monthly series of at least three points and every
    horizon, the Trend Forecaster returns exactly [months] forecast
    points (and as many upper and lower bounds), and at every point
    [0 <= lower <= predicted <= upper].  The square root of the runtime is
    only required not to be negative. *)
Theorem trend_forecast_points (y : list Q) (months : nat) :
  (3 <= length y)%nat ->
  (forall v, 0 <= v -> 0 <= Math_sqrt v) ->
  exists fit,
    Trend.generateForecast y months = Trend.Fitted fit
    /\ length (Trend.forecast fit) = months
    /\ length (Trend.confidenceUpper fit) = months
    /\ length (Trend.confidenceLower fit) = months
    /\ forall i, (i < months)%nat ->
         (0 <= nth i (Trend.confidenceLower fit) 0
          <= nth i (Trend.forecast fit) 0)%Z
         /\ (nth i (Trend.forecast fit) 0 <= nth i (Trend.confidenceUpper fit) 0)%Z.
Proof.
  intros Hn Hsqrt.
  eexists. split; [apply generateForecast_fitted; exact Hn |]. simpl.
  rewrite !length_map, !length_seq. repeat split; try reflexivity.
  all: rewrite ?nth_map_seq by assumption.
  all: assert (Hc : 0 <= Trend.confidence y)
    by (unfold Trend.confidence, Trend.stdDev;
        apply Qmult_le_0_compat; [lra | apply Hsqrt, variance_nonneg]).
  all: destruct (band_encloses y i Hc) as [[? ?] ?]; assumption.
Qed.

Lemma number_or_zero (q : Q) : number_or (Some q) 0 == q.
Proof.
  unfold number_or. destruct (Qeq_bool q 0) eqn:E; [| reflexivity].
  apply Qeq_bool_iff in E. now rewrite E.
Qed.

(** C7. A series of fewer than three monthly counts does not fail: the
    forecast is the last count (zero for the empty series) repeated once
    per horizon step; [[5]] with horizon 3 gives [[5; 5; 5]]. *)
Theorem flat_continuation (y : list Q) (months : nat) :
  (length y < 3)%nat ->
  Forall (fun v => 0 <= v) y ->
  (exists v, v == last y 0
             /\ Trend.generateForecast y months = Trend.Flat (repeat v months))
  /\ Trend.generateForecast [5] 3 = Trend.Flat [5; 5; 5].
Proof.
  intros Hn Hpos. split; [| reflexivity].
  unfold Trend.generateForecast.
  destruct (Nat.ltb_spec (length y) 3) as [_ | ?]; [| lia].
  eexists. split; [| reflexivity].
  assert (Hlast : number_or (nth_error y (length y - 1)) 0 == last y 0 /\ 0 <= last y 0).
  { destruct y as [| a [| b [| c y]]]; simpl in Hn; try lia.
    - split; [reflexivity | apply Qle_refl].
    - split; [apply number_or_zero | now inversion Hpos].
    - split; [apply number_or_zero |].
      inversion Hpos as [| ? ? _ Hb]. now inversion Hb. }
  destruct Hlast as [Heq Hge]. unfold Math.max.
  rewrite Q.max_r; [exact Heq | now rewrite Heq].
Qed.

(** C1 (as amended).  For the series [[1;2;3;4;5;6]] and a horizon of three
    months the slope is 1, the intercept is 1 (the months are numbered from
    0), R² is 1 and the predictions are [[7;8;9]]; the half-width of the
    band is 1.96 times the standard deviation of the counts, so the upper
    bounds are [[10;11;12]] and the lower bounds [[4;5;6]].  The square root
    of the runtime is only required to put [sqrt(35/12)] between 1.70 and
    1.71. *)
Theorem perfect_line_forecast :
  (forall v, v == 35 # 12 -> (170 # 100) <= Math_sqrt v /\ Math_sqrt v <= (171 # 100)) ->
  exists fit r,
    Trend.generateForecast [1; 2; 3; 4; 5; 6] 3 = Trend.Fitted fit
    /\ Trend.trend fit == 1
    /\ Trend.intercept [1; 2; 3; 4; 5; 6] == 1
    /\ Trend.rSquared fit = Some r /\ r == 1
    /\ Trend.forecast fit = [7; 8; 9]%Z
    /\ Trend.confidenceUpper fit = [10; 11; 12]%Z
    /\ Trend.confidenceLower fit = [4; 5; 6]%Z.
Proof.
  intros Hsqrt.
  set (y := [1; 2; 3; 4; 5; 6]).
  assert (Hvar : Trend.variance y == 35 # 12) by (vm_compute; reflexivity).
  destruct (Hsqrt _ Hvar) as [Hlo Hhi].
  assert (Hp : forall i, (i < 3)%nat -> Trend.predictedAt y i = (7 + Z.of_nat i)%Z).
  { intros [| [| [| i]]] Hi; try lia; vm_compute; reflexivity. }
  assert (Hup : forall i, (i < 3)%nat -> Trend.upperAt y i = (10 + Z.of_nat i)%Z).
  { intros i Hi. unfold Trend.upperAt, Trend.confidence, Trend.stdDev.
    rewrite (Hp i Hi).
    rewrite (round_unique _ (10 + Z.of_nat i)); [lia | |];
      rewrite !inject_Z_plus; change (inject_Z 10) with 10; change (inject_Z 7) with 7; lra. }
  assert (Hdn : forall i, (i < 3)%nat -> Trend.lowerAt y i = (4 + Z.of_nat i)%Z).
  { intros i Hi. unfold Trend.lowerAt, Trend.confidence, Trend.stdDev.
    rewrite (Hp i Hi).
    rewrite (round_unique _ (4 + Z.of_nat i)); [lia | |];
      rewrite !inject_Z_plus; change (inject_Z 4) with 4; change (inject_Z 7) with 7; lra. }
  eexists. eexists.
  split; [apply generateForecast_fitted; simpl; lia |].
  cbn [Trend.trend Trend.rSquared Trend.forecast Trend.confidenceUpper
       Trend.confidenceLower seq map].
  rewrite !Hp, !Hup, !Hdn by lia.
  repeat split; try (vm_compute; reflexivity).
Qed.

End TrendProperties.

(** ** The reference square root *)

Lemma reference_sqrt_nonneg (v : Q) : 0 <= Reference.sqrt v.
Proof.
  unfold Reference.sqrt, Qle. cbn [Qnum Qden].
  rewrite Z.mul_0_l, Z.mul_1_r. apply Z.sqrt_nonneg.
Qed.

Lemma reference_sqrt_compat (v w : Q) : v == w -> Reference.sqrt v = Reference.sqrt w.
Proof.
  intros H. unfold Reference.sqrt.
  assert (E : Qfloor (v * inject_Z (4 ^ 52)) = Qfloor (w * inject_Z (4 ^ 52)))
    by (apply Qfloor_comp; now rewrite H).
  now rewrite E.
Qed.

Lemma perfect_line_forecast_witness :
  exists fit r,
    @Trend.generateForecast Reference.math [1; 2; 3; 4; 5; 6] 3 = Trend.Fitted fit
    /\ Trend.trend fit == 1
    /\ Trend.intercept [1; 2; 3; 4; 5; 6] == 1
    /\ Trend.rSquared fit = Some r /\ r == 1
    /\ Trend.forecast fit = [7; 8; 9]%Z
    /\ Trend.confidenceUpper fit = [10; 11; 12]%Z
    /\ Trend.confidenceLower fit = [4; 5; 6]%Z.
Proof.
  apply (@perfect_line_forecast Reference.math).
  intros v Hv. simpl. rewrite (reference_sqrt_compat v (35 # 12) Hv).
  split; vm_compute; discriminate.
Defined.

(** C1 (as stated) fails: on [[1;2;3;4;5;6]] the intercept is not 0, and
    neither bound of the band coincides with the prediction. *)
Lemma perfect_line_claim_fails :
  ~ (Trend.intercept [1; 2; 3; 4; 5; 6] == 0)
  /\ forall fit,
       @Trend.generateForecast Reference.math [1; 2; 3; 4; 5; 6] 3 = Trend.Fitted fit ->
       Trend.forecast fit = [7; 8; 9]%Z
       /\ Trend.confidenceUpper fit <> Trend.forecast fit
       /\ Trend.confidenceLower fit <> Trend.forecast fit.
Proof.
  split.
  - vm_compute. discriminate.
  - intros fit H. vm_compute in H. injection H as <-. simpl.
    repeat split; discriminate.
Qed.

Lemma trend_forecast_points_witness :
  exists fit,
    @Trend.generateForecast Reference.math [4; 0; 7; 2] 2 = Trend.Fitted fit
    /\ length (Trend.forecast fit) = 2%nat
    /\ length (Trend.confidenceUpper fit) = 2%nat
    /\ length (Trend.confidenceLower fit) = 2%nat
    /\ forall i, (i < 2)%nat ->
         (0 <= nth i (Trend.confidenceLower fit) 0 <= nth i (Trend.forecast fit) 0)%Z
         /\ (nth i (Trend.forecast fit) 0 <= nth i (Trend.confidenceUpper fit) 0)%Z.
Proof.
  apply (@trend_forecast_points Reference.math [4; 0; 7; 2] 2).
  - simpl; lia.
  - intros v _. apply reference_sqrt_nonneg.
Defined.

Lemma flat_continuation_witness :
  (exists v, v == last [3; 8] 0
             /\ @Trend.generateForecast Reference.math [3; 8] 4 = Trend.Flat (repeat v 4))
  /\ @Trend.generateForecast Reference.math [5] 3 = Trend.Flat [5; 5; 5].
Proof.
  apply (@flat_continuation Reference.math [3; 8] 4).
  - simpl; lia.
  - repeat constructor; unfold Qle; simpl; lia.
Defined.

(** ** Sums over the hours of a day *)

Lemma sumOver_ext (f g : nat -> Q) (l : list nat) :
  (forall h, In h l -> f h == g h) -> sumOver f l == sumOver g l.
Proof.
  induction l as [|a l IH]; intros H; simpl.
  - reflexivity.
  - rewrite (H a) by now left. rewrite IH; [reflexivity |].
    intros h Hh. apply H. now right.
Qed.

Lemma sumOver_scale (c : Q) (f : nat -> Q) (l : list nat) :
  sumOver (fun h => c * f h) l == c * sumOver f l.
Proof.
  induction l as [|a l IH]; simpl; [| rewrite IH]; ring.
Qed.

Lemma sumOver_plus (f g : nat -> Q) (l : list nat) :
  sumOver (fun h => f h + g h) l == sumOver f l + sumOver g l.
Proof.
  induction l as [|a l IH]; simpl; [| rewrite IH]; ring.
Qed.

Lemma sumOver_indicator (b : nat -> bool) (l : list nat) :
  sumOver (fun h => if b h then 1 else 0) l == ofNat (length (filter b l)).
Proof.
  induction l as [|a l IH]; simpl.
  - reflexivity.
  - rewrite IH. destruct (b a); simpl length; [rewrite ofNat_S |]; ring.
Qed.

Lemma sumOver_affine (c : Q) (f : nat -> Q) (b : nat -> bool) (l : list nat) :
  sumOver (fun h => c * f h + (if b h then 1 else 0)) l
  == c * sumOver f l + ofNat (length (filter b l)).
Proof.
  rewrite <- sumOver_indicator, <- sumOver_scale. apply sumOver_plus.
Qed.

(** Changing a table at one hour by one changes its sum by one. *)
Lemma sumOver_bump (f g : nat -> Q) (k : nat) (l : list nat) :
  NoDup l -> In k l ->
  (forall h, h <> k -> g h == f h) -> g k == f k + 1 ->
  sumOver g l == sumOver f l + 1.
Proof.
  intros Hnd Hin Hother Hk.
  induction l as [|a l IH]; [contradiction |].
  inversion Hnd as [| ? ? Hnotin Hnd']; subst. simpl.
  destruct (Nat.eq_dec a k) as [-> | Hne].
  - rewrite Hk. rewrite (sumOver_ext g f l); [ring |].
    intros h Hh. apply Hother. intros ->. contradiction.
  - rewrite (Hother a Hne). rewrite IH; [ring | assumption |].
    destruct Hin as [-> | Hin]; [contradiction | exact Hin].
Qed.

(** Each count is rounded on its own: the sum of the rounded counts is
    within half a unit per summand of the sum of the exact shares. *)
Lemma rounded_sum_error (f : nat -> Q) (l : list nat) :
  Qabs (inject_Z (fold_right Z.add 0%Z (map (fun h => Math.round (f h)) l)) - sumOver f l)
  <= (1 # 2) * ofNat (length l).
Proof.
  induction l as [|a l IH].
  - apply Qabs_Qle_condition. vm_compute. split; discriminate.
  - cbn [map fold_right sumOver length]. fold (sumOver f l).
    rewrite inject_Z_plus, ofNat_S.
    pose proof (round_error (f a)) as Ha.
    set (s := inject_Z (fold_right Z.add 0%Z (map (fun h => Math.round (f h)) l))) in *.
    set (r := inject_Z (Math.round (f a))) in *.
    apply Qabs_Qle_condition in IH. apply Qabs_Qle_condition in Ha.
    apply Qabs_Qle_condition. lra.
Qed.

(** ** Pattern-Based Daily Forecaster *)

Lemma countAt_bump_same (k : Z) (p : Daily.Patterns) (h : nat) :
  Z.of_nat h = k -> countAt (Daily.bump k p) h == countAt p h + 1.
Proof.
  intros <-. unfold countAt, Daily.bump. rewrite Z.eqb_refl. apply number_or_zero.
Qed.

Lemma countAt_bump_other (k : Z) (p : Daily.Patterns) (h : nat) :
  Z.of_nat h <> k -> countAt (Daily.bump k p) h = countAt p h.
Proof.
  intros Hne. unfold countAt, Daily.bump.
  destruct (Z.eqb_spec (Z.of_nat h) k); [contradiction | reflexivity].
Qed.

(** Counting the records by a key in [0, 24): the counts add up to the
    number of records. *)
Lemma counts_add_up (key : Daily.Item -> Z) (l : list Daily.Item) :
  (forall item, In item l -> (0 <= key item < 24)%Z) ->
  forall p,
    sumOver (countAt (fold_left (fun p item => Daily.bump (key item) p) l p)) (seq 0 24)
    == sumOver (countAt p) (seq 0 24) + ofNat (length l).
Proof.
  induction l as [|a l IH]; intros Hkey p.
  - simpl fold_left. change (ofNat (length [])) with 0. ring.
  - cbn [fold_left length]. rewrite IH by (intros; apply Hkey; now right).
    rewrite ofNat_S.
    specialize (Hkey a (or_introl eq_refl)).
    rewrite (sumOver_bump (countAt p) (countAt (Daily.bump (key a) p)) (Z.to_nat (key a))).
    + ring.
    + apply seq_NoDup.
    + apply in_seq. lia.
    + intros h Hh. rewrite countAt_bump_other; [reflexivity | lia].
    + apply countAt_bump_same. lia.
Qed.

Section DailyProperties.
Context {D : DateLib}.
Variable now : Z.
Variable random : nat -> Q.

Lemma classify_thresholds (p b : Q) :
  (Daily.classify p b = "High"%string <-> b * (15 # 10) < p)
  /\ (Daily.classify p b = "Medium"%string <-> b * (12 # 10) < p /\ p <= b * (15 # 10))
  /\ (Daily.classify p b = "Low"%string <-> p <= b * (12 # 10) /\ p <= b * (15 # 10)).
Proof.
  unfold Daily.classify.
  destruct (Qlt_le_dec (b * (15 # 10)) p) as [H1 | H1];
    [| destruct (Qlt_le_dec (b * (12 # 10)) p) as [H2 | H2]].
  all: intuition (try discriminate; try reflexivity; try lra).
Qed.

Lemma forecast_days (historicalData : list Daily.Item) (period : string) (day : DailyForecast) :
  In day (Daily.generateCrimeForecast now random historicalData period) ->
  historicalData <> []
  /\ exists i, (1 <= i <= Daily.forecastDays period)%nat
               /\ day = Daily.forecastDay now random historicalData i.
Proof.
  unfold Daily.generateCrimeForecast.
  destruct historicalData as [| item rest]; [intros [] |].
  intros Hin. apply in_map_iff in Hin. destruct Hin as (i & <- & Hi).
  apply in_seq in Hi. split; [discriminate |].
  exists i. split; [lia | reflexivity].
Qed.

Lemma hourlyBreakdown_entries (historicalData : list Daily.Item) (prediction : Q) :
  Daily.hourlyBreakdownFor historicalData prediction
  = map (fun hour => (hour, Math.round (prediction / 24
                                        * Daily.hourMultiplier historicalData hour)))
        (seq 0 24).
Proof.
  unfold Daily.hourlyBreakdownFor.
  cbv [seq fold_left IntObj.set Nat.eqb Nat.ltb Nat.leb map].
  reflexivity.
Qed.

Lemma breakdownSum_rounded (historicalData : list Daily.Item) (prediction : Q) :
  breakdownSum (Daily.hourlyBreakdownFor historicalData prediction)
  = fold_right Z.add 0%Z
      (map (fun hour => Math.round (prediction / 24 * Daily.hourMultiplier historicalData hour))
           (seq 0 24)).
Proof.
  rewrite hourlyBreakdown_entries. unfold breakdownSum. now rewrite map_map.
Qed.

Lemma totalCrimes_positive (historicalData : list Daily.Item) :
  historicalData <> [] -> 0 < Daily.totalCrimes historicalData.
Proof.
  intros Hne. unfold Daily.totalCrimes, ofNat. rewrite <- (Zlt_Qlt 0).
  destruct historicalData; [contradiction | simpl length; lia].
Qed.

(** The multiplier of an hour: its share of the records, scaled to 24 hours,
    and 1 for an hour without records. *)
Lemma hourMultiplier_split (historicalData : list Daily.Item) (hour : nat) :
  historicalData <> [] ->
  Daily.hourMultiplier historicalData hour
  == 24 / Daily.totalCrimes historicalData * countAt (Daily.hourlyPatterns historicalData) hour
     + (if Qeq_bool (countAt (Daily.hourlyPatterns historicalData) hour) 0 then 1 else 0).
Proof.
  intros Hne. pose proof (totalCrimes_positive _ Hne) as Hpos.
  unfold Daily.hourMultiplier. fold (countAt (Daily.hourlyPatterns historicalData) hour).
  set (c := countAt (Daily.hourlyPatterns historicalData) hour).
  set (total := Daily.totalCrimes historicalData) in *.
  assert (Hd : ~ total / 24 == 0).
  { intros E. assert (total == 0) by (rewrite <- (Qmult_div_r total 24), E by discriminate; ring).
    lra. }
  unfold Number_div. rewrite (Qeq_bool_false _ _ Hd). unfold number_or.
  assert (Hq : c / (total / 24) == 24 / total * c) by (field; lra).
  destruct (Qeq_bool c 0) eqn:Ec.
  - apply Qeq_bool_iff in Ec.
    assert (Hz : c / (total / 24) == 0) by (rewrite Hq, Ec; ring).
    apply Qeq_bool_iff in Hz. rewrite Hz, Ec. ring.
  - apply Qeq_bool_neq in Ec.
    assert (Hnz : ~ c / (total / 24) == 0).
    { rewrite Hq. intros E. apply Ec.
      assert (E' : total * (24 / total * c) == 24 * c) by (field; lra).
      rewrite E in E'. lra. }
    rewrite (Qeq_bool_false _ _ Hnz), Hq. ring.
Qed.

Lemma multipliers_sum (historicalData : list Daily.Item) :
  (forall t, (0 <= getHours t < 24)%Z) ->
  historicalData <> [] ->
  sumOver (Daily.hourMultiplier historicalData) (seq 0 24)
  == 24 + ofNat (hoursWithoutRecords historicalData).
Proof.
  intros Hhours Hne. pose proof (totalCrimes_positive _ Hne) as Hpos.
  pose proof (counts_add_up (fun item => getHours (Daily.timestamp item)) historicalData
                            (fun item _ => Hhours _) Daily.noPatterns) as Hcount.
  fold (Daily.hourlyPatterns historicalData) in Hcount.
  fold (Daily.totalCrimes historicalData) in Hcount.
  unfold hoursWithoutRecords.
  assert (E : sumOver (countAt Daily.noPatterns) (seq 0 24) == 0) by reflexivity.
  revert Hcount E. generalize (seq 0 24) as hours. intros hours Hcount E.
  etransitivity.
  { apply sumOver_ext. intros h _. apply hourMultiplier_split. exact Hne. }
  etransitivity; [apply sumOver_affine |].
  rewrite Hcount, E. field. lra.
Qed.

(** What the code computes in general.  Every hourly count is rounded on its
    own, and an hour in which the history has no record gets the multiplier
    1; so the 24 hourly counts add up to [prediction * (24 + z) / 24] within
    12, where [prediction] is the day's prediction before rounding and [z]
    the number of hours without a record. *)
Lemma hourly_sum_general (historicalData : list Daily.Item) (i : nat) :
  (forall t, (0 <= getHours t < 24)%Z) ->
  historicalData <> [] ->
  Qabs (inject_Z (breakdownSum
                    (Day.hourlyBreakdown (Daily.forecastDay now random historicalData i)))
        - Daily.dailyPrediction now random historicalData i
          * (24 + ofNat (hoursWithoutRecords historicalData)) / 24) <= 12.
Proof.
  intros Hhours Hne.
  cbn [Daily.forecastDay Day.hourlyBreakdown].
  set (P := Daily.dailyPrediction now random historicalData i).
  rewrite breakdownSum_rounded.
  pose proof (rounded_sum_error
                (fun hour => P / 24 * Daily.hourMultiplier historicalData hour) (seq 0 24)) as Herr.
  rewrite sumOver_scale, (multipliers_sum _ Hhours Hne) in Herr.
  rewrite length_seq in Herr. change (ofNat 24) with 24 in Herr.
  set (S := fold_right Z.add 0%Z _) in *.
  apply Qabs_Qle_condition in Herr. apply Qabs_Qle_condition.
  assert (E : P * (24 + ofNat (hoursWithoutRecords historicalData)) / 24
              == P / 24 * (24 + ofNat (hoursWithoutRecords historicalData))) by field.
  rewrite E. lra.
Qed.

(** C2 (as amended).  When the history has a record in every hour of the
    day, then for every forecast day the sum over the hours 0..23 of the
    hourly breakdown differs from the day's predicted count by at most 12:
    each of the 24 hourly counts is rounded on its own. *)
Theorem hourly_breakdown_sum
        (historicalData : list Daily.Item) (period : string) (day : DailyForecast) :
  (forall t, (0 <= getHours t < 24)%Z) ->
  hoursWithoutRecords historicalData = 0%nat ->
  In day (Daily.generateCrimeForecast now random historicalData period) ->
  (Z.abs (breakdownSum (Day.hourlyBreakdown day) - Day.predictedCrimes day) <= 12)%Z.
Proof.
  intros Hhours Hz Hin. destruct (forecast_days _ _ _ Hin) as (Hne & i & Hi & ->).
  pose proof (hourly_sum_general historicalData i Hhours Hne) as Hsum.
  rewrite Hz in Hsum. change (ofNat 0) with 0 in Hsum.
  cbn [Daily.forecastDay Day.predictedCrimes].
  set (P := Daily.dailyPrediction now random historicalData i) in *.
  set (S := breakdownSum _) in *.
  apply Qabs_Qle_condition in Hsum.
  assert (E : P * (24 + 0) / 24 == P) by field. rewrite E in Hsum.
  destruct (round_bounds P) as [Hlo Hhi].
  assert (H1 : inject_Z (S - Math.round P) < inject_Z 13).
  { unfold Zminus. rewrite inject_Z_plus, inject_Z_opp. change (inject_Z 13) with 13. lra. }
  assert (H2 : inject_Z (-13) < inject_Z (S - Math.round P)).
  { unfold Zminus. rewrite inject_Z_plus, inject_Z_opp. change (inject_Z (-13)) with (-13).
    lra. }
  rewrite <- Zlt_Qlt in H1, H2. lia.
Qed.

End DailyProperties.

(** ** Numbers in binary64 *)

Lemma is_nan_spec (x : float) : is_nan x = isNaN (Prim2SF x).
Proof.
  unfold is_nan. rewrite FloatAxioms.eqb_spec. unfold SFeqb.
  destruct (Prim2SF x) as [s | s | | s m e]; simpl; try reflexivity;
    try (destruct s; reflexivity).
  destruct s; rewrite Z.compare_refl;
    change (PosDef.Pos.compare_cont Eq m m) with (Pos.compare m m);
    rewrite Pos.compare_refl; reflexivity.
Qed.

Lemma SFcompare_antisym (a b : spec_float) :
  SFcompare b a = option_map CompOpp (SFcompare a b).
Proof.
  destruct a as [sa | sa | | sa ma ea], b as [sb | sb | | sb mb eb]; simpl;
    try reflexivity; try (destruct sa; reflexivity); try (destruct sb; reflexivity);
    try (destruct sa, sb; reflexivity).
  destruct sa, sb; simpl; try reflexivity.
  - rewrite (Z.compare_antisym ea eb). destruct (ea ?= eb)%Z; simpl; try reflexivity.
    f_equal. f_equal. symmetry. exact (Pos.compare_cont_antisym ma mb Eq).
  - rewrite (Z.compare_antisym ea eb). destruct (ea ?= eb)%Z; simpl; try reflexivity.
    f_equal. symmetry. exact (Pos.compare_cont_antisym ma mb Eq).
Qed.

Lemma number_compares (x y : float) :
  is_nan x = false -> is_nan y = false ->
  exists c, SFcompare (Prim2SF x) (Prim2SF y) = Some c.
Proof.
  rewrite !is_nan_spec.
  destruct (Prim2SF x) as [sa | sa | | sa ma ea], (Prim2SF y) as [sb | sb | | sb mb eb];
    simpl; intros Hx Hy; try discriminate; eexists; reflexivity.
Qed.

(** Between numbers, [x <= y] is the same as not [y < x]. *)
Lemma not_greater (x y : float) :
  is_nan x = false -> is_nan y = false ->
  ((y <? x)%float = false <-> (x <=? y)%float = true).
Proof.
  intros Hx Hy. rewrite ltb_spec, leb_spec. unfold SFltb, SFleb.
  rewrite (SFcompare_antisym (Prim2SF x) (Prim2SF y)).
  destruct (number_compares x y Hx Hy) as (c & ->). simpl.
  destruct c; simpl; split; intros H; try reflexivity; try discriminate.
Qed.

(** A comparison that holds is between numbers: with [NaN] on either side
    it is false. *)
Lemma less_is_between_numbers (x y : float) :
  (x <? y)%float = true -> is_nan x = false /\ is_nan y = false.
Proof.
  rewrite ltb_spec, !is_nan_spec. unfold SFltb.
  destruct (Prim2SF x) as [sa | sa | | sa ma ea], (Prim2SF y) as [sb | sb | | sb mb eb];
    simpl; intros H; try discriminate; split; reflexivity.
Qed.

Lemma at_most_is_between_numbers (x y : float) :
  (x <=? y)%float = true -> is_nan x = false /\ is_nan y = false.
Proof.
  rewrite leb_spec, !is_nan_spec. unfold SFleb.
  destruct (Prim2SF x) as [sa | sa | | sa ma ea], (Prim2SF y) as [sb | sb | | sb mb eb];
    simpl; intros H; try discriminate; split; reflexivity.
Qed.

Lemma shr_1_nonneg (mrs : shr_record) :
  (0 <= shr_m mrs)%Z -> (0 <= shr_m (shr_1 mrs))%Z.
Proof.
  destruct mrs as [m r s]. simpl.
  destruct m as [| p | p]; [| destruct p | intros H; exfalso; apply H; reflexivity];
    simpl; intros _; discriminate.
Qed.

Lemma iter_shr_1_nonneg (p : positive) :
  forall mrs, (0 <= shr_m mrs)%Z -> (0 <= shr_m (SpecFloat.iter_pos shr_1 p mrs))%Z.
Proof.
  induction p as [p IH | p IH |]; intros mrs H; simpl.
  - apply IH, IH, shr_1_nonneg, H.
  - apply IH, IH, H.
  - apply shr_1_nonneg, H.
Qed.

Lemma shr_fexp_nonneg (prec emax m e : Z) (l : location) :
  (0 <= m)%Z -> (0 <= shr_m (fst (shr_fexp prec emax m e l)))%Z.
Proof.
  intros H. unfold shr_fexp, shr.
  assert (H0 : (0 <= shr_m (shr_record_of_loc m l))%Z)
    by (destruct l as [| []]; exact H).
  destruct (fexp prec emax (Zdigits2 m + e) - e)%Z; simpl; try exact H0.
  apply iter_shr_1_nonneg, H0.
Qed.

Lemma round_nearest_even_nonneg (m : Z) (l : location) :
  (0 <= m)%Z -> (0 <= round_nearest_even m l)%Z.
Proof.
  intros H. unfold round_nearest_even.
  destruct l as [| []]; try destruct (Z.even m); lia.
Qed.

(** Rounding a mantissa that is not negative gives a number. *)
Lemma rounded_is_number (prec emax : Z) (s : bool) (m e : Z) (l : location) :
  (0 <= m)%Z -> isNaN (binary_round_aux prec emax s m e l) = false.
Proof.
  intros Hm. unfold binary_round_aux.
  pose proof (shr_fexp_nonneg prec emax m e l Hm) as H1.
  destruct (shr_fexp prec emax m e l) as [mrs' e']. simpl in H1.
  pose proof (shr_fexp_nonneg prec emax _ e' loc_Exact
                (round_nearest_even_nonneg _ (loc_of_shr_record mrs') H1)) as H2.
  destruct (shr_fexp prec emax _ e' loc_Exact) as [mrs'' e'']. simpl in H2.
  destruct (shr_m mrs'') as [| p | p]; [reflexivity | | exfalso; apply H2; reflexivity].
  destruct (e'' <=? emax - prec)%Z; reflexivity.
Qed.

(** [b * c] for a finite [c] other than zero: [NaN] exactly when [b] is. *)
Lemma product_is_nan (b c : float) :
  (exists s m e, Prim2SF c = S754_finite s m e) ->
  is_nan (b * c)%float = is_nan b.
Proof.
  intros (s & m & e & Hc). rewrite !is_nan_spec, mul_spec, Hc.
  unfold SF64mul, SFmul.
  destruct (Prim2SF b) as [sb | sb | | sb mb eb]; try reflexivity.
  apply rounded_is_number. discriminate.
Qed.

Lemma times_1_5_is_nan (b : float) : is_nan (b * 1.5)%float = is_nan b.
Proof. apply product_is_nan. vm_compute. do 3 eexists. reflexivity. Qed.

Lemma times_1_2_is_nan (b : float) : is_nan (b * 1.2)%float = is_nan b.
Proof. apply product_is_nan. vm_compute. do 3 eexists. reflexivity. Qed.

(** ** The risk level of a forecast day *)

Lemma classify64_thresholds (p b : float) :
  (Daily64.classify p b = "High"%string <-> (b * 1.5 <? p)%float = true)
  /\ (Daily64.classify p b = "Medium"%string
      <-> (b * 1.2 <? p)%float = true /\ (p <=? b * 1.5)%float = true)
  /\ (Daily64.classify p b = "Low"%string
      <-> (b * 1.5 <? p)%float = false /\ (b * 1.2 <? p)%float = false).
Proof.
  unfold Daily64.classify.
  destruct (b * 1.5 <? p)%float eqn:E15.
  - split; [split; reflexivity |]. split; split; try discriminate.
    + intros [_ Hle]. destruct (at_most_is_between_numbers _ _ Hle) as [Hp Hb].
      apply (not_greater p (b * 1.5) Hp Hb) in Hle. congruence.
    + intros [H _]. discriminate H.
  - destruct (b * 1.2 <? p)%float eqn:E12.
    + split; [split; discriminate |]. split; split; try discriminate.
      * intros _. split; [reflexivity |].
        destruct (less_is_between_numbers _ _ E12) as [Hb Hp].
        rewrite times_1_2_is_nan in Hb.
        apply not_greater; [exact Hp | now rewrite times_1_5_is_nan | exact E15].
      * reflexivity.
      * intros [_ H]. discriminate H.
    + split; [split; discriminate |]. split; split; try discriminate.
      * intros [H _]. discriminate H.
      * intros _. split; reflexivity.
      * reflexivity.
Qed.

Section DailyThresholds.
Context {D : DateLib}.
Variable now : Z.
Variable random : nat -> float.

Lemma forecast64_days (historicalData : list Daily.Item) (period : string)
      (day : Daily64.Day) :
  In day (Daily64.generateCrimeForecast now random historicalData period) ->
  exists i, (1 <= i <= Daily.forecastDays period)%nat
            /\ day = Daily64.forecastDay now random historicalData i.
Proof.
  unfold Daily64.generateCrimeForecast.
  destruct historicalData as [| item rest]; [intros [] |].
  intros Hin. apply in_map_iff in Hin. destruct Hin as (i & <- & Hi).
  apply in_seq in Hi. exists i. split; [lia | reflexivity].
Qed.

(** C5. For every forecast day the risk level is decided by the day's
    prediction (the double that is then rounded into [predictedCrimes]) and
    the baseline rate alone, with the comparisons and the products
    [baseline * 1.5] and [baseline * 1.2] taken in binary64 as the code takes
    them: High exactly when the prediction exceeds 1.5 times the baseline,
    Medium exactly when it exceeds 1.2 times the baseline and is at most 1.5
    times the baseline, Low otherwise, that is, when neither comparison
    holds; for a prediction and a baseline that are numbers, Low exactly when
    the prediction is at most 1.2 times and at most 1.5 times the
    baseline. *)
Theorem risk_level_thresholds
        (historicalData : list Daily.Item) (period : string) (day : Daily64.Day) :
  In day (Daily64.generateCrimeForecast now random historicalData period) ->
  exists i,
    (1 <= i <= Daily.forecastDays period)%nat
    /\ Daily64.predictedCrimes day
       = Double.round (Daily64.dailyPrediction now random historicalData i)
    /\ let predicted := Daily64.dailyPrediction now random historicalData i in
       let baseline := Daily64.baseRate now historicalData in
       (Daily64.riskLevel day = "High"%string \/ Daily64.riskLevel day = "Medium"%string
        \/ Daily64.riskLevel day = "Low"%string)
       /\ (Daily64.riskLevel day = "High"%string
           <-> (baseline * 1.5 <? predicted)%float = true)
       /\ (Daily64.riskLevel day = "Medium"%string
           <-> (baseline * 1.2 <? predicted)%float = true
               /\ (predicted <=? baseline * 1.5)%float = true)
       /\ (Daily64.riskLevel day = "Low"%string
           <-> (baseline * 1.5 <? predicted)%float = false
               /\ (baseline * 1.2 <? predicted)%float = false)
       /\ (is_nan predicted = false -> is_nan baseline = false ->
           (Daily64.riskLevel day = "Low"%string
            <-> (predicted <=? baseline * 1.2)%float = true
                /\ (predicted <=? baseline * 1.5)%float = true)).
Proof.
  intros Hin. destruct (forecast64_days _ _ _ Hin) as (i & Hi & ->).
  exists i. split; [exact Hi |]. split; [reflexivity |].
  cbn [Daily64.forecastDay Daily64.riskLevel]. cbv zeta.
  set (predicted := Daily64.dailyPrediction now random historicalData i).
  set (baseline := Daily64.baseRate now historicalData).
  destruct (classify64_thresholds predicted baseline) as (Hhigh & Hmedium & Hlow).
  split.
  { unfold Daily64.classify.
    destruct (baseline * 1.5 <? predicted)%float; [now left |].
    destruct (baseline * 1.2 <? predicted)%float; [right; now left | right; now right]. }
  split; [exact Hhigh |]. split; [exact Hmedium |]. split; [exact Hlow |].
  intros Hp Hb. rewrite Hlow.
  assert (H15 : is_nan (baseline * 1.5)%float = false) by now rewrite times_1_5_is_nan.
  assert (H12 : is_nan (baseline * 1.2)%float = false) by now rewrite times_1_2_is_nan.
  rewrite (not_greater predicted _ Hp H15), (not_greater predicted _ Hp H12).
  tauto.
Qed.

End DailyThresholds.

(** ** The daily forecaster on the reference runtime *)

Lemma reference_hours_range (t : Z) : (0 <= Reference.hours t < 24)%Z.
Proof.
  unfold Reference.hours, Reference.timeInDay.
  pose proof (Z.mod_pos_bound t msPerDay eq_refl) as [Hlo Hhi].
  split.
  - apply Z.div_pos; [exact Hlo | reflexivity].
  - apply Z.div_lt_upper_bound; [reflexivity | exact Hhi].
Qed.

Lemma firstDay_in_forecast (random : nat -> Q) (history : list Daily.Item) :
  history <> [] -> In (Scenario.firstDay random history) (Scenario.forecast random history).
Proof.
  intros Hne. unfold Scenario.forecast, Daily.generateCrimeForecast.
  destruct history; [contradiction |].
  apply (in_map (Daily.forecastDay Scenario.now random _) (seq 1 7) 1%nat).
  apply in_seq. lia.
Qed.

Lemma seventhDay_in_forecast :
  In Scenario.seventhDay
     (@Daily64.generateCrimeForecast Reference.utc Scenario.now Scenario.seventh
                                     Scenario.fourReports "1week").
Proof.
  unfold Scenario.seventhDay, Daily64.generateCrimeForecast, Scenario.fourReports.
  apply (in_map (Daily64.forecastDay Scenario.now Scenario.seventh _) (seq 1 7) 7%nat).
  apply in_seq. lia.
Qed.

Lemma risk_level_thresholds_witness :
  In Scenario.seventhDay
     (@Daily64.generateCrimeForecast Reference.utc Scenario.now Scenario.seventh
                                     Scenario.fourReports "1week")
  /\ Daily64.riskLevel Scenario.seventhDay = "Medium"%string
  /\ exists i,
       (1 <= i <= Daily.forecastDays "1week")%nat
       /\ Daily64.predictedCrimes Scenario.seventhDay
          = Double.round (@Daily64.dailyPrediction Reference.utc Scenario.now Scenario.seventh
                                                   Scenario.fourReports i)
       /\ let predicted := @Daily64.dailyPrediction Reference.utc Scenario.now Scenario.seventh
                                                    Scenario.fourReports i in
          let baseline := Daily64.baseRate Scenario.now Scenario.fourReports in
          let day := Scenario.seventhDay in
          (Daily64.riskLevel day = "High"%string \/ Daily64.riskLevel day = "Medium"%string
           \/ Daily64.riskLevel day = "Low"%string)
          /\ (Daily64.riskLevel day = "High"%string
              <-> (baseline * 1.5 <? predicted)%float = true)
          /\ (Daily64.riskLevel day = "Medium"%string
              <-> (baseline * 1.2 <? predicted)%float = true
                  /\ (predicted <=? baseline * 1.5)%float = true)
          /\ (Daily64.riskLevel day = "Low"%string
              <-> (baseline * 1.5 <? predicted)%float = false
                  /\ (baseline * 1.2 <? predicted)%float = false)
          /\ (is_nan predicted = false -> is_nan baseline = false ->
              (Daily64.riskLevel day = "Low"%string
               <-> (predicted <=? baseline * 1.2)%float = true
                   /\ (predicted <=? baseline * 1.5)%float = true)).
Proof.
  split; [exact seventhDay_in_forecast |].
  split; [vm_compute; reflexivity |].
  exact (@risk_level_thresholds Reference.utc Scenario.now Scenario.seventh
                                Scenario.fourReports "1week" Scenario.seventhDay
                                seventhDay_in_forecast).
Defined.

(** Where binary64 decides.  Four records in two days and a draw of
    0.14285714285714288: on the seventh day the prediction is the double 6
    and 1.5 times the baseline of 4 is the double 6, so the day is Medium.
    In exact arithmetic the same draw gives a prediction above 6, which
    would be High.  Likewise a prediction of 1.8 on a baseline of 1.5 is
    Medium, the double [1.5 * 1.2] lying below the double 1.8. *)
Lemma binary64_decides_the_level :
  Daily64.classify 1.8 1.5 = "Medium"%string
  /\ Daily.classify (18 # 10) (15 # 10) = "Low"%string
  /\ Daily64.baseRate Scenario.now Scenario.fourReports = 4%float
  /\ @Daily64.dailyPrediction Reference.utc Scenario.now Scenario.seventh
                              Scenario.fourReports 7 = 6%float
  /\ Daily64.riskLevel Scenario.seventhDay = "Medium"%string
  /\ (forall k, Double.value (Scenario.seventh k) = Some (Scenario.seventhExact k))
  /\ Day.riskLevel (@Daily.forecastDay Reference.utc Scenario.now Scenario.seventhExact
                                       Scenario.fourReports 7) = "High"%string.
Proof.
  split; [vm_compute; reflexivity |]. split; [vm_compute; reflexivity |].
  split; [vm_compute; reflexivity |]. split; [vm_compute; reflexivity |].
  split; [vm_compute; reflexivity |]. split; [intros k; vm_compute; reflexivity |].
  vm_compute; reflexivity.
Qed.

Lemma hourly_breakdown_sum_witness :
  let day := Scenario.firstDay Scenario.quarter Scenario.everyHour in
  (forall t, (0 <= @getHours Reference.utc t < 24)%Z)
  /\ @hoursWithoutRecords Reference.utc Scenario.everyHour = 0%nat
  /\ In day (Scenario.forecast Scenario.quarter Scenario.everyHour)
  /\ (Z.abs (breakdownSum (Day.hourlyBreakdown day) - Day.predictedCrimes day) <= 12)%Z.
Proof.
  cbv zeta.
  assert (Hin : In (Scenario.firstDay Scenario.quarter Scenario.everyHour)
                   (Scenario.forecast Scenario.quarter Scenario.everyHour))
    by (apply firstDay_in_forecast; discriminate).
  assert (Hz : @hoursWithoutRecords Reference.utc Scenario.everyHour = 0%nat)
    by (vm_compute; reflexivity).
  split; [exact reference_hours_range |]. split; [exact Hz |]. split; [exact Hin |].
  exact (@hourly_breakdown_sum Reference.utc Scenario.now Scenario.quarter
                               Scenario.everyHour "1week" _ reference_hours_range Hz Hin).
Defined.

(** C2 (as stated) fails.  With one record in every hour of one day the
    first forecast day predicts 86 incidents and its hourly counts add up to
    96; with ten records in one hour it predicts 40 and the hourly counts add
    up to 86. *)
Lemma hourly_sum_claim_fails :
  let day1 := Scenario.firstDay Scenario.quarter Scenario.everyHour in
  let day2 := Scenario.firstDay Scenario.half Scenario.midnight in
  ((10 <= length Scenario.everyHour)%nat
   /\ In day1 (Scenario.forecast Scenario.quarter Scenario.everyHour)
   /\ Day.predictedCrimes day1 = 86%Z
   /\ breakdownSum (Day.hourlyBreakdown day1) = 96%Z
   /\ ~ (Z.abs (breakdownSum (Day.hourlyBreakdown day1) - Day.predictedCrimes day1) <= 1)%Z)
  /\ ((10 <= length Scenario.midnight)%nat
      /\ In day2 (Scenario.forecast Scenario.half Scenario.midnight)
      /\ Day.predictedCrimes day2 = 40%Z
      /\ breakdownSum (Day.hourlyBreakdown day2) = 86%Z
      /\ ~ (Z.abs (breakdownSum (Day.hourlyBreakdown day2) - Day.predictedCrimes day2) <= 1)%Z).
Proof.
  cbv zeta. split; (split; [vm_compute; lia |]);
    (split; [apply firstDay_in_forecast; discriminate |]);
    (split; [vm_compute; reflexivity |]); (split; [vm_compute; reflexivity |]);
    vm_compute; intros H; apply H; reflexivity.
Qed.

(** ** Insight Synthesizer *)

Lemma sortInsert_perm {A : Type} (cmp : A -> A -> Z) (x : A) (l : list A) :
  Permutation (x :: l) (sortInsert cmp x l).
Proof.
  induction l as [|y l IH]; simpl.
  - apply Permutation_refl.
  - destruct (cmp x y <=? 0)%Z.
    + apply Permutation_refl.
    + eapply perm_trans; [apply perm_swap | apply perm_skip, IH].
Qed.

Lemma sortBy_perm {A : Type} (cmp : A -> A -> Z) (l : list A) :
  Permutation l (sortBy cmp l).
Proof.
  induction l as [|x l IH]; simpl.
  - apply perm_nil.
  - eapply perm_trans; [apply perm_skip, IH | apply sortInsert_perm].
Qed.

(** The sort orders its result when the comparison is a difference of keys. *)
Lemma sortInsert_sorted {A : Type} (key : A -> Z) (x : A) (l : list A) :
  Sorted (fun a b => (key b <= key a)%Z) l ->
  Sorted (fun a b => (key b <= key a)%Z) (sortInsert (fun a b => (key b - key a)%Z) x l).
Proof.
  induction l as [|y l IH]; intros Hs; simpl.
  - repeat constructor.
  - destruct (Z.leb_spec (key y - key x) 0) as [Hle | Hgt].
    + constructor; [exact Hs | constructor; lia].
    + inversion Hs as [| ? ? Hs' Hhd]; subst.
      constructor; [apply IH, Hs' |].
      destruct l as [|z l]; simpl.
      * constructor. lia.
      * destruct (Z.leb_spec (key z - key x) 0); constructor; [lia |].
        now inversion Hhd.
Qed.

Lemma sortBy_sorted {A : Type} (key : A -> Z) (l : list A) :
  Sorted (fun a b => (key b <= key a)%Z) (sortBy (fun a b => (key b - key a)%Z) l).
Proof.
  induction l as [|x l IH]; simpl.
  - constructor.
  - apply sortInsert_sorted, IH.
Qed.

Lemma filter_length_perm {A : Type} (f : A -> bool) (l l' : list A) :
  Permutation l l' -> length (filter f l) = length (filter f l').
Proof.
  induction 1 as [| x l l' _ IH | x y l | l l' l'' _ IH1 _ IH2]; simpl.
  - reflexivity.
  - destruct (f x); simpl; now rewrite IH.
  - destruct (f x), (f y); reflexivity.
  - now rewrite IH1.
Qed.

(** The in-place sort changes neither the number of days nor the number of
    High-risk days. *)
Lemma sortedByCrimes_counts (forecastData : list DailyForecast) :
  length (Insight.sortedByCrimes forecastData) = length forecastData
  /\ Insight.highRiskDays (Insight.sortedByCrimes forecastData)
     = Insight.highRiskDays forecastData.
Proof.
  pose proof (sortBy_perm (fun a b => (Day.predictedCrimes b - Day.predictedCrimes a)%Z)
                          forecastData) as Hperm.
  split.
  - symmetry. apply Permutation_length, Hperm.
  - symmetry. apply filter_length_perm, Hperm.
Qed.

Lemma overallRisk_thresholds (high days : nat) :
  (Insight.overallRisk high days = "High"%string <-> ofNat days * (3 # 10) < ofNat high)
  /\ (Insight.overallRisk high days = "Medium"%string
      <-> ofNat days * (1 # 10) < ofNat high /\ ofNat high <= ofNat days * (3 # 10))
  /\ (Insight.overallRisk high days = "Low"%string <-> ofNat high <= ofNat days * (1 # 10)).
Proof.
  pose proof (ofNat_nonneg days) as Hd.
  unfold Insight.overallRisk.
  destruct (Qlt_le_dec (ofNat days * (3 # 10)) (ofNat high)) as [H1 | H1];
    [| destruct (Qlt_le_dec (ofNat days * (1 # 10)) (ofNat high)) as [H2 | H2]].
  all: intuition (try discriminate; try reflexivity; try lra).
Qed.

Lemma insights_riskLevel {A : Type} (forecastData : list DailyForecast) (historicalData : list A) :
  forecastData <> [] ->
  Insight.riskLevel (fst (Insight.generateForecastInsights forecastData historicalData))
  = Insight.overallRisk (Insight.highRiskDays forecastData) (length forecastData).
Proof.
  intros Hne. destruct forecastData as [| day rest]; [contradiction |].
  unfold Insight.generateForecastInsights. cbn [fst Insight.riskLevel].
  destruct (sortedByCrimes_counts (day :: rest)) as [-> ->]. reflexivity.
Qed.

(** The count the code takes is the number of days whose risk level is
    the string [High]. *)
Lemma highRiskDays_counts (forecastData : list DailyForecast) :
  Insight.highRiskDays forecastData
  = count_occ string_dec (map Day.riskLevel forecastData) "High"%string.
Proof.
  unfold Insight.highRiskDays.
  induction forecastData as [| day rest IH]; [reflexivity |].
  cbn [filter map count_occ].
  destruct (String.eqb_spec (Day.riskLevel day) "High") as [E | E];
    destruct (string_dec (Day.riskLevel day) "High") as [E' | E'];
    try contradiction; cbn [length]; now rewrite IH.
Qed.

(** C4. For a non-empty forecast, with [high] the number of days whose risk
    level is High: the overall risk level is High exactly when [high]
    exceeds 0.3 times the number of days, Medium exactly when it exceeds 0.1
    times but not 0.3 times the number of days, and Low otherwise; with
    exactly 4 days of risk level High out of 10 it is High. *)
Theorem overall_risk_level {A : Type}
        (forecastData : list DailyForecast) (historicalData : list A) :
  forecastData <> [] ->
  let days := ofNat (length forecastData) in
  let high := ofNat (count_occ string_dec (map Day.riskLevel forecastData) "High"%string) in
  let risk :=
    Insight.riskLevel (fst (Insight.generateForecastInsights forecastData historicalData)) in
  (risk = "High"%string <-> days * (3 # 10) < high)
  /\ (risk = "Medium"%string <-> days * (1 # 10) < high /\ high <= days * (3 # 10))
  /\ (risk = "Low"%string <-> high <= days * (1 # 10))
  /\ (length forecastData = 10%nat ->
      count_occ string_dec (map Day.riskLevel forecastData) "High"%string = 4%nat ->
      risk = "High"%string).
Proof.
  intros Hne. cbv zeta. rewrite (insights_riskLevel _ _ Hne).
  rewrite <- highRiskDays_counts.
  destruct (overallRisk_thresholds (Insight.highRiskDays forecastData) (length forecastData))
    as (HH & HM & HL).
  split; [exact HH |]. split; [exact HM |]. split; [exact HL |].
  intros Hn Hh. rewrite Hn, Hh. reflexivity.
Qed.

Lemma overall_risk_level_witness :
  let days := ofNat (length Scenario.tenDays) in
  let high :=
    ofNat (count_occ string_dec (map Day.riskLevel Scenario.tenDays) "High"%string) in
  let risk :=
    Insight.riskLevel (fst (Insight.generateForecastInsights Scenario.tenDays (@nil unit))) in
  Scenario.tenDays <> []
  /\ length Scenario.tenDays = 10%nat
  /\ map Day.riskLevel Scenario.tenDays
     = ["High"; "Low"; "Medium"; "High"; "Low"; "Low"; "High"; "Medium"; "High"; "Low"]%string
  /\ count_occ string_dec (map Day.riskLevel Scenario.tenDays) "High"%string = 4%nat
  /\ (risk = "High"%string <-> days * (3 # 10) < high)
  /\ (risk = "Medium"%string <-> days * (1 # 10) < high /\ high <= days * (3 # 10))
  /\ (risk = "Low"%string <-> high <= days * (1 # 10))
  /\ risk = "High"%string.
Proof.
  assert (Hne : Scenario.tenDays <> []) by discriminate.
  destruct (@overall_risk_level unit Scenario.tenDays [] Hne) as (HH & HM & HL & H4).
  split; [exact Hne |]. split; [reflexivity |]. split; [reflexivity |].
  split; [reflexivity |].
  split; [exact HH |]. split; [exact HM |]. split; [exact HL |].
  apply H4; reflexivity.
Defined.

(** What the call does to its argument: the array is sorted, by descending
    predicted count; it holds the same days, in general in another order. *)
Lemma insights_permute_argument {A : Type}
      (forecastData : list DailyForecast) (historicalData : list A) :
  Permutation forecastData
              (snd (Insight.generateForecastInsights forecastData historicalData)).
Proof.
  destruct forecastData as [| day rest]; [apply perm_nil |].
  apply (sortBy_perm _ (day :: rest)).
Qed.

Lemma insights_sort_argument {A : Type}
      (forecastData : list DailyForecast) (historicalData : list A) :
  Sorted (fun a b => (Day.predictedCrimes b <= Day.predictedCrimes a)%Z)
         (snd (Insight.generateForecastInsights forecastData historicalData)).
Proof.
  destruct forecastData as [| day rest]; [constructor |].
  apply (sortBy_sorted Day.predictedCrimes (day :: rest)).
Qed.

(** C3.  The claim does not hold of the code: the one-week forecast of the
    daily forecaster is in date order before [generateForecastInsights] is
    called on it and in another order afterwards. *)
Theorem insights_reorder_forecast :
  let week := Scenario.forecast Scenario.quarter Scenario.everyHour in
  let after := snd (Insight.generateForecastInsights week Scenario.everyHour) in
  map Day.date week
  = ["2024-01-12"; "2024-01-13"; "2024-01-14"; "2024-01-15"; "2024-01-16"; "2024-01-17";
     "2024-01-18"]%string
  /\ map Day.date after
     = ["2024-01-17"; "2024-01-12"; "2024-01-13"; "2024-01-14"; "2024-01-15"; "2024-01-16";
        "2024-01-18"]%string
  /\ after <> week.
Proof.
  cbv zeta.
  assert (H1 : map Day.date (Scenario.forecast Scenario.quarter Scenario.everyHour)
               = ["2024-01-12"; "2024-01-13"; "2024-01-14"; "2024-01-15"; "2024-01-16";
                  "2024-01-17"; "2024-01-18"]%string) by (vm_compute; reflexivity).
  assert (H2 : map Day.date
                   (snd (Insight.generateForecastInsights
                           (Scenario.forecast Scenario.quarter Scenario.everyHour)
                           Scenario.everyHour))
               = ["2024-01-17"; "2024-01-12"; "2024-01-13"; "2024-01-14"; "2024-01-15";
                  "2024-01-16"; "2024-01-18"]%string) by (vm_compute; reflexivity).
  split; [exact H1 |]. split; [exact H2 |].
  intros E. rewrite E, H1 in H2. discriminate H2.
Qed.

(** ** Spatial Density Aggregator *)

Section HeatmapProperties.
Context {N : NumberLib}.

Lemma lt_true (a b : Q) : a < b -> Heatmap.lt a b = true.
Proof.
  intros H. unfold Heatmap.lt. destruct (Qlt_le_dec a b); [reflexivity | lra].
Qed.

(** A degenerate report leaves the groups as they are. *)
Lemma addReport_degenerate (groups : Heatmap.Groups) (report : JS.Value) :
  degenerate report -> Heatmap.addReport groups report = groups.
Proof.
  unfold degenerate, Heatmap.addReport.
  destruct (Heatmap.coordinates report) as [[lat |] [lng |]]; try reflexivity.
  intros H.
  destruct (Heatmap.isZero lat) eqn:Zlat; [reflexivity |].
  destruct (Heatmap.isZero lng) eqn:Zlng; [reflexivity |].
  unfold Heatmap.isZero in *. apply Qeq_bool_neq in Zlat, Zlng. cbn [orb].
  destruct H as [H | [H | [H | [H | [H | H]]]]]; try contradiction;
    rewrite (lt_true _ _ H); rewrite ?orb_true_r; reflexivity.
Qed.

Lemma createHeatmapData_degenerate (intensity : Q) (before after : list JS.Value)
      (report : JS.Value) :
  degenerate report ->
  Heatmap.createHeatmapData intensity (before ++ report :: after)
  = Heatmap.createHeatmapData intensity (before ++ after).
Proof.
  intros H. unfold Heatmap.createHeatmapData, Heatmap.locationGroups.
  rewrite !fold_left_app. cbn [fold_left]. now rewrite addReport_degenerate.
Qed.

Lemma origin_degenerate : degenerate Scenario.origin.
Proof.
  unfold degenerate. cbn. exact I.
Qed.

Lemma farAway_degenerate : degenerate Scenario.farAway.
Proof.
  unfold degenerate. cbn. right. right. right. left. reflexivity.
Qed.

(** C8. The reports at (14.60421, 120.98223) and (14.60419, 120.98221) fall
    into one group, keyed by the coordinates rounded to four decimals, and
    give one heat cell.  A report whose coordinates are [NaN], zero or out of
    bounds, such as one at (0, 0) or at (91, 200), is dropped wherever it
    stands among the reports: no cell, no error. *)
Theorem heat_cells_group_and_drop (intensity : Q) (before after : list JS.Value) :
  (exists group,
      Heatmap.locationGroups [Scenario.reportA; Scenario.reportB]
      = [("14.6042,120.9822"%string, group)]
      /\ Heatmap.count group = 2%Z
      /\ Heatmap.reports group = [Scenario.reportA; Scenario.reportB])
  /\ length (Heatmap.createHeatmapData intensity [Scenario.reportA; Scenario.reportB]) = 1%nat
  /\ (forall report,
         degenerate report ->
         Heatmap.createHeatmapData intensity (before ++ report :: after)
         = Heatmap.createHeatmapData intensity (before ++ after))
  /\ degenerate Scenario.origin
  /\ degenerate Scenario.farAway
  /\ Heatmap.createHeatmapData intensity [Scenario.origin; Scenario.farAway] = [].
Proof.
  split; [| split; [| split; [| split; [| split]]]].
  - eexists. split; [vm_compute; reflexivity |]. split; reflexivity.
  - reflexivity.
  - intros report. apply createHeatmapData_degenerate.
  - exact origin_degenerate.
  - exact farAway_degenerate.
  - etransitivity.
    + exact (createHeatmapData_degenerate intensity [] [Scenario.farAway] _ origin_degenerate).
    + exact (createHeatmapData_degenerate intensity [] [] _ farAway_degenerate).
Qed.

End HeatmapProperties.

Lemma heat_cells_group_and_drop_witness :
  @degenerate Reference.numbers Scenario.bare
  /\ @Heatmap.createHeatmapData Reference.numbers 5
       ([Scenario.reportA] ++ Scenario.bare :: [Scenario.reportB])
     = @Heatmap.createHeatmapData Reference.numbers 5 ([Scenario.reportA] ++ [Scenario.reportB])
  /\ @Heatmap.createHeatmapData Reference.numbers 5 [Scenario.reportA; Scenario.reportB]
     = [(1460421 # 100000, 12098223 # 100000, Qmin 1 (Qmin 1 (2 / 10) * (5 / 10)))].
Proof.
  assert (Hbare : @degenerate Reference.numbers Scenario.bare) by exact I.
  destruct (@heat_cells_group_and_drop Reference.numbers 5 [Scenario.reportA] [Scenario.reportB])
    as (_ & _ & Hdrop & _).
  split; [exact Hbare |]. split; [exact (Hdrop _ Hbare) | reflexivity].
Defined.

(** ** Historical Aggregator: normalization *)

Section HistoricalProperties.
Context {N : NumberLib}.

Lemma or_falsy (a b : JS.Value) : JS.truthy a = false -> a ||| b = b.
Proof.
  intros H. unfold JS.or. now rewrite H.
Qed.

(** Drops the read of key [k] from a chain of [||], by hypothesis [H] that
    the keys are unresolved. *)
Ltac skip_key H v k :=
  rewrite (or_falsy (JS.get v k)) by (apply H; simpl; tauto).

(** C9 (as amended).  A category that no key resolves is the empty string,
    and so is a location that none of the keys resolves.  When the location
    is a nested object in which neither [address] nor [name] resolves, it is
    the string [Unknown], not the empty string. *)
Theorem unresolved_fields (report : JS.Value) :
  (unresolved report ["type"; "crimeType"; "crime_type"]%string ->
   Historical.reportType report = EmptyString)
  /\ (unresolved report ["location"; "location_address"; "address"]%string ->
      Historical.reportLocation report = EmptyString)
  /\ (let location := JS.get report "location" ||| JS.get report "location_address"
                      ||| JS.get report "address" in
      JS.isObject location = true ->
      unresolved location ["address"; "name"]%string ->
      Historical.reportLocation report = "Unknown"%string).
Proof.
  split; [| split].
  - intros H. unfold Historical.reportType.
    skip_key H report "type"%string. skip_key H report "crimeType"%string.
    skip_key H report "crime_type"%string. reflexivity.
  - intros H. unfold Historical.reportLocation.
    skip_key H report "location"%string. skip_key H report "location_address"%string.
    assert (Ha : JS.truthy (JS.get report "address") = false) by (apply H; simpl; tauto).
    destruct (JS.get report "address") as [| | b | q | str | fields];
      try discriminate Ha; cbn [JS.isObject]; rewrite (or_falsy _ _ Ha); reflexivity.
  - cbv zeta. intros Hobj H. unfold Historical.reportLocation. rewrite Hobj.
    set (location := JS.get report "location" ||| JS.get report "location_address"
                     ||| JS.get report "address") in *.
    skip_key H location "address"%string. skip_key H location "name"%string.
    reflexivity.
Qed.

End HistoricalProperties.

Lemma unresolved_fields_witness :
  @Historical.reportType Reference.numbers Scenario.bare = EmptyString
  /\ @Historical.reportLocation Reference.numbers Scenario.bare = EmptyString
  /\ @Historical.reportLocation Reference.numbers Scenario.pinned = "Unknown"%string.
Proof.
  split; [| split].
  - apply (@unresolved_fields Reference.numbers Scenario.bare).
    intros k [<- | [<- | [<- | []]]]; reflexivity.
  - apply (@unresolved_fields Reference.numbers Scenario.bare).
    intros k [<- | [<- | [<- | []]]]; reflexivity.
  - apply (@unresolved_fields Reference.numbers Scenario.pinned).
    + reflexivity.
    + intros k [<- | [<- | []]]; reflexivity.
Defined.

(** C9 (as stated) fails: no key resolves the category of the report, and
    its location, coordinates only, is resolved by no key either, yet the
    location is treated as [Unknown]. *)
Lemma unresolved_location_claim_fails :
  let location := JS.get Scenario.pinned "location" in
  unresolved Scenario.pinned ["type"; "crimeType"; "crime_type"]%string
  /\ unresolved Scenario.pinned ["location_address"; "address"]%string
  /\ JS.isObject location = true
  /\ unresolved location ["address"; "name"]%string
  /\ @Historical.reportLocation Reference.numbers Scenario.pinned <> EmptyString.
Proof.
  cbv zeta. split; [| split; [| split; [| split]]].
  - intros k [<- | [<- | [<- | []]]]; reflexivity.
  - intros k [<- | [<- | []]]; reflexivity.
  - reflexivity.
  - intros k [<- | [<- | []]]; reflexivity.
  - vm_compute. discriminate.
Qed.

(** ** The statistical fallback *)

Section FetchProperties.
Context {N : NumberLib} {D : DateLib}.
Variable now : Z.
Variable random : nat -> Q.

(** A record that qualifies has a valid date, not older than the cutoff. *)
Lemma qualifies_recent (forecastCrimeType : string) (item : Fetch.Item) :
  Fetch.qualifies now forecastCrimeType item = true ->
  exists t, Fetch.newDate (Fetch.timestamp item) = Some t
            /\ (Fetch.threeMonthsAgo now <= t)%Z.
Proof.
  unfold Fetch.qualifies.
  destruct (negb (forecastCrimeType =? EmptyString)%string
            && negb (JS.eqString (Fetch.crimeType item) forecastCrimeType));
    [discriminate |].
  destruct (Fetch.newDate (Fetch.timestamp item)) as [t |]; [| discriminate].
  intros H. exists t. split; [reflexivity | now apply Z.leb_le].
Qed.

Lemma stale_disqualified (forecastCrimeType : string) (item : Fetch.Item) (t : Z) :
  Fetch.newDate (Fetch.timestamp item) = Some t ->
  (t < Fetch.threeMonthsAgo now)%Z ->
  Fetch.qualifies now forecastCrimeType item = false.
Proof.
  intros Ht Hold. unfold Fetch.qualifies. rewrite Ht.
  destruct (negb (forecastCrimeType =? EmptyString)%string
            && negb (JS.eqString (Fetch.crimeType item) forecastCrimeType));
    [reflexivity |].
  apply Z.leb_gt. exact Hold.
Qed.

Lemma filter_none {A : Type} (f : A -> bool) (l : list A) :
  (forall a, In a l -> f a = false) -> filter f l = [].
Proof.
  induction l as [|a l IH]; intros H; simpl.
  - reflexivity.
  - rewrite (H a) by now left. apply IH. intros b Hb. apply H. now right.
Qed.

(** What the filter keeps: the selected crime type, if there is one, and a
    valid date that is not older than the cutoff.  Nothing bounds the date
    from above. *)
Lemma qualifies_iff (forecastCrimeType : string) (item : Fetch.Item) :
  Fetch.qualifies now forecastCrimeType item = true
  <-> (forecastCrimeType = EmptyString
       \/ JS.eqString (Fetch.crimeType item) forecastCrimeType = true)
      /\ exists t, Fetch.newDate (Fetch.timestamp item) = Some t
                   /\ (Fetch.threeMonthsAgo now <= t)%Z.
Proof.
  unfold Fetch.qualifies.
  destruct (String.eqb_spec forecastCrimeType EmptyString) as [E | E]; cbn [negb andb].
  - destruct (Fetch.newDate (Fetch.timestamp item)) as [t |].
    + rewrite Z.leb_le. split.
      * intros H. split; [now left |]. now exists t.
      * intros [_ (t' & [= <-] & H)]. exact H.
    + split; [discriminate |]. intros [_ (t' & H & _)]. discriminate H.
  - destruct (JS.eqString (Fetch.crimeType item) forecastCrimeType); cbn [negb].
    + destruct (Fetch.newDate (Fetch.timestamp item)) as [t |].
      * rewrite Z.leb_le. split.
        -- intros H. split; [now right |]. now exists t.
        -- intros [_ (t' & [= <-] & H)]. exact H.
      * split; [discriminate |]. intros [_ (t' & H & _)]. discriminate H.
    + split; [discriminate |]. intros [[H | H] _]; [contradiction | discriminate].
Qed.

(** C10 (as amended).  In the statistical fallback a record counts exactly
    when it has the selected crime type, if one is selected, and its date is
    valid and not older than the cutoff, three calendar months before the
    clock reading; the date is not bounded from above.  The minimum of ten
    is checked on the records that count.  So when the store holds ten or
    more records, all of them older than the cutoff, the call ends with the
    insufficient-data error and leaves forecast and insights as they
    were. *)
Theorem stale_history_is_insufficient
        (st : Fetch.State) (rawData : list (string * JS.Value))
        (forecastCrimeType forecastPeriod : string) :
  (10 <= length rawData)%nat ->
  (forall entry, In entry rawData ->
                 exists t, Fetch.newDate (Fetch.timestamp (Fetch.toItem now entry)) = Some t
                           /\ (t < Fetch.threeMonthsAgo now)%Z) ->
  (forall raw item,
      In item (Fetch.historicalData now forecastCrimeType raw)
      <-> In item (map (Fetch.toItem now) raw)
          /\ (forecastCrimeType = EmptyString
              \/ JS.eqString (Fetch.crimeType item) forecastCrimeType = true)
          /\ exists t, Fetch.newDate (Fetch.timestamp item) = Some t
                       /\ (Fetch.threeMonthsAgo now <= t)%Z)
  /\ (forall raw,
        (length (Fetch.historicalData now forecastCrimeType raw) < 10)%nat ->
        Fetch.forecastError (Fetch.fetchCrimeForecast now random st None (Some raw)
                                                      forecastCrimeType forecastPeriod)
        = Some Fetch.insufficient)
  /\ Fetch.historicalData now forecastCrimeType rawData = []
  /\ Fetch.fetchCrimeForecast now random st None (Some rawData)
                              forecastCrimeType forecastPeriod
     = {| Fetch.forecastLoading := false;
          Fetch.forecastError := Some Fetch.insufficient;
          Fetch.forecastData := Fetch.forecastData st;
          Fetch.forecastInsights := Fetch.forecastInsights st |}.
Proof.
  intros _ Hstale.
  assert (Hnone : Fetch.historicalData now forecastCrimeType rawData = []).
  { unfold Fetch.historicalData. apply filter_none.
    intros item Hin. apply in_map_iff in Hin. destruct Hin as (entry & <- & Hentry).
    destruct (Hstale entry Hentry) as (t & Ht & Hold).
    exact (stale_disqualified _ _ t Ht Hold). }
  split; [| split; [| split]].
  - intros raw item. unfold Fetch.historicalData.
    rewrite filter_In, qualifies_iff. reflexivity.
  - intros raw Hfew. unfold Fetch.fetchCrimeForecast.
    destruct (Nat.ltb_spec (length (Fetch.historicalData now forecastCrimeType raw)) 10);
      [reflexivity | lia].
  - exact Hnone.
  - unfold Fetch.fetchCrimeForecast. rewrite Hnone. reflexivity.
Qed.

(** When the fallback succeeds, the state holds the forecast in the order
    the insight synthesizer has left it in, not in date order. *)
Lemma fetch_keeps_sorted_forecast
      (st : Fetch.State) (rawData : list (string * JS.Value))
      (forecastCrimeType forecastPeriod : string) :
  (10 <= length (Fetch.historicalData now forecastCrimeType rawData))%nat ->
  Fetch.forecastData (Fetch.fetchCrimeForecast now random st None (Some rawData)
                                               forecastCrimeType forecastPeriod)
  = Insight.sortedByCrimes
      (Daily.generateCrimeForecast
         now random
         (map (Fetch.asDailyItem) (Fetch.historicalData now forecastCrimeType rawData))
         forecastPeriod).
Proof.
  intros Hlen. unfold Fetch.fetchCrimeForecast.
  destruct (Nat.ltb_spec (length (Fetch.historicalData now forecastCrimeType rawData)) 10);
    [lia |].
  set (history := Fetch.historicalData now forecastCrimeType rawData) in *.
  assert (Hne : Daily.generateCrimeForecast now random (map Fetch.asDailyItem history)
                                            forecastPeriod <> []).
  { unfold Daily.generateCrimeForecast.
    destruct history as [| item rest]; [simpl in Hlen; lia |].
    cbn [map]. unfold Daily.forecastDays.
    destruct (forecastPeriod =? "1week")%string; [discriminate |].
    destruct (forecastPeriod =? "2weeks")%string; discriminate. }
  unfold Insight.generateForecastInsights.
  destruct (Daily.generateCrimeForecast now random (map Fetch.asDailyItem history)
                                        forecastPeriod) as [| day rest];
    [contradiction | reflexivity].
Qed.

End FetchProperties.

Lemma stale_history_is_insufficient_witness :
  (forall raw item,
      In item (@Fetch.historicalData Reference.numbers Reference.utc Scenario.now EmptyString raw)
      <-> In item (map (@Fetch.toItem Reference.numbers Reference.utc Scenario.now) raw)
          /\ (EmptyString = EmptyString
              \/ JS.eqString (Fetch.crimeType item) EmptyString = true)
          /\ exists t, @Fetch.newDate Reference.utc (Fetch.timestamp item) = Some t
                       /\ (@Fetch.threeMonthsAgo Reference.utc Scenario.now <= t)%Z)
  /\ (forall raw,
        (length (@Fetch.historicalData Reference.numbers Reference.utc Scenario.now
                                       EmptyString raw) < 10)%nat ->
        Fetch.forecastError
          (@Fetch.fetchCrimeForecast Reference.numbers Reference.utc Scenario.now
                                     Scenario.quarter Scenario.idle None (Some raw)
                                     EmptyString "1week")
        = Some Fetch.insufficient)
  /\ @Fetch.historicalData Reference.numbers Reference.utc Scenario.now EmptyString
                           Scenario.staleReports = []
  /\ @Fetch.fetchCrimeForecast Reference.numbers Reference.utc Scenario.now Scenario.quarter
                               Scenario.idle None (Some Scenario.staleReports) EmptyString "1week"
     = {| Fetch.forecastLoading := false;
          Fetch.forecastError := Some Fetch.insufficient;
          Fetch.forecastData := Fetch.forecastData Scenario.idle;
          Fetch.forecastInsights := Fetch.forecastInsights Scenario.idle |}.
Proof.
  apply (@stale_history_is_insufficient Reference.numbers Reference.utc Scenario.now
                                        Scenario.quarter Scenario.idle Scenario.staleReports).
  - vm_compute. lia.
  - intros entry Hin. apply in_map_iff in Hin. destruct Hin as (i & <- & _).
    exists 1682928000000%Z. split; vm_compute; reflexivity.
Defined.

(** C10 (as stated) fails.  The cutoff bounds the date from below only: ten
    records dated May 2030, after the clock reading of January 2024 and so
    not within the three months before it, all count, and the call ends
    without the insufficient-data error, with a forecast of seven days. *)
Lemma future_records_count :
  let history := @Fetch.historicalData Reference.numbers Reference.utc Scenario.now
                                       EmptyString Scenario.futureReports in
  let after := @Fetch.fetchCrimeForecast Reference.numbers Reference.utc Scenario.now
                                         Scenario.quarter Scenario.idle None
                                         (Some Scenario.futureReports) EmptyString "1week" in
  length Scenario.futureReports = 10%nat
  /\ map (fun entry => @Fetch.newDate Reference.utc
                         (Fetch.timestamp (@Fetch.toItem Reference.numbers Reference.utc Scenario.now entry)))
         Scenario.futureReports
     = repeat (Some 1903852800000%Z) 10
  /\ (Scenario.now < 1903852800000)%Z
  /\ ~ (@Fetch.threeMonthsAgo Reference.utc Scenario.now <= 1903852800000 <= Scenario.now)%Z
  /\ history = map (@Fetch.toItem Reference.numbers Reference.utc Scenario.now) Scenario.futureReports
  /\ length history = 10%nat
  /\ Fetch.forecastError after = None
  /\ Fetch.forecastError after <> Some Fetch.insufficient
  /\ length (Fetch.forecastData after) = 7%nat.
Proof.
  cbv zeta.
  split; [reflexivity |]. split; [vm_compute; reflexivity |].
  split; [vm_compute; reflexivity |].
  split; [vm_compute; intros [_ H]; apply H; reflexivity |].
  split; [vm_compute; reflexivity |]. split; [vm_compute; reflexivity |].
  split; [vm_compute; reflexivity |]. split; [vm_compute; discriminate |].
  vm_compute; reflexivity.
Qed.

(** * Further properties of the code *)

(** ** Trend Forecaster: the shape of the forecast *)

Lemma round_shift (p : Z) (c : Q) : Math.round (inject_Z p + c) = (p + Math.round c)%Z.
Proof.
  destruct (round_bounds c) as [Hlo Hhi].
  apply round_unique; rewrite inject_Z_plus; lra.
Qed.

Lemma round_compat (a b : Q) : a == b -> Math.round a = Math.round b.
Proof.
  intros H. unfold Math.round. apply Qfloor_comp. now rewrite H.
Qed.

Lemma round_nonneg (c : Q) : 0 <= c -> (0 <= Math.round c)%Z.
Proof.
  intros H. rewrite <- (round_Z 0). now apply round_mono.
Qed.

Lemma ofNat_le (i j : nat) : (i <= j)%nat -> ofNat i <= ofNat j.
Proof.
  intros H. unfold ofNat. rewrite <- Zle_Qle. lia.
Qed.

Section TrendShape.
Context {M : MathLib}.

Lemma upperAt_offset (y : list Q) (i : nat) :
  0 <= Trend.confidence y ->
  Trend.upperAt y i = (Trend.predictedAt y i + Math.round (Trend.confidence y))%Z.
Proof.
  intros Hc. unfold Trend.upperAt. rewrite round_shift.
  pose proof (predictedAt_nonneg y i). pose proof (round_nonneg _ Hc). lia.
Qed.

Lemma lowerAt_offset (y : list Q) (i : nat) :
  Trend.lowerAt y i
  = Z.max 0 (Trend.predictedAt y i + Math.round (- Trend.confidence y))%Z.
Proof.
  unfold Trend.lowerAt. unfold Qminus. now rewrite round_shift.
Qed.

(** X1. The band has the same width at every forecast point.  With
    [up = round(1.96 * stdDev)] and [down = round(-1.96 * stdDev)], where
    [stdDev] is the square root of the variance of the history, the upper
    bound at every forecast month is the prediction plus [up] and the lower
    bound the prediction plus [down], cut at zero.  The two offsets are
    fixed by the history: they depend neither on the horizon nor on how far
    ahead the point lies.  (In exact arithmetic, as for the whole trend
    forecaster.) *)
Theorem band_does_not_widen (y : list Q) (months : nat) :
  (3 <= length y)%nat ->
  (forall v, 0 <= v -> 0 <= Math_sqrt v) ->
  let up := Math.round ((196 # 100) * Math_sqrt (Trend.variance y)) in
  let down := Math.round (- ((196 # 100) * Math_sqrt (Trend.variance y))) in
  exists fit,
    Trend.generateForecast y months = Trend.Fitted fit
    /\ length (Trend.forecast fit) = months
    /\ length (Trend.confidenceUpper fit) = months
    /\ length (Trend.confidenceLower fit) = months
    /\ (0 <= up)%Z /\ (- up <= down <= 1 - up)%Z /\ (down <= 0)%Z
    /\ forall i, (i < months)%nat ->
         nth i (Trend.confidenceUpper fit) 0%Z = (nth i (Trend.forecast fit) 0 + up)%Z
         /\ nth i (Trend.confidenceLower fit) 0%Z
            = Z.max 0 (nth i (Trend.forecast fit) 0 + down)%Z.
Proof.
  intros Hn Hsqrt. cbv zeta.
  change ((196 # 100) * Math_sqrt (Trend.variance y)) with (Trend.confidence y).
  assert (Hc : 0 <= Trend.confidence y)
    by (unfold Trend.confidence, Trend.stdDev;
        apply Qmult_le_0_compat; [lra | apply Hsqrt, variance_nonneg]).
  exists {| Trend.forecast := map (Trend.predictedAt y) (seq 0 months);
            Trend.confidenceUpper := map (Trend.upperAt y) (seq 0 months);
            Trend.confidenceLower := map (Trend.lowerAt y) (seq 0 months);
            Trend.trend := Trend.slope y;
            Trend.rSquared :=
              Trend.calculateRSquared (Trend.xs (length y)) y (Trend.slope y)
                                      (Trend.intercept y) |}.
  split; [apply generateForecast_fitted; exact Hn |].
  cbn [Trend.forecast Trend.confidenceUpper Trend.confidenceLower].
  rewrite !length_map, length_seq.
  split; [reflexivity |]. split; [reflexivity |]. split; [reflexivity |].
  destruct (round_bounds (Trend.confidence y)) as [Hu1 Hu2].
  destruct (round_bounds (- Trend.confidence y)) as [Hd1 Hd2].
  split; [now apply round_nonneg |].
  split.
  { split.
    - assert (H : inject_Z (- Math.round (Trend.confidence y) - 1)
                  < inject_Z (Math.round (- Trend.confidence y))).
      { unfold Zminus. rewrite inject_Z_plus, !inject_Z_opp. change (inject_Z 1) with 1. lra. }
      rewrite <- Zlt_Qlt in H. lia.
    - assert (H : inject_Z (Math.round (- Trend.confidence y))
                  < inject_Z (1 - Math.round (Trend.confidence y) + 1)).
      { unfold Zminus. rewrite !inject_Z_plus, !inject_Z_opp. change (inject_Z 1) with 1.
        lra. }
      rewrite <- Zlt_Qlt in H. lia. }
  split.
  { rewrite <- (round_Z 0). apply round_mono. change (inject_Z 0) with 0. lra. }
  intros i Hi.
  rewrite !nth_map_seq by exact Hi.
  split; [apply upperAt_offset, Hc | apply lowerAt_offset].
Qed.

(** X2. The forecast follows the sign of the trend: with a non-negative slope no
    later month is predicted lower than an earlier one, with a non-positive
    slope none is predicted higher. *)
Theorem forecast_follows_trend (y : list Q) (months : nat) :
  (3 <= length y)%nat ->
  exists fit,
    Trend.generateForecast y months = Trend.Fitted fit
    /\ (0 <= Trend.trend fit ->
        forall i j, (i <= j < months)%nat ->
                    (nth i (Trend.forecast fit) 0 <= nth j (Trend.forecast fit) 0)%Z)
    /\ (Trend.trend fit <= 0 ->
        forall i j, (i <= j < months)%nat ->
                    (nth j (Trend.forecast fit) 0 <= nth i (Trend.forecast fit) 0)%Z).
Proof.
  intros Hn. eexists. split; [apply generateForecast_fitted; exact Hn |].
  cbn [Trend.trend Trend.forecast].
  split; intros Hs i j Hij; rewrite !nth_map_seq by lia;
    unfold Trend.predictedAt; apply Z.max_le_compat_l, round_mono;
    pose proof (ofNat_le (length y + i) (length y + j) ltac:(lia)); nra.
Qed.

End TrendShape.

(** ** Trend Forecaster: the least-squares fit *)

(** A [reduce] that adds a term per element is a sum over the indices. *)
Lemma reduce_from_sum {A : Type} (g : A -> nat -> Q) (d : A) (l : list A) :
  forall i acc,
    reduce_from (fun sum a k => sum + g a k) i l acc
    == acc + sumOver (fun k => g (nth (k - i) l d) k) (seq i (length l)).
Proof.
  induction l as [|a l IH]; intros i acc; simpl.
  - ring.
  - rewrite IH, Nat.sub_diag.
    rewrite (sumOver_ext (fun k => g (nth (k - S i) l d) k)
                         (fun k => g match (k - i)%nat with
                                     | O => a
                                     | S m => nth m l d
                                     end k)).
    + ring.
    + intros k Hk. apply in_seq in Hk.
      replace (k - i)%nat with (S (k - S i)) by lia. reflexivity.
Qed.

Lemma reduce_sum {A : Type} (g : A -> nat -> Q) (d : A) (l : list A) :
  reduce (fun sum a k => sum + g a k) l 0
  == sumOver (fun k => g (nth k l d) k) (seq 0 (length l)).
Proof.
  unfold reduce. rewrite (reduce_from_sum g d). rewrite Qplus_0_l.
  apply sumOver_ext. intros k _. now rewrite Nat.sub_0_r.
Qed.

Lemma xs_length (n : nat) : length (Trend.xs n) = n.
Proof.
  unfold Trend.xs. now rewrite length_map, length_seq.
Qed.

Lemma xs_nth (n k : nat) : (k < n)%nat -> nth k (Trend.xs n) 0 = ofNat k.
Proof.
  intros H. unfold Trend.xs.
  change 0 with (ofNat 0). rewrite map_nth, seq_nth by exact H. reflexivity.
Qed.

Lemma sumOver_nonneg (f : nat -> Q) (l : list nat) :
  (forall k, 0 <= f k) -> 0 <= sumOver f l.
Proof.
  intros H. induction l as [|a l IH]; simpl; [lra | specialize (H a); lra].
Qed.

Lemma sumOver_const (c : Q) (l : list nat) : sumOver (fun _ => c) l == c * ofNat (length l).
Proof.
  induction l as [|a l IH]; simpl length; [| rewrite ofNat_S]; simpl sumOver.
  - change (ofNat 0) with 0. ring.
  - rewrite IH. ring.
Qed.

(** A sum of squares is zero only if every square is. *)
Lemma sumOver_squares_zero (f : nat -> Q) (l : list nat) :
  sumOver (fun k => Math.pow2 (f k)) l == 0 -> forall k, In k l -> f k == 0.
Proof.
  induction l as [|a l IH]; intros Hsum k Hk; [contradiction |].
  simpl in Hsum.
  pose proof (pow2_nonneg (f a)) as Ha.
  pose proof (sumOver_nonneg (fun k => Math.pow2 (f k)) l (fun k => pow2_nonneg (f k))) as Hl.
  destruct Hk as [<- | Hk].
  - assert (E : Math.pow2 (f a) == 0) by lra. unfold Math.pow2 in E. nra.
  - apply IH; [lra | exact Hk].
Qed.

(** The five sums of the regression, over the indices [0 .. n-1]. *)
Section Sums.
Variable y : list Q.
Let n := length y.
Let N := seq 0 n.
Let Y (k : nat) : Q := nth k y 0.

Lemma sumX_sum : Trend.sumX n == sumOver ofNat N.
Proof.
  unfold Trend.sumX. rewrite (reduce_sum (fun a _ => a) 0), xs_length.
  apply sumOver_ext. intros k Hk. apply in_seq in Hk. rewrite xs_nth by lia. reflexivity.
Qed.

Lemma sumXX_sum : Trend.sumXX n == sumOver (fun k => ofNat k * ofNat k) N.
Proof.
  unfold Trend.sumXX. rewrite (reduce_sum (fun a _ => a * a) 0), xs_length.
  apply sumOver_ext. intros k Hk. apply in_seq in Hk. rewrite xs_nth by lia. reflexivity.
Qed.

Lemma sumY_sum : Trend.sumY y == sumOver Y N.
Proof.
  unfold Trend.sumY. rewrite (reduce_sum (fun a _ => a) 0). reflexivity.
Qed.

Lemma sumXY_sum : Trend.sumXY y == sumOver (fun k => ofNat k * Y k) N.
Proof.
  unfold Trend.sumXY. rewrite (reduce_sum (fun a k => a * nth k y 0) 0), xs_length.
  apply sumOver_ext. intros k Hk. apply in_seq in Hk. rewrite xs_nth by lia. reflexivity.
Qed.

(** A quadratic form in the index and the count, summed. *)
Lemma sumOver_quadratic (a b c d e f : Q) (l : list nat) :
  sumOver (fun k => a * (Y k * Y k) + b * (ofNat k * Y k) + c * (ofNat k * ofNat k)
                    + d * Y k + e * ofNat k + f) l
  == a * sumOver (fun k => Y k * Y k) l + b * sumOver (fun k => ofNat k * Y k) l
     + c * sumOver (fun k => ofNat k * ofNat k) l
     + d * sumOver Y l + e * sumOver ofNat l + f * ofNat (length l).
Proof.
  induction l as [|k l IH]; simpl length; [| rewrite ofNat_S]; simpl sumOver.
  - change (ofNat 0) with 0. ring.
  - rewrite IH. ring.
Qed.

End Sums.

Lemma Qdiv_unit_interval (a b : Q) : 0 <= a -> a <= b -> 0 < b -> 0 <= a / b /\ a / b <= 1.
Proof.
  intros Ha Hab Hb. split.
  - apply Qle_shift_div_l; [exact Hb | lra].
  - apply Qle_shift_div_r; [exact Hb | lra].
Qed.

(** The residual sum of squares of the fitted line is at most the total sum
    of squares: the difference is the sum of squares explained by the line. *)
Lemma residual_at_most_total (y : list Q) :
  (3 <= length y)%nat ->
  let n := length y in
  let yMean := Trend.sumY y / ofNat n in
  let ssRes := sumOver (fun k => Math.pow2 (nth k y 0 - (Trend.slope y * ofNat k
                                                         + Trend.intercept y)))
                       (seq 0 n) in
  let ssTot := sumOver (fun k => Math.pow2 (nth k y 0 - yMean)) (seq 0 n) in
  0 <= ssRes /\ ssRes <= ssTot.
Proof.
  intros Hn. cbv zeta.
  set (n := length y). set (N := seq 0 n).
  assert (Hlen : ofNat (length N) == ofNat n) by (unfold N; now rewrite length_seq).
  assert (Hn3 : 3 <= ofNat n) by (unfold ofNat; rewrite <- (Zle_Qle 3); lia).
  pose proof (slope_denominator_positive n ltac:(lia)) as Hden.
  set (Sx := sumOver ofNat N). set (Sy := sumOver (fun k => nth k y 0) N).
  set (Sxy := sumOver (fun k => ofNat k * nth k y 0) N).
  set (Sxx := sumOver (fun k => ofNat k * ofNat k) N).
  set (Syy := sumOver (fun k => nth k y 0 * nth k y 0) N).
  assert (EX : Trend.sumX n == Sx) by apply sumX_sum.
  assert (EXX : Trend.sumXX n == Sxx) by apply sumXX_sum.
  assert (EY : Trend.sumY y == Sy) by apply sumY_sum.
  assert (EXY : Trend.sumXY y == Sxy) by apply sumXY_sum.
  rewrite EX, EXX in Hden.
  assert (Em : Trend.slope y == (ofNat n * Sxy - Sx * Sy) / (ofNat n * Sxx - Sx * Sx)).
  { unfold Trend.slope. fold n. now rewrite EX, EXX, EY, EXY. }
  set (m := Trend.slope y) in *.
  assert (Eb : Trend.intercept y == (Sy - m * Sx) / ofNat n).
  { unfold Trend.intercept. fold n. fold m. now rewrite EX, EY. }
  set (b := Trend.intercept y) in *.
  set (yMean := Trend.sumY y / ofNat n).
  assert (EyM : yMean == Sy / ofNat n) by (unfold yMean; now rewrite EY).
  set (ssRes := sumOver (fun k => Math.pow2 (nth k y 0 - (m * ofNat k + b))) N).
  set (ssTot := sumOver (fun k => Math.pow2 (nth k y 0 - yMean)) N).
  assert (ERes : ssRes == Syy + m * m * Sxx + b * b * ofNat n
                          - 2 * m * Sxy - 2 * b * Sy + 2 * m * b * Sx).
  { unfold ssRes.
    rewrite (sumOver_ext _ (fun k => 1 * (nth k y 0 * nth k y 0) + (- 2 * m) * (ofNat k * nth k y 0)
                                     + (m * m) * (ofNat k * ofNat k)
                                     + (- 2 * b) * nth k y 0 + (2 * m * b) * ofNat k + b * b)).
    - rewrite (sumOver_quadratic y), Hlen. fold Sx Sy Sxy Sxx Syy. ring.
    - intros k _. unfold Math.pow2. ring. }
  assert (ETot : ssTot == Syy - 2 * yMean * Sy + yMean * yMean * ofNat n).
  { unfold ssTot.
    rewrite (sumOver_ext _ (fun k => 1 * (nth k y 0 * nth k y 0) + 0 * (ofNat k * nth k y 0)
                                     + 0 * (ofNat k * ofNat k)
                                     + (- 2 * yMean) * nth k y 0 + 0 * ofNat k + yMean * yMean)).
    - rewrite (sumOver_quadratic y), Hlen. fold Sx Sy Sxy Sxx Syy. ring.
    - intros k _. unfold Math.pow2. ring. }
  set (D := sumOver (fun k => Math.pow2 (m * ofNat k + b - yMean)) N).
  assert (ED : D == m * m * Sxx + 2 * m * (b - yMean) * Sx
                    + (b - yMean) * (b - yMean) * ofNat n).
  { unfold D.
    rewrite (sumOver_ext _ (fun k => 0 * (nth k y 0 * nth k y 0) + 0 * (ofNat k * nth k y 0)
                                     + (m * m) * (ofNat k * ofNat k)
                                     + 0 * nth k y 0 + (2 * m * (b - yMean)) * ofNat k
                                     + (b - yMean) * (b - yMean))).
    - rewrite (sumOver_quadratic y), Hlen. fold Sx Sy Sxy Sxx Syy. ring.
    - intros k _. unfold Math.pow2. ring. }
  assert (HD : 0 <= D) by (apply sumOver_nonneg; intros; apply pow2_nonneg).
  assert (HR : 0 <= ssRes) by (apply sumOver_nonneg; intros; apply pow2_nonneg).
  split; [exact HR |].
  assert (E : ssTot == ssRes + D).
  { rewrite ETot, ERes, ED, EyM, Eb, Em. field. split; lra. }
  lra.
Qed.

Lemma calculateRSquared_sums (y : list Q) (m b : Q) :
  Trend.calculateRSquared (Trend.xs (length y)) y m b
  = option_map (fun r => 1 - r)
      (Number_div
         (reduce (fun sum yi i =>
                    sum + Math.pow2 (yi - (m * nth i (Trend.xs (length y)) 0 + b))) y 0)
         (reduce (fun sum yi _ =>
                    sum + Math.pow2 (yi - Trend.sumY y / ofNat (length y))) y 0)).
Proof.
  unfold Trend.calculateRSquared. rewrite xs_length. reflexivity.
Qed.

Section FitQuality.
Context {M : MathLib}.

(** X3. Whenever R² is a number it lies between 0 and 1: the fitted line never
    does worse than the mean.  It is not a number only when all the counts
    are equal. *)
Theorem r_squared_range (y : list Q) (months : nat) :
  (3 <= length y)%nat ->
  exists fit,
    Trend.generateForecast y months = Trend.Fitted fit
    /\ (forall r, Trend.rSquared fit = Some r -> 0 <= r /\ r <= 1)
    /\ (Trend.rSquared fit = None ->
        forall v, In v y -> v == Trend.sumY y / ofNat (length y)).
Proof.
  intros Hn. eexists. split; [apply generateForecast_fitted; exact Hn |].
  cbn [Trend.rSquared]. rewrite calculateRSquared_sums.
  destruct (residual_at_most_total y Hn) as [HR HRT]. cbv zeta in HR, HRT.
  set (res := reduce _ y 0). set (tot := reduce _ y 0).
  assert (Eres : res == sumOver (fun k => Math.pow2 (nth k y 0 - (Trend.slope y * ofNat k
                                                                  + Trend.intercept y)))
                                (seq 0 (length y))).
  { unfold res.
    rewrite (reduce_sum (fun yi i => Math.pow2 (yi - (Trend.slope y
                                                      * nth i (Trend.xs (length y)) 0
                                                      + Trend.intercept y))) 0).
    apply sumOver_ext. intros k Hk. apply in_seq in Hk. rewrite xs_nth by lia. reflexivity. }
  assert (Etot : tot == sumOver (fun k => Math.pow2 (nth k y 0
                                                     - Trend.sumY y / ofNat (length y)))
                                (seq 0 (length y))).
  { unfold tot.
    apply (reduce_sum (fun yi _ => Math.pow2 (yi - Trend.sumY y / ofNat (length y))) 0). }
  rewrite <- Eres, <- Etot in HRT. rewrite <- Eres in HR.
  unfold Number_div. destruct (Qeq_bool tot 0) eqn:Ez.
  - split; [discriminate |]. intros _ v Hv.
    apply Qeq_bool_iff in Ez. rewrite Etot in Ez.
    apply In_nth with (d := 0) in Hv. destruct Hv as (k & Hk & <-).
    pose proof (sumOver_squares_zero _ _ Ez k ltac:(apply in_seq; lia)) as H.
    cbv beta in H. lra.
  - split; [| discriminate]. intros r Hr. cbn in Hr. injection Hr as <-.
    apply Qeq_bool_neq in Ez.
    assert (Hpos : 0 < tot) by (destruct (Qlt_le_dec 0 tot); [assumption | exfalso; lra]).
    destruct (Qdiv_unit_interval res tot HR HRT Hpos). lra.
Qed.

End FitQuality.

Section ConstantSeries.
Context {M : MathLib}.
Variable c : Q.
Variable y : list Q.
Hypothesis Hn : (3 <= length y)%nat.
Hypothesis Hc : Forall (fun v => v == c) y.

Lemma constant_nth (k : nat) : (k < length y)%nat -> nth k y 0 == c.
Proof.
  intros Hk. exact (proj1 (Forall_nth (fun v => v == c) y) Hc k 0 Hk).
Qed.

Lemma constant_sumY : Trend.sumY y == ofNat (length y) * c.
Proof.
  rewrite sumY_sum.
  rewrite (sumOver_ext _ (fun _ => c)).
  - rewrite sumOver_const, length_seq. ring.
  - intros k Hk. apply in_seq in Hk. apply constant_nth. lia.
Qed.

Lemma constant_sumXY : Trend.sumXY y == c * Trend.sumX (length y).
Proof.
  rewrite sumXY_sum, sumX_sum, <- sumOver_scale.
  apply sumOver_ext. intros k Hk. apply in_seq in Hk.
  rewrite constant_nth by lia. ring.
Qed.

Lemma length_positive : 0 < ofNat (length y).
Proof.
  unfold ofNat. rewrite <- (Zlt_Qlt 0). lia.
Qed.

Lemma constant_slope : Trend.slope y == 0.
Proof.
  unfold Trend.slope. cbv zeta. rewrite constant_sumXY, constant_sumY.
  unfold Qdiv.
  assert (E : ofNat (length y) * (c * Trend.sumX (length y))
              - Trend.sumX (length y) * (ofNat (length y) * c) == 0) by ring.
  rewrite E. ring.
Qed.

Lemma constant_intercept : Trend.intercept y == c.
Proof.
  unfold Trend.intercept. rewrite constant_slope, constant_sumY.
  pose proof length_positive. field. lra.
Qed.

Lemma constant_mean : Trend.sumY y / ofNat (length y) == c.
Proof.
  rewrite constant_sumY. pose proof length_positive. field. lra.
Qed.

Lemma constant_deviations :
  reduce (fun sum yi _ => sum + Math.pow2 (yi - Trend.sumY y / ofNat (length y))) y 0 == 0.
Proof.
  rewrite (reduce_sum (fun yi _ => Math.pow2 (yi - Trend.sumY y / ofNat (length y))) 0).
  rewrite (sumOver_ext _ (fun _ => 0)).
  - rewrite sumOver_const. ring.
  - intros k Hk. apply in_seq in Hk.
    unfold Math.pow2. rewrite constant_nth by lia. rewrite constant_mean. ring.
Qed.

Lemma constant_predicted (i : nat) : Trend.predictedAt y i = Z.max 0 (Math.round c).
Proof.
  unfold Trend.predictedAt. f_equal. apply round_compat.
  rewrite constant_slope, constant_intercept. ring.
Qed.

(** X4. A flat history of three or more months: the slope is 0 and every month
    of the forecast repeats the (rounded) level; R² is not a number, since
    the counts have no variance; and when the square root of 0 is 0 the band
    has no width. *)
Theorem constant_series_forecast (months : nat) :
  (forall v, v == 0 -> Math_sqrt v == 0) ->
  exists fit,
    Trend.generateForecast y months = Trend.Fitted fit
    /\ Trend.trend fit == 0
    /\ Trend.rSquared fit = None
    /\ Trend.forecast fit = repeat (Z.max 0 (Math.round c)) months
    /\ Trend.confidenceUpper fit = Trend.forecast fit
    /\ Trend.confidenceLower fit = Trend.forecast fit.
Proof.
  intros Hsqrt. eexists. split; [apply generateForecast_fitted; exact Hn |].
  cbn [Trend.trend Trend.rSquared Trend.forecast Trend.confidenceUpper Trend.confidenceLower].
  assert (Hconf : Trend.confidence y == 0).
  { unfold Trend.confidence, Trend.stdDev. rewrite Hsqrt; [ring |].
    unfold Trend.variance. cbv zeta. rewrite constant_deviations.
    unfold Qdiv. ring. }
  split; [apply constant_slope |]. split.
  { rewrite calculateRSquared_sums. unfold Number_div.
    pose proof constant_deviations as E. apply Qeq_bool_iff in E. rewrite E. reflexivity. }
  assert (Hf : map (Trend.predictedAt y) (seq 0 months)
               = repeat (Z.max 0 (Math.round c)) months).
  { rewrite (map_ext _ (fun _ => Z.max 0 (Math.round c)) constant_predicted).
    generalize 0%nat. induction months as [|k IH]; intros s; simpl; [| rewrite IH];
      reflexivity. }
  split; [exact Hf |]. split; apply map_ext; intros i.
  - unfold Trend.upperAt. rewrite (round_compat _ (inject_Z (Trend.predictedAt y i))).
    + rewrite round_Z. pose proof (predictedAt_nonneg y i). lia.
    + rewrite Hconf. ring.
  - unfold Trend.lowerAt. rewrite (round_compat _ (inject_Z (Trend.predictedAt y i))).
    + rewrite round_Z. pose proof (predictedAt_nonneg y i). lia.
    + rewrite Hconf. ring.
Qed.

End ConstantSeries.

(** ** Historical Aggregator: the monthly buckets *)

Lemma sumZ_perm (l l' : list Z) : Permutation l l' -> sumZ l = sumZ l'.
Proof.
  unfold sumZ. induction 1; simpl; lia.
Qed.

Lemma increment_keys (key : string) (m : Monthly.Buckets) :
  map fst (Monthly.increment key m)
  = if existsb (String.eqb key) (map fst m) then map fst m else map fst m ++ [key].
Proof.
  induction m as [|[k v] m IH]; simpl; [reflexivity |].
  rewrite (String.eqb_sym key k).
  destruct (String.eqb_spec k key) as [-> | Hne]; simpl; [reflexivity |].
  rewrite IH. destruct (existsb (String.eqb key) (map fst m)); reflexivity.
Qed.

Lemma existsb_eqb_In (key : string) (l : list string) :
  existsb (String.eqb key) l = true <-> In key l.
Proof.
  rewrite existsb_exists. split.
  - intros (k & Hk & E). apply String.eqb_eq in E. now subst.
  - intros H. exists key. split; [exact H | apply String.eqb_refl].
Qed.

Lemma increment_In (key : string) (m : Monthly.Buckets) :
  In key (map fst (Monthly.increment key m))
  /\ forall k, In k (map fst m) -> In k (map fst (Monthly.increment key m)).
Proof.
  rewrite increment_keys.
  destruct (existsb (String.eqb key) (map fst m)) eqn:E.
  - apply existsb_eqb_In in E. split; [exact E | auto].
  - split; [apply in_or_app; right; now left | intros; apply in_or_app; now left].
Qed.

Lemma increment_NoDup (key : string) (m : Monthly.Buckets) :
  NoDup (map fst m) -> NoDup (map fst (Monthly.increment key m)).
Proof.
  intros H. rewrite increment_keys.
  destruct (existsb (String.eqb key) (map fst m)) eqn:E; [exact H |].
  apply NoDup_app; [exact H | repeat constructor; intros [] | ].
  intros k Hk [<- | []].
  apply existsb_eqb_In in Hk. congruence.
Qed.

Lemma increment_sum (key : string) (m : Monthly.Buckets) :
  sumZ (map snd (Monthly.increment key m)) = (sumZ (map snd m) + 1)%Z.
Proof.
  unfold sumZ. induction m as [|[k v] m IH]; simpl; [reflexivity |].
  destruct (String.eqb k key); simpl.
  - destruct (Z.eqb_spec v 0); lia.
  - rewrite IH. lia.
Qed.

Lemma increment_positive (key : string) (m : Monthly.Buckets) :
  Forall (fun v => (1 <= v)%Z) (map snd m) ->
  Forall (fun v => (1 <= v)%Z) (map snd (Monthly.increment key m)).
Proof.
  induction m as [|[k v] m IH]; simpl; intros H.
  - repeat constructor. lia.
  - inversion H as [| ? ? Hv Hm]; subst.
    destruct (String.eqb k key); simpl; constructor; auto.
    destruct (Z.eqb_spec v 0); lia.
Qed.

Lemma lookup_keys (m : Monthly.Buckets) :
  NoDup (map fst m) -> map (fun k => Monthly.lookup k m) (map fst m) = map snd m.
Proof.
  induction m as [|[k v] m IH]; simpl; intros H; [reflexivity |].
  inversion H as [| ? ? Hk Hm]; subst.
  rewrite String.eqb_refl. f_equal.
  rewrite <- (IH Hm). apply map_ext_in. intros k' Hk'.
  destruct (String.eqb_spec k k') as [-> | _]; [contradiction | reflexivity].
Qed.

Section Buckets.
Context {N : NumberLib} {D : DateLib} {Y : YearLib}.

(** What the loop over the reports keeps true of [monthlyData]. *)
Lemma monthlyData_invariant (reports : list JS.Value) :
  let m := Monthly.monthlyData reports in
  NoDup (map fst m)
  /\ Forall (fun v => (1 <= v)%Z) (map snd m)
  /\ sumZ (map snd m) = Z.of_nat (length reports)
  /\ forall report, In report reports -> In (Monthly.monthKey report) (map fst m).
Proof.
  unfold Monthly.monthlyData.
  assert (G : forall m0,
             NoDup (map fst m0) -> Forall (fun v => (1 <= v)%Z) (map snd m0) ->
             let m := fold_left (fun m report => Monthly.increment (Monthly.monthKey report) m)
                                reports m0 in
             NoDup (map fst m)
             /\ Forall (fun v => (1 <= v)%Z) (map snd m)
             /\ sumZ (map snd m) = (sumZ (map snd m0) + Z.of_nat (length reports))%Z
             /\ (forall k, In k (map fst m0) -> In k (map fst m))
             /\ forall report, In report reports -> In (Monthly.monthKey report) (map fst m)).
  { induction reports as [|r reports IH]; intros m0 Hnd Hpos; cbn [fold_left length].
    - repeat split; auto; [lia | intros ? []].
    - destruct (IH (Monthly.increment (Monthly.monthKey r) m0)
                   (increment_NoDup _ _ Hnd) (increment_positive _ _ Hpos))
        as (H1 & H2 & H3 & H4 & H5).
      destruct (increment_In (Monthly.monthKey r) m0) as [Hkey Hold].
      repeat split; auto.
      + rewrite H3, increment_sum. lia.
      + intros report [<- | Hin]; auto. }
  destruct (G [] (NoDup_nil _) (Forall_nil _)) as (H1 & H2 & H3 & _ & H5).
  repeat split; auto.
Qed.

End Buckets.

(** The sort by code units. *)
Lemma compareStrings_total (a b : string) :
  (compareStrings a b <=? 0)%Z = false -> (compareStrings b a <= 0)%Z.
Proof.
  unfold compareStrings. rewrite (String.compare_antisym b a).
  destruct (String.compare a b); simpl; intros H; try discriminate; lia.
Qed.

Lemma sortInsert_ordered {A : Type} (cmp : A -> A -> Z) (x : A) (l : list A) :
  (forall a b, (cmp a b <=? 0)%Z = false -> (cmp b a <= 0)%Z) ->
  Sorted (fun a b => (cmp a b <= 0)%Z) l ->
  Sorted (fun a b => (cmp a b <= 0)%Z) (sortInsert cmp x l).
Proof.
  intros Htotal. induction l as [|y l IH]; intros Hs; simpl.
  - repeat constructor.
  - destruct (cmp x y <=? 0)%Z eqn:E.
    + constructor; [exact Hs | constructor; now apply Z.leb_le].
    + inversion Hs as [| ? ? Hs' Hhd]; subst.
      constructor; [apply IH, Hs' |].
      destruct l as [|z l]; simpl.
      * constructor. now apply Htotal.
      * destruct (cmp x z <=? 0)%Z; constructor; [now apply Htotal | now inversion Hhd].
Qed.

Lemma sortBy_ordered {A : Type} (cmp : A -> A -> Z) (l : list A) :
  (forall a b, (cmp a b <=? 0)%Z = false -> (cmp b a <= 0)%Z) ->
  Sorted (fun a b => (cmp a b <= 0)%Z) (sortBy cmp l).
Proof.
  intros Htotal. induction l as [|x l IH]; simpl.
  - constructor.
  - now apply sortInsert_ordered.
Qed.

Lemma ordered_distinct_ascending (l : list string) :
  NoDup l -> Sorted (fun a b => (compareStrings a b <= 0)%Z) l -> ascending l.
Proof.
  unfold ascending. induction l as [|a l IH]; intros Hnd Hs; [constructor |].
  inversion Hnd as [| ? ? Ha Hl]; subst. inversion Hs as [| ? ? Hs' Hhd]; subst.
  constructor; [now apply IH |].
  destruct l as [|b l]; constructor.
  inversion Hhd as [| ? ? Hab]; subst.
  unfold compareStrings in Hab. unfold String.ltb.
  destruct (String.compare a b) eqn:E; try reflexivity; try lia.
  apply String.compare_eq_iff in E. subst. exfalso. apply Ha. now left.
Qed.

Section MonthlyProperties.
Context {N : NumberLib} {D : DateLib} {Y : YearLib} {S : StringLib} {M : MathLib}.

Lemma monthly_buckets_hold (allReports : list JS.Value) (crimeType location : string) :
  exists h,
    Monthly.fetchHistoricalData (Some allReports) crimeType location = inr h
    /\ Permutation (Historical.filterReports crimeType location allReports)
                   (Monthly.rawData h)
    /\ length (Monthly.labels h) = length (Monthly.data h)
    /\ ascending (Monthly.labels h)
    /\ Forall (fun count => (1 <= count)%Z) (Monthly.data h)
    /\ sumZ (Monthly.data h)
       = Z.of_nat (length (Historical.filterReports crimeType location allReports))
    /\ forall report,
         In report (Historical.filterReports crimeType location allReports) ->
         In (Monthly.monthKey report) (Monthly.labels h).
Proof.
  eexists. split; [reflexivity |]. cbn [Monthly.rawData Monthly.labels Monthly.data].
  set (filtered := Historical.filterReports crimeType location allReports).
  set (reports := sortBy Monthly.byDate filtered).
  assert (Hperm : Permutation filtered reports) by apply sortBy_perm.
  destruct (monthlyData_invariant reports) as (Hnd & Hpos & Hsum & Hkeys).
  set (m := Monthly.monthlyData reports) in *.
  set (sorted := sortBy compareStrings (map fst m)).
  assert (Hp : Permutation (map fst m) sorted) by apply sortBy_perm.
  assert (Hdata : Permutation (map snd m) (map (fun k => Monthly.lookup k m) sorted)).
  { rewrite <- (lookup_keys m Hnd). now apply Permutation_map. }
  split; [exact Hperm |]. split; [now rewrite length_map |]. split.
  { apply ordered_distinct_ascending.
    - exact (Permutation_NoDup Hp Hnd).
    - apply sortBy_ordered, compareStrings_total. }
  split; [exact (Permutation_Forall Hdata Hpos) |]. split.
  { rewrite <- (sumZ_perm _ _ Hdata), Hsum. f_equal.
    symmetry. apply Permutation_length, Hperm. }
  intros report Hin.
  apply (Permutation_in _ Hp), Hkeys, (Permutation_in _ Hperm), Hin.
Qed.

(** X5. The monthly series of a non-empty store: the labels are distinct and in
    ascending order, every month listed has at least one report, the counts
    add up to the number of reports that pass the filter, and each of those
    reports is counted under the label of its month. *)
Theorem monthly_buckets (allReports : list JS.Value) (crimeType location : string) :
  exists h,
    Monthly.fetchHistoricalData (Some allReports) crimeType location = inr h
    /\ Permutation (Historical.filterReports crimeType location allReports)
                   (Monthly.rawData h)
    /\ length (Monthly.labels h) = length (Monthly.data h)
    /\ ascending (Monthly.labels h)
    /\ Forall (fun count => (1 <= count)%Z) (Monthly.data h)
    /\ sumZ (Monthly.data h)
       = Z.of_nat (length (Historical.filterReports crimeType location allReports))
    /\ forall report,
         In report (Historical.filterReports crimeType location allReports) ->
         In (Monthly.monthKey report) (Monthly.labels h).
Proof.
  exact (monthly_buckets_hold allReports crimeType location).
Qed.

(** X6. A report whose date is set but cannot be read as a date is not dropped:
    it is counted, under the label [NaN-NaN]. *)
Theorem unreadable_date_is_counted
        (allReports : list JS.Value) (crimeType location : string) (report : JS.Value) :
  In report allReports ->
  Historical.matches crimeType location report = true ->
  Fetch.newDate (JS.get report "date") = None ->
  exists h,
    Monthly.fetchHistoricalData (Some allReports) crimeType location = inr h
    /\ In invalidLabel (Monthly.labels h)
    /\ In report (Monthly.rawData h).
Proof.
  intros Hin Hmatch Hdate.
  destruct (monthly_buckets_hold allReports crimeType location)
    as (h & Hh & Hperm & _ & _ & _ & _ & Hkeys).
  assert (Hf : In report (Historical.filterReports crimeType location allReports))
    by (apply filter_In; now split).
  exists h. split; [exact Hh |]. split.
  - specialize (Hkeys report Hf). unfold Monthly.monthKey in Hkeys.
    now rewrite Hdate in Hkeys.
  - exact (Permutation_in _ Hperm Hf).
Qed.

Variable now : Z.

Lemma forecastLabels_length (historicalLabels : list string) (months : nat) :
  length (Monthly.generateForecastLabels now historicalLabels months) = months.
Proof.
  unfold Monthly.generateForecastLabels.
  destruct historicalLabels; now rewrite length_map, length_seq.
Qed.

(** X7. What the caller gets.  Without a store, or when no report matches the
    category and the location, the call fails with a message.  With reports
    in one or two months only, it succeeds, but the forecast values, both
    bounds, the trend and R² are [undefined] in the response, since the
    forecaster has returned a bare array; the forecast labels are there all
    the same.  With three months or more the response holds one value and
    one bound of each kind per forecast label. *)
Theorem local_forecast_outcomes
        (allReports : list JS.Value) (crimeType location : string) (months : nat) :
  Monthly.performLocalForecasting now None crimeType location months = inl Monthly.noReports
  /\ (Historical.filterReports crimeType location allReports = [] ->
      Monthly.performLocalForecasting now (Some allReports) crimeType location months
      = inl (Monthly.noHistory crimeType location))
  /\ (Historical.filterReports crimeType location allReports <> [] ->
      exists h response,
        Monthly.fetchHistoricalData (Some allReports) crimeType location = inr h
        /\ Monthly.performLocalForecasting now (Some allReports) crimeType location months
           = inr response
        /\ Monthly.data_points response = length (Monthly.labels h)
        /\ (1 <= Monthly.data_points response)%nat
        /\ length (Monthly.forecast_labels response) = months
        /\ ((Monthly.data_points response < 3)%nat ->
            Monthly.forecast_data response = None
            /\ Monthly.confidence_upper response = None
            /\ Monthly.confidence_lower response = None
            /\ Monthly.trend response = None
            /\ Monthly.r_squared response = None)
        /\ ((3 <= Monthly.data_points response)%nat ->
            exists forecast upper lower,
              Monthly.forecast_data response = Some forecast
              /\ Monthly.confidence_upper response = Some upper
              /\ Monthly.confidence_lower response = Some lower
              /\ length forecast = months /\ length upper = months
              /\ length lower = months)).
Proof.
  split; [reflexivity |]. split.
  - intros Hnone. unfold Monthly.performLocalForecasting, Monthly.fetchHistoricalData.
    rewrite Hnone. reflexivity.
  - intros Hsome.
    destruct (monthly_buckets_hold allReports crimeType location)
      as (h & Hh & Hperm & Hlen & _ & _ & Hsum & _).
    assert (Hdata : Monthly.data h <> []).
    { intros E. rewrite E in Hsum. cbn in Hsum.
      destruct (Historical.filterReports crimeType location allReports);
        [contradiction | simpl in Hsum; lia]. }
    unfold Monthly.performLocalForecasting. rewrite Hh.
    destruct (Monthly.data h) as [| count counts] eqn:Ed; [contradiction |].
    rewrite <- Ed in *. clear Ed count counts.
    exists h. eexists. split; [reflexivity |]. split; [reflexivity |].
    cbn [Monthly.data_points Monthly.forecast_labels Monthly.forecast_data
         Monthly.confidence_upper Monthly.confidence_lower Monthly.trend Monthly.r_squared].
    split; [now rewrite Hlen |]. split.
    { destruct (Monthly.data h); [contradiction | simpl; lia]. }
    split; [apply forecastLabels_length |].
    unfold Trend.generateForecast. rewrite length_map.
    split; intros Hpoints.
    + destruct (Nat.ltb_spec (length (Monthly.data h)) 3); [| lia].
      repeat split; reflexivity.
    + destruct (Nat.ltb_spec (length (Monthly.data h)) 3); [lia |].
      cbn [Monthly.fitField Trend.forecast Trend.confidenceUpper Trend.confidenceLower].
      do 3 eexists. do 3 (split; [reflexivity |]).
      now rewrite !length_map, !length_seq.
Qed.

End MonthlyProperties.

(** ** Forecast labels *)

Lemma digits_numeral (n : Z) :
  (0 <= n)%Z ->
  exists d, NilEmpty.uint_of_string (digits n) = Some d /\ Z.of_N (N.of_uint d) = n.
Proof.
  intros Hn. exists (N.to_uint (Z.to_N n)). split.
  - unfold digits, NilZero.string_of_uint.
    destruct (N.to_uint (Z.to_N n)) eqn:E; try (rewrite <- E; apply NilEmpty.usu).
    exfalso. destruct (Z.to_N n) as [| p]; [discriminate E |].
    exact (DecimalPos.Unsigned.to_uint_nonnil p E).
  - rewrite DecimalN.Unsigned.of_to. lia.
Qed.

Lemma month_numeral (k : Z) :
  (1 <= k <= 12)%Z ->
  exists d, NilEmpty.uint_of_string (padStart2 (intString k)) = Some d
            /\ Z.of_N (N.of_uint d) = k.
Proof.
  intros Hk.
  assert (H : (k = 1 \/ k = 2 \/ k = 3 \/ k = 4 \/ k = 5 \/ k = 6 \/ k = 7 \/ k = 8 \/ k = 9
               \/ k = 10 \/ k = 11 \/ k = 12)%Z) by lia.
  repeat (destruct H as [-> | H]); try subst k;
    eexists; (split; [vm_compute; reflexivity | reflexivity]).
Qed.

(** A string of digits holds no dash. *)
Lemma splitOn_numeral (s t : string) (d : Decimal.uint) :
  NilEmpty.uint_of_string s = Some d ->
  splitOn "-" (s ++ String "-" t) = s :: splitOn "-" t.
Proof.
  revert d. induction s as [|a s IH]; intros d H; simpl in *.
  - reflexivity.
  - destruct (NilEmpty.uint_of_string s) as [d' |] eqn:E; [| discriminate H].
    rewrite (IH d' eq_refl).
    apply uint_of_char_spec in H.
    destruct (Ascii.eqb_spec a "-") as [-> | _]; [| reflexivity].
    exfalso. intuition discriminate.
Qed.

Lemma splitOn_numeral_end (s : string) (d : Decimal.uint) :
  NilEmpty.uint_of_string s = Some d -> splitOn "-" s = [s].
Proof.
  revert d. induction s as [|a s IH]; intros d H; simpl in *.
  - reflexivity.
  - destruct (NilEmpty.uint_of_string s) as [d' |] eqn:E; [| discriminate H].
    rewrite (IH d' eq_refl).
    apply uint_of_char_spec in H.
    destruct (Ascii.eqb_spec a "-") as [-> | _]; [| reflexivity].
    exfalso. intuition discriminate.
Qed.

Lemma toInteger_Z (q : Q) (k : Z) : q == inject_Z k -> toInteger q = k.
Proof.
  intros H. unfold toInteger. destruct (Qle_bool 0 q).
  - rewrite (Qfloor_comp _ _ H). apply Qfloor_Z.
  - rewrite (Qceiling_comp _ _ H). apply Qceiling_Z.
Qed.

Section LabelProperties.
Context {D : DateLib} {Y : YearLib} {S : StringLib}.
Variable now : Z.

(** X8. The forecast labels go on where the history ends: when the last label
    of the history is a year of at least three digits and a month, as the
    aggregator writes it, the [i]-th forecast label is the [i]-th month
    after it, the year changing after December. *)
Theorem forecast_labels_continue
        (earlier : list string) (year month : Z) (months : nat) :
  readsNumerals ->
  (100 <= year)%Z ->
  (0 <= month <= 11)%Z ->
  Monthly.generateForecastLabels now (earlier ++ [labelOf year month]) months
  = map (fun i => labelOf (year + (month + Z.of_nat i) / 12)
                          ((month + Z.of_nat i) mod 12))
        (seq 1 months).
Proof.
  intros Hreads Hy Hm.
  unfold Monthly.generateForecastLabels.
  destruct (earlier ++ [labelOf year month]) eqn:E;
    [destruct earlier; discriminate E |].
  rewrite <- E. clear E. rewrite last_last.
  destruct (digits_numeral year ltac:(lia)) as (dy & Hdy & Vy).
  destruct (month_numeral (month + 1) ltac:(lia)) as (dm & Hdm & Vm).
  assert (Hlabel : labelOf year month
                   = (digits year ++ String "-" (padStart2 (intString (month + 1))))%string).
  { unfold labelOf, intString at 1. destruct (Z.ltb_spec year 0); [lia | reflexivity]. }
  rewrite Hlabel, (splitOn_numeral _ _ dy Hdy), (splitOn_numeral_end _ dm Hdm).
  cbn [map nth]. rewrite (Hreads _ _ Hdy), (Hreads _ _ Hdm), Vy, Vm.
  apply map_ext. intros i. unfold Monthly.forecastLabel.
  rewrite (toInteger_Z (inject_Z year) year) by reflexivity.
  rewrite (toInteger_Z _ (month + Z.of_nat i)).
  - unfold firstOfMonth.
    destruct ((0 <=? year) && (year <=? 99))%Z eqn:Eq; [| reflexivity].
    apply andb_prop in Eq. destruct Eq as [_ Eq]. apply Z.leb_le in Eq. lia.
  - unfold ofNat. rewrite !inject_Z_plus. change (inject_Z 1) with 1. ring.
Qed.

End LabelProperties.

(** ** Pattern-Based Daily Forecaster: what every forecast day looks like *)

Lemma number_or_positive (v : option Q) (d : Q) :
  0 < d -> (forall q, v = Some q -> 0 <= q) -> 0 < number_or v d.
Proof.
  intros Hd Hv. destruct v as [q |]; simpl; [| exact Hd].
  destruct (Qeq_bool q 0) eqn:E; [exact Hd |].
  apply Qeq_bool_neq in E. specialize (Hv q eq_refl).
  destruct (Qlt_le_dec 0 q); [assumption | exfalso; apply E; lra].
Qed.

Lemma Number_div_nonneg (a b q : Q) : 0 <= a -> 0 <= b -> Number_div a b = Some q -> 0 <= q.
Proof.
  unfold Number_div. intros Ha Hb. destruct (Qeq_bool b 0); [discriminate |].
  intros [= <-]. now apply Qdiv_nonneg.
Qed.

(** The counts of a pattern table are not negative. *)
Lemma patterns_nonneg (key : Daily.Item -> Z) (l : list Daily.Item) :
  forall p,
    (forall k q, p k = Some q -> 0 <= q) ->
    forall k q, fold_left (fun p item => Daily.bump (key item) p) l p k = Some q -> 0 <= q.
Proof.
  induction l as [|a l IH]; intros p Hp; cbn [fold_left]; [exact Hp |].
  apply IH. intros k q. unfold Daily.bump.
  destruct (Z.eqb_spec k (key a)); [| apply Hp].
  intros [= <-].
  assert (0 <= number_or (p (key a)) 0); [| lra].
  destruct (p (key a)) as [c |] eqn:E; simpl; [| lra].
  destruct (Qeq_bool c 0); [lra | exact (Hp _ _ E)].
Qed.

Section DailyShape.
Context {D : DateLib}.
Variable now : Z.
Variable random : nat -> Q.

Lemma daysInHistory_positive (historicalData : list Daily.Item) :
  1 <= Daily.daysInHistory now historicalData.
Proof.
  unfold Daily.daysInHistory. destruct historicalData; [lra |].
  unfold Math.max. apply Q.le_max_l.
Qed.

Lemma baseRate_positive (historicalData : list Daily.Item) :
  historicalData <> [] -> 0 < Daily.baseRate now historicalData.
Proof.
  intros Hne. unfold Daily.baseRate.
  pose proof (daysInHistory_positive historicalData).
  pose proof (totalCrimes_positive _ Hne).
  apply Qlt_shift_div_l; lra.
Qed.

Lemma pattern_multiplier_positive (key : Daily.Item -> Z) (historicalData : list Daily.Item)
      (k : Z) (d : Q) :
  0 <= d ->
  0 < number_or
        (Daily.divPattern
           (fold_left (fun p item => Daily.bump (key item) p) historicalData Daily.noPatterns k)
           d) 1.
Proof.
  intros Hd. apply number_or_positive; [lra |].
  intros q Hq. unfold Daily.divPattern in Hq.
  destruct (fold_left _ historicalData Daily.noPatterns k) as [c |] eqn:E; [| discriminate].
  apply (Number_div_nonneg c d); auto.
  apply (patterns_nonneg key historicalData Daily.noPatterns ltac:(discriminate) k c E).
Qed.

Lemma dailyPrediction_positive (historicalData : list Daily.Item) (i : nat) :
  historicalData <> [] -> 0 <= random (i - 1) ->
  0 < Daily.dailyPrediction now random historicalData i.
Proof.
  intros Hne Hr. unfold Daily.dailyPrediction. cbv zeta.
  pose proof (baseRate_positive _ Hne) as Hb.
  pose proof (totalCrimes_positive _ Hne) as Ht.
  assert (H7 : 0 <= Daily.totalCrimes historicalData / 7) by (apply Qdiv_nonneg; lra).
  assert (H4 : 0 <= Daily.totalCrimes historicalData / 4) by (apply Qdiv_nonneg; lra).
  pose proof (pattern_multiplier_positive (fun item => getDay (Daily.timestamp item))
                historicalData (getDay (Daily.forecastDate now i)) _ H7) as Hd.
  pose proof (pattern_multiplier_positive
                (fun item => Qfloor (inject_Z (getDate (Daily.timestamp item)) / 7))
                historicalData
                (Qfloor (inject_Z (getDate (Daily.forecastDate now i)) / 7)) _ H4) as Hw.
  apply Qmult_lt_0_compat; [apply Qmult_lt_0_compat; [apply Qmult_lt_0_compat |] |].
  - exact Hb.
  - exact Hd.
  - exact Hw.
  - lra.
Qed.

Lemma hourMultiplier_positive (historicalData : list Daily.Item) (hour : nat) :
  historicalData <> [] -> 0 < Daily.hourMultiplier historicalData hour.
Proof.
  intros Hne. unfold Daily.hourMultiplier.
  pose proof (totalCrimes_positive _ Hne) as Ht.
  apply number_or_positive; [lra |]. intros q Hq.
  apply (Number_div_nonneg _ _ _) in Hq; auto; [| apply Qdiv_nonneg; lra].
  destruct (Daily.hourlyPatterns historicalData (Z.of_nat hour)) as [c |] eqn:E; simpl; [| lra].
  destruct (Qeq_bool c 0); [lra |].
  exact (patterns_nonneg (fun item => getHours (Daily.timestamp item)) historicalData
                         Daily.noPatterns ltac:(discriminate) _ _ E).
Qed.

(** X9. Every forecast of a non-empty history has 7 days for the period
    [1week], 14 for [2weeks] and 30 for any other period; each day lists the
    24 hours of the day in order; and with draws of [Math.random()] that are
    not negative neither the predicted count of a day nor any hourly count
    is negative. *)
Theorem daily_forecast_shape (historicalData : list Daily.Item) (period : string) :
  historicalData <> [] ->
  (forall k, 0 <= random k) ->
  let forecast := Daily.generateCrimeForecast now random historicalData period in
  length forecast
  = (if String.eqb period "1week" then 7 else if String.eqb period "2weeks" then 14 else 30)%nat
  /\ forall day, In day forecast ->
       map fst (Day.hourlyBreakdown day) = seq 0 24
       /\ (0 <= Day.predictedCrimes day)%Z
       /\ Forall (fun count => (0 <= count)%Z) (map snd (Day.hourlyBreakdown day)).
Proof.
  intros Hne Hr. cbv zeta. split.
  - unfold Daily.generateCrimeForecast. destruct historicalData; [contradiction |].
    rewrite length_map, length_seq. reflexivity.
  - intros day Hin. destruct (forecast_days _ _ _ _ _ Hin) as (_ & i & Hi & ->).
    cbn [Daily.forecastDay Day.hourlyBreakdown Day.predictedCrimes].
    pose proof (dailyPrediction_positive historicalData i Hne (Hr _)) as HP.
    rewrite hourlyBreakdown_entries, !map_map. cbn [fst snd].
    split; [apply map_id |]. split.
    + apply round_nonneg. lra.
    + apply Forall_map, Forall_forall. intros hour _. apply round_nonneg.
      pose proof (hourMultiplier_positive historicalData hour Hne).
      apply Qmult_le_0_compat; [apply Qdiv_nonneg |]; lra.
Qed.

(** X10. A forecast day whose weekday and whose week of the month have no record
    in the history is Low: without a pattern the prediction is the baseline
    times a factor below 1.2. *)
Theorem no_pattern_is_low (historicalData : list Daily.Item) (period : string) (i : nat) :
  historicalData <> [] ->
  (1 <= i <= Daily.forecastDays period)%nat ->
  random (i - 1) < 1 ->
  Daily.dailyPatterns historicalData (getDay (Daily.forecastDate now i)) = None ->
  Daily.weeklyPatterns historicalData
    (Qfloor (inject_Z (getDate (Daily.forecastDate now i)) / 7)) = None ->
  In (Daily.forecastDay now random historicalData i)
     (Daily.generateCrimeForecast now random historicalData period)
  /\ Day.riskLevel (Daily.forecastDay now random historicalData i) = "Low"%string.
Proof.
  intros Hne Hi Hr Hday Hweek. split.
  - unfold Daily.generateCrimeForecast. destruct historicalData; [contradiction |].
    apply in_map, in_seq. lia.
  - cbn [Daily.forecastDay Day.riskLevel].
    apply (classify_thresholds _ _).
    unfold Daily.dailyPrediction. cbv zeta. rewrite Hday, Hweek. cbn [Daily.divPattern number_or].
    pose proof (baseRate_positive _ Hne). split; nra.
Qed.

End DailyShape.

(** ** Insight Synthesizer: the peak days *)

Lemma skipn_incl {A : Type} (k : nat) (l : list A) (b : A) : In b (skipn k l) -> In b l.
Proof.
  intros H. rewrite <- (firstn_skipn k l). apply in_or_app. now right.
Qed.

Lemma sorted_split {A : Type} (R : A -> A -> Prop) (l : list A) (k : nat) :
  StronglySorted R l ->
  forall a b, In a (firstn k l) -> In b (skipn k l) -> R a b.
Proof.
  intros Hs. revert k. induction Hs as [| x l Hs IH Hx]; intros k a b Ha Hb.
  - rewrite firstn_nil in Ha. contradiction.
  - destruct k as [|k]; [contradiction |]. cbn in Ha, Hb.
    destruct Ha as [<- | Ha].
    + rewrite Forall_forall in Hx. apply Hx. exact (skipn_incl k l b Hb).
    + exact (IH k a b Ha Hb).
Qed.

(** X11. The peak days are the three days (all of them, if fewer) with the
    highest predicted counts, highest first: the forecast splits into the
    days listed and days that none of the listed ones falls short of. *)
Theorem peak_days_are_top {A : Type}
        (forecastData : list DailyForecast) (historicalData : list A) :
  let insights := fst (Insight.generateForecastInsights forecastData historicalData) in
  exists top others,
    Permutation forecastData (top ++ others)
    /\ length top = Nat.min 3 (length forecastData)
    /\ Insight.peakDays insights
       = map (fun day => {| Insight.date := Day.date day;
                            Insight.dayOfWeek := Day.dayOfWeek day;
                            Insight.crimes := Day.predictedCrimes day |}) top
    /\ Sorted (fun a b => (Day.predictedCrimes b <= Day.predictedCrimes a)%Z) top
    /\ forall day other, In day top -> In other others ->
                         (Day.predictedCrimes other <= Day.predictedCrimes day)%Z.
Proof.
  cbv zeta. destruct forecastData as [| d rest].
  - exists [], []. repeat split; try constructor. intros ? ? [].
  - set (fd := d :: rest).
    set (sorted := Insight.sortedByCrimes fd).
    assert (Hperm : Permutation fd sorted) by apply sortBy_perm.
    assert (Hs : Sorted (fun a b => (Day.predictedCrimes b <= Day.predictedCrimes a)%Z) sorted)
      by apply (sortBy_sorted Day.predictedCrimes).
    assert (Hss : StronglySorted
                    (fun a b => (Day.predictedCrimes b <= Day.predictedCrimes a)%Z) sorted).
    { apply Sorted_StronglySorted; [| exact Hs]. intros a b c ? ?. lia. }
    exists (firstn 3 sorted), (skipn 3 sorted).
    split; [now rewrite firstn_skipn |]. split.
    { rewrite length_firstn. f_equal. symmetry. apply Permutation_length, Hperm. }
    split; [reflexivity |]. split.
    { apply StronglySorted_Sorted.
      rewrite <- (firstn_skipn 3 sorted) in Hss.
      clear - Hss. induction (firstn 3 sorted) as [|a l IH]; [constructor |].
      cbn in Hss. inversion Hss as [| ? ? Hl Ha]; subst.
      constructor; [apply IH, Hl |].
      apply Forall_app in Ha. apply Ha. }
    intros day other Hd Ho. exact (sorted_split _ sorted 3 Hss day other Hd Ho).
Qed.

(** ** The forecast call: the prediction service and the fallback *)

Lemma totalPredicted_sum (forecastData : list DailyForecast) :
  Insight.totalPredicted forecastData = sumZ (map Day.predictedCrimes forecastData).
Proof.
  unfold Insight.totalPredicted, sumZ.
  assert (G : forall z, fold_left (fun sum day => (sum + Day.predictedCrimes day)%Z)
                                  forecastData z
                        = (z + fold_right Z.add 0 (map Day.predictedCrimes forecastData))%Z).
  { induction forecastData as [| d l IH]; intros z; cbn [fold_left map fold_right].
    - lia.
    - rewrite IH. lia. }
  now rewrite G.
Qed.

Lemma hourlyTotals_from (forecastData : list DailyForecast) (totals : IntObj.t) :
  Forall (fun day => Day.hourlyBreakdown day = []) forecastData ->
  fold_left
    (fun totals day =>
       fold_left
         (fun totals entry =>
            let '(hour, count) := entry in
            IntObj.set hour
              (match IntObj.get hour totals with Some v => v | None => 0 end + count)%Z totals)
         (Day.hourlyBreakdown day) totals)
    forecastData totals = totals.
Proof.
  revert totals. induction forecastData as [| day rest IH]; intros totals H; cbn [fold_left].
  - reflexivity.
  - inversion H as [| ? ? Hday Hrest]; subst. rewrite Hday. cbn [fold_left]. now apply IH.
Qed.

Lemma recommend_tips (riskLevel : string) (peakDays : list Insight.PeakDay)
      (totalPredicted : Z) :
  let tips := Insight.recommend riskLevel [] peakDays totalPredicted 0 in
  ~ In nightTip tips /\ (In communityTip tips <-> (0 < totalPredicted)%Z).
Proof.
  cbv zeta. unfold Insight.recommend, nightTip, communityTip. cbn [existsb app].
  destruct (Qlt_le_dec (ofNat 0 * (5 # 10)) (inject_Z totalPredicted)) as [H | H].
  - assert (Hpos : (0 < totalPredicted)%Z).
    { rewrite Zlt_Qlt. change (ofNat 0) with 0 in H. change (inject_Z 0) with 0. lra. }
    split.
    + destruct (riskLevel =? "High")%string, (existsb _ peakDays); cbn;
        intuition discriminate.
    + split; [intros _; exact Hpos | intros _].
      apply in_or_app. right. apply in_or_app. right. now left.
  - assert (Hneg : ~ (0 < totalPredicted)%Z).
    { rewrite Zlt_Qlt. change (ofNat 0) with 0 in H. change (inject_Z 0) with 0. lra. }
    destruct (riskLevel =? "High")%string, (existsb _ peakDays); cbn;
      intuition discriminate.
Qed.

Section ForecastCall.
Context {N : NumberLib} {D : DateLib}.
Variable now : Z.
Variable random : nat -> Q.

(** X12. When the prediction service answers, the store is not consulted at all:
    the state holds the service's days, sorted by predicted count, and no
    error.  The insights then name no peak hour, never advise on night-time
    security, and advise community awareness exactly when the predicted
    total is positive, since the service sends no hourly breakdown and the
    history passed on is empty. *)
Theorem ml_forecast_insights
        (st : Fetch.State) (mlPredictions : list Fetch.MLPrediction)
        (snapshot : option (list (string * JS.Value)))
        (forecastCrimeType forecastPeriod : string) :
  mlPredictions <> [] ->
  let st' := Fetch.fetchCrimeForecast now random st (Some mlPredictions) snapshot
                                      forecastCrimeType forecastPeriod in
  st' = Fetch.fetchCrimeForecast now random st (Some mlPredictions) None
                                 forecastCrimeType forecastPeriod
  /\ Fetch.forecastError st' = None
  /\ Fetch.forecastLoading st' = false
  /\ Permutation (map Fetch.fromML mlPredictions) (Fetch.forecastData st')
  /\ exists insights,
      Fetch.forecastInsights st' = Some insights
      /\ Insight.peakHours insights = []
      /\ ~ In nightTip (Insight.recommendations insights)
      /\ (In communityTip (Insight.recommendations insights)
          <-> (0 < Insight.predictedCrimeCount insights)%Z).
Proof.
  intros Hne. cbv zeta. split; [reflexivity |].
  unfold Fetch.fetchCrimeForecast.
  destruct mlPredictions as [| pred preds]; [contradiction |].
  set (forecast := map Fetch.fromML (pred :: preds)).
  assert (Hbare : Forall (fun day => Day.hourlyBreakdown day = []) forecast).
  { apply Forall_map, Forall_forall. intros; reflexivity. }
  assert (Hhours : Insight.peakHoursOf forecast = []).
  { unfold Insight.peakHoursOf, Insight.hourlyTotals.
    now rewrite (hourlyTotals_from forecast [] Hbare). }
  unfold Insight.generateForecastInsights.
  change forecast with (Fetch.fromML pred :: map Fetch.fromML preds) at 1.
  cbv iota beta. fold forecast.
  cbn [Fetch.forecastError Fetch.forecastLoading Fetch.forecastData Fetch.forecastInsights].
  split; [reflexivity |]. split; [reflexivity |].
  split; [apply sortBy_perm |].
  eexists. split; [reflexivity |].
  cbn [Insight.peakHours Insight.recommendations Insight.predictedCrimeCount].
  rewrite Hhours. split; [reflexivity |].
  apply recommend_tips.
Qed.

(** X13. A stored record is read from the report nested under its own
    [reportId], where there is one, else from the record itself.  When that
    report has none of [dateTime], [createdAt] and [timestamp], the record
    is given the clock reading as its timestamp, so it always counts as
    recent: with no crime type selected it qualifies, however old the report
    is and whatever date the enclosing record carries. *)
Theorem undated_record_qualifies (key : string) (data : JS.Value) :
  unresolved (reportData data) ["dateTime"; "createdAt"; "timestamp"]%string ->
  Date_parse (toISOString now) = Some now ->
  (Fetch.threeMonthsAgo now <= now)%Z ->
  Fetch.timestamp (Fetch.toItem now (key, data)) = JS.Str (toISOString now)
  /\ Fetch.qualifies now EmptyString (Fetch.toItem now (key, data)) = true
  /\ (JS.truthy (JS.get data "reportId") = false -> reportData data = data).
Proof.
  intros Hun Hparse Hcut.
  assert (Hts : Fetch.timestamp (Fetch.toItem now (key, data)) = JS.Str (toISOString now)).
  { unfold Fetch.toItem. cbn [Fetch.timestamp]. fold (reportData data).
    rewrite (or_falsy (JS.get (reportData data) "dateTime")) by (apply Hun; simpl; tauto).
    rewrite (or_falsy (JS.get (reportData data) "createdAt")) by (apply Hun; simpl; tauto).
    rewrite (or_falsy (JS.get (reportData data) "timestamp")) by (apply Hun; simpl; tauto).
    reflexivity. }
  split; [exact Hts |]. split.
  - unfold Fetch.qualifies. rewrite Hts. cbn. rewrite Hparse. now apply Z.leb_le.
  - intros Hid. unfold reportData. now rewrite Hid.
Qed.

(** X14. The outcomes of the fallback.  Without a store the call ends with the
    no-data error; with fewer than ten qualifying records with the
    insufficient-data error; in both cases forecast and insights stay as
    they were.  With ten or more it ends without an error, with one forecast
    day per day of the period and with insights whose predicted total is the
    sum over those days. *)
Theorem fallback_outcomes
        (st : Fetch.State) (rawData : list (string * JS.Value))
        (forecastCrimeType forecastPeriod : string) :
  let run := fun snapshot =>
    Fetch.fetchCrimeForecast now random st None snapshot forecastCrimeType forecastPeriod in
  let qualifying := length (Fetch.historicalData now forecastCrimeType rawData) in
  run None
  = {| Fetch.forecastLoading := false; Fetch.forecastError := Some Fetch.noData;
       Fetch.forecastData := Fetch.forecastData st;
       Fetch.forecastInsights := Fetch.forecastInsights st |}
  /\ ((qualifying < 10)%nat ->
      run (Some rawData)
      = {| Fetch.forecastLoading := false; Fetch.forecastError := Some Fetch.insufficient;
           Fetch.forecastData := Fetch.forecastData st;
           Fetch.forecastInsights := Fetch.forecastInsights st |})
  /\ ((10 <= qualifying)%nat ->
      Fetch.forecastError (run (Some rawData)) = None
      /\ Fetch.forecastLoading (run (Some rawData)) = false
      /\ length (Fetch.forecastData (run (Some rawData))) = Daily.forecastDays forecastPeriod
      /\ exists insights,
          Fetch.forecastInsights (run (Some rawData)) = Some insights
          /\ Insight.predictedCrimeCount insights
             = sumZ (map Day.predictedCrimes (Fetch.forecastData (run (Some rawData))))).
Proof.
  cbv zeta. split; [reflexivity |]. split.
  - intros Hlt. unfold Fetch.fetchCrimeForecast.
    destruct (Nat.ltb_spec (length (Fetch.historicalData now forecastCrimeType rawData)) 10);
      [reflexivity | lia].
  - intros Hge.
    pose proof (fetch_keeps_sorted_forecast now random st rawData forecastCrimeType
                                            forecastPeriod Hge) as Hdata.
    unfold Fetch.fetchCrimeForecast in *.
    destruct (Nat.ltb_spec (length (Fetch.historicalData now forecastCrimeType rawData)) 10);
      [lia |].
    set (history := Fetch.historicalData now forecastCrimeType rawData) in *.
    set (forecast := Daily.generateCrimeForecast now random (map Fetch.asDailyItem history)
                                                 forecastPeriod) in *.
    assert (Hlen : length forecast = Daily.forecastDays forecastPeriod).
    { unfold forecast, Daily.generateCrimeForecast.
      destruct history as [| item rest]; [simpl in Hge; lia |].
      cbn [map]. now rewrite length_map, length_seq. }
    destruct (Insight.generateForecastInsights forecast history) as [insights sorted] eqn:E.
    cbn [Fetch.forecastError Fetch.forecastLoading Fetch.forecastData Fetch.forecastInsights]
      in *.
    split; [reflexivity |]. split; [reflexivity |].
    assert (Hperm : Permutation forecast sorted).
    { subst sorted. apply sortBy_perm. }
    split; [rewrite <- Hlen; symmetry; apply Permutation_length, Hperm |].
    exists insights. split; [reflexivity |].
    unfold Insight.generateForecastInsights in E.
    destruct forecast as [| day rest] eqn:Ef.
    + injection E as <- <-. reflexivity.
    + rewrite <- Ef in *. injection E as <- _. cbn [Insight.predictedCrimeCount].
      rewrite <- (sumZ_perm _ _ (Permutation_map Day.predictedCrimes Hperm)).
      apply totalPredicted_sum.
Qed.

End ForecastCall.

(** ** Spatial Density Aggregator: what the groups hold *)

Lemma has_In (key : string) (m : Heatmap.Groups) :
  Heatmap.has key m = true <-> In key (map fst m).
Proof.
  induction m as [|[k g] m IH]; simpl.
  - split; [discriminate | intros []].
  - rewrite orb_true_iff, IH, String.eqb_eq. tauto.
Qed.

Lemma update_keys (key : string) (report : JS.Value) (m : Heatmap.Groups) :
  map fst (Heatmap.update key report m) = map fst m.
Proof.
  induction m as [|[k g] m IH]; simpl; [reflexivity |].
  destruct (String.eqb k key); simpl; [reflexivity | now rewrite IH].
Qed.

Lemma update_In (key : string) (report : JS.Value) (m : Heatmap.Groups)
      (k : string) (g : Heatmap.Group) :
  NoDup (map fst m) ->
  In (k, g) (Heatmap.update key report m) ->
  (k <> key /\ In (k, g) m)
  \/ (k = key /\ exists g0, In (k, g0) m /\ g = bumped report g0).
Proof.
  induction m as [|[k0 g0] m IH]; simpl; [intros _ [] |].
  intros Hnd. inversion Hnd as [| ? ? Hk0 Hm]; subst.
  destruct (String.eqb_spec k0 key) as [-> | Hne]; simpl.
  - intros [[= <- <-] | Hin].
    + right. split; [reflexivity |]. exists g0. split; [now left | reflexivity].
    + left. split; [| now right].
      intros ->. apply Hk0. apply (in_map fst) in Hin. exact Hin.
  - intros [[= <- <-] | Hin].
    + left. split; [exact Hne | now left].
    + destruct (IH Hm Hin) as [[Hk H] | [Hk (g1 & H & E)]].
      * left. split; [exact Hk | now right].
      * right. split; [exact Hk |]. exists g1. split; [now right | exact E].
Qed.

Lemma update_counts (key : string) (report : JS.Value) (m : Heatmap.Groups) :
  NoDup (map fst m) -> In key (map fst m) ->
  sumZ (map (fun e => Heatmap.count (snd e)) (Heatmap.update key report m))
  = (sumZ (map (fun e => Heatmap.count (snd e)) m) + 1)%Z.
Proof.
  unfold sumZ. induction m as [|[k g] m IH]; simpl; [intros _ [] |].
  intros Hnd Hin. inversion Hnd as [| ? ? Hk Hm]; subst.
  destruct (String.eqb_spec k key) as [-> | Hne]; simpl; [lia |].
  destruct Hin as [E | Hin]; [contradiction |].
  rewrite (IH Hm Hin). lia.
Qed.

Section HeatmapGroups.
Context {N : NumberLib}.

Lemma lt_false (a b : Q) : Heatmap.lt a b = false -> b <= a.
Proof.
  unfold Heatmap.lt. destruct (Qlt_le_dec a b); [discriminate | auto].
Qed.

Lemma kept_coordinates (report : JS.Value) :
  keptByHeatmap report = true ->
  exists lat lng,
    Heatmap.coordinates report = (Some lat, Some lng)
    /\ Heatmap.isZero lat || Heatmap.isZero lng = false
    /\ Heatmap.lt lat 4 || Heatmap.lt 22 lat || Heatmap.lt lng 116 || Heatmap.lt 127 lng = false
    /\ inBox lat lng.
Proof.
  unfold keptByHeatmap.
  destruct (Heatmap.coordinates report) as [[lat |] [lng |]]; try discriminate.
  intros H. apply andb_prop in H. destruct H as [Hz Hb].
  apply negb_true_iff in Hz, Hb.
  exists lat, lng. repeat split; auto.
  all: repeat (apply orb_false_elim in Hb; destruct Hb as [Hb ?]).
  all: apply lt_false; assumption.
Qed.

Lemma addReport_kept (groups : Heatmap.Groups) (report : JS.Value) :
  keptByHeatmap report = true ->
  exists lat lng,
    Heatmap.coordinates report = (Some lat, Some lng) /\ inBox lat lng
    /\ Heatmap.addReport groups report
       = if Heatmap.has (cellKey report) groups
         then Heatmap.update (cellKey report) report groups
         else groups ++ [(cellKey report,
                          {| Heatmap.lat := lat; Heatmap.lng := lng; Heatmap.count := 1;
                             Heatmap.reports := [report] |})].
Proof.
  intros Hk. destruct (kept_coordinates report Hk) as (lat & lng & Hc & Hz & Hb & Hbox).
  exists lat, lng. split; [exact Hc |]. split; [exact Hbox |].
  unfold Heatmap.addReport, cellKey. rewrite Hc, Hz, Hb. reflexivity.
Qed.

Lemma addReport_dropped (groups : Heatmap.Groups) (report : JS.Value) :
  keptByHeatmap report = false -> Heatmap.addReport groups report = groups.
Proof.
  unfold keptByHeatmap, Heatmap.addReport.
  destruct (Heatmap.coordinates report) as [[lat |] [lng |]]; try reflexivity.
  intros H. apply andb_false_iff in H. destruct H as [H | H]; apply negb_false_iff in H.
  - now rewrite H.
  - rewrite H. now destruct (Heatmap.isZero lat || Heatmap.isZero lng).
Qed.

Lemma update_In_back (key : string) (report : JS.Value) (m : Heatmap.Groups)
      (k : string) (g : Heatmap.Group) :
  NoDup (map fst m) -> In (k, g) m ->
  In (k, if String.eqb k key then bumped report g else g) (Heatmap.update key report m).
Proof.
  induction m as [|[k0 g0] m IH]; simpl; [intros _ [] |].
  intros Hnd. inversion Hnd as [| ? ? Hk0 Hm]; subst.
  intros [[= -> ->] | Hin].
  - destruct (String.eqb k key); now left.
  - destruct (String.eqb_spec k0 key) as [-> | Hne].
    + destruct (String.eqb_spec k key) as [-> | Hk].
      * exfalso. apply Hk0. apply (in_map fst) in Hin. exact Hin.
      * now right.
    + right. apply IH; assumption.
Qed.

Lemma groups_step (processed : list JS.Value) (groups : Heatmap.Groups) (report : JS.Value) :
  groupsOf processed groups /\ allPlaced processed groups ->
  groupsOf (processed ++ [report]) (Heatmap.addReport groups report)
  /\ allPlaced (processed ++ [report]) (Heatmap.addReport groups report).
Proof.
  intros [(Hnd & Hsum & Hg) Hp].
  destruct (keptByHeatmap report) eqn:Hk.
  - destruct (addReport_kept groups report Hk) as (lat & lng & Hc & Hbox & ->).
    assert (Hlen : Z.of_nat (length (filter keptByHeatmap (processed ++ [report])))
                   = (Z.of_nat (length (filter keptByHeatmap processed)) + 1)%Z).
    { rewrite filter_app, length_app. simpl. rewrite Hk. simpl. lia. }
    destruct (Heatmap.has (cellKey report) groups) eqn:Hhas.
    + apply has_In in Hhas.
      split; [split; [| split] |].
      * rewrite update_keys. exact Hnd.
      * rewrite (update_counts _ _ _ Hnd Hhas), Hsum, Hlen. reflexivity.
      * intros k g Hin.
        destruct (update_In _ _ _ _ _ Hnd Hin) as [[Hne Hold] | [-> (g0 & Hold & ->)]].
        -- destruct (Hg k g Hold) as (B & C & (f & Hf & Ef) & Ne & R).
           split; [exact B |]. split; [exact C |].
           split; [exists f; split; [apply in_or_app; now left | exact Ef] |].
           split; [exact Ne |].
           intros r Hr. destruct (R r Hr) as (R1 & R2 & R3).
           split; [apply in_or_app; now left | split; assumption].
        -- destruct (Hg _ g0 Hold) as (B & C & (f & Hf & Ef) & Ne & R).
           simpl. split; [exact B |].
           split; [rewrite length_app, C; simpl; lia |].
           split; [exists f; split; [apply in_or_app; now left | exact Ef] |].
           split; [intros E; apply app_eq_nil in E; destruct E; discriminate |].
           intros r Hr. apply in_app_or in Hr. destruct Hr as [Hr | [<- | []]].
           ++ destruct (R r Hr) as (R1 & R2 & R3).
              split; [apply in_or_app; now left | split; assumption].
           ++ split; [apply in_or_app; right; now left | split; [exact Hk | reflexivity]].
      * intros r Hr Hkr. apply in_app_or in Hr. destruct Hr as [Hr | [<- | []]].
        -- destruct (Hp r Hr Hkr) as (g & Hin & Hrg).
           exists (if String.eqb (cellKey r) (cellKey report) then bumped report g else g).
           split; [apply update_In_back; assumption |].
           destruct (String.eqb (cellKey r) (cellKey report)); [| exact Hrg].
           simpl. apply in_or_app. now left.
        -- apply in_map_iff in Hhas. destruct Hhas as ([k0 g0] & Ek & Hin). simpl in Ek. subst k0.
           exists (bumped report g0). split.
           ++ generalize (update_In_back (cellKey report) report groups _ _ Hnd Hin).
              now rewrite String.eqb_refl.
           ++ simpl. apply in_or_app. right. now left.
    + assert (Hnot : ~ In (cellKey report) (map fst groups)).
      { intros H. apply has_In in H. congruence. }
      split; [split; [| split] |].
      * rewrite map_app. apply NoDup_app; [exact Hnd | repeat constructor; intros [] |].
        intros a Ha [<- | []]. exact (Hnot Ha).
      * rewrite map_app, Hlen, <- Hsum. unfold sumZ. rewrite fold_right_app. simpl.
        generalize (map (fun e => Heatmap.count (snd e)) groups).
        intros l. induction l as [| x l IH]; simpl; lia.
      * intros k g Hin. apply in_app_or in Hin. destruct Hin as [Hold | [[= <- <-] | []]].
        -- destruct (Hg k g Hold) as (B & C & (f & Hf & Ef) & Ne & R).
           split; [exact B |]. split; [exact C |].
           split; [exists f; split; [apply in_or_app; now left | exact Ef] |].
           split; [exact Ne |].
           intros r Hr. destruct (R r Hr) as (R1 & R2 & R3).
           split; [apply in_or_app; now left | split; assumption].
        -- simpl. split; [exact Hbox |]. split; [reflexivity |].
           split; [exists report; split; [apply in_or_app; right; now left | exact Hc] |].
           split; [discriminate |].
           intros r [<- | []].
           split; [apply in_or_app; right; now left | split; [exact Hk | reflexivity]].
      * intros r Hr Hkr. apply in_app_or in Hr. destruct Hr as [Hr | [<- | []]].
        -- destruct (Hp r Hr Hkr) as (g & Hin & Hrg).
           exists g. split; [apply in_or_app; now left | exact Hrg].
        -- eexists. split; [apply in_or_app; right; left; reflexivity |]. simpl. now left.
  - rewrite (addReport_dropped groups report Hk).
    split; [split; [exact Hnd | split] |].
    + rewrite filter_app, length_app. simpl. rewrite Hk. simpl. rewrite Hsum. f_equal. lia.
    + intros k g Hin. destruct (Hg k g Hin) as (B & C & (f & Hf & Ef) & Ne & R).
      split; [exact B |]. split; [exact C |].
      split; [exists f; split; [apply in_or_app; now left | exact Ef] |].
      split; [exact Ne |].
      intros r Hr. destruct (R r Hr) as (R1 & R2 & R3).
      split; [apply in_or_app; now left | split; assumption].
    + intros r Hr Hkr. apply in_app_or in Hr. destruct Hr as [Hr | [<- | []]].
      * exact (Hp r Hr Hkr).
      * congruence.
Qed.

Lemma groups_loop (rest processed : list JS.Value) (groups : Heatmap.Groups) :
  groupsOf processed groups /\ allPlaced processed groups ->
  groupsOf (processed ++ rest) (fold_left Heatmap.addReport rest groups)
  /\ allPlaced (processed ++ rest) (fold_left Heatmap.addReport rest groups).
Proof.
  revert processed groups. induction rest as [| report rest IH]; intros processed groups H.
  - simpl. now rewrite app_nil_r.
  - simpl. replace (processed ++ report :: rest) with ((processed ++ [report]) ++ rest)
      by now rewrite <- app_assoc.
    apply IH. apply groups_step. exact H.
Qed.

Lemma locationGroups_hold (filteredReports : list JS.Value) :
  groupsOf filteredReports (Heatmap.locationGroups filteredReports)
  /\ allPlaced filteredReports (Heatmap.locationGroups filteredReports).
Proof.
  apply (groups_loop filteredReports [] []).
  split; [split; [constructor | split; [reflexivity | intros k g []]] | intros r []].
Qed.

(** X15. The groups of the heat map partition the reports it keeps: the keys are
    pairwise distinct, every kept report sits in the group of its own cell and
    in no other, a group holds only kept reports of its cell, at least one,
    and its count is their number; the counts add up to the number of kept
    reports. *)
Theorem heat_groups_partition (filteredReports : list JS.Value) :
  let groups := Heatmap.locationGroups filteredReports in
  NoDup (map fst groups)
  /\ sumZ (map (fun e => Heatmap.count (snd e)) groups)
     = Z.of_nat (length (filter keptByHeatmap filteredReports))
  /\ (forall r, In r filteredReports -> keptByHeatmap r = true ->
        exists g, In (cellKey r, g) groups /\ In r (Heatmap.reports g))
  /\ (forall k g, In (k, g) groups ->
        (1 <= Heatmap.count g)%Z
        /\ Heatmap.count g = Z.of_nat (length (Heatmap.reports g))
        /\ forall r, In r (Heatmap.reports g) ->
             In r filteredReports /\ keptByHeatmap r = true /\ cellKey r = k).
Proof.
  destruct (locationGroups_hold filteredReports) as [(Hnd & Hsum & Hg) Hp].
  cbv zeta. split; [exact Hnd |]. split; [exact Hsum |]. split; [exact Hp |].
  intros k g Hin. destruct (Hg k g Hin) as (_ & C & _ & Ne & R).
  split; [| split; [exact C | exact R]].
  rewrite C. destruct (Heatmap.reports g); [congruence | simpl; lia].
Qed.

(** X16. Every heat point stands at the coordinates of one of the reports, inside
    the bounding box and away from zero; for a non-negative intensity dial its
    weight lies between 0 and 1, and for a dial of at most 10 it is at most
    dial/10. There are never more points than reports. *)
Theorem heat_points_bounded (intensity : Q) (filteredReports : list JS.Value) :
  0 <= intensity ->
  (length (Heatmap.createHeatmapData intensity filteredReports) <= length filteredReports)%nat
  /\ forall lat lng weight,
       In (lat, lng, weight) (Heatmap.createHeatmapData intensity filteredReports) ->
       (exists report, In report filteredReports
                       /\ Heatmap.coordinates report = (Some lat, Some lng))
       /\ inBox lat lng
       /\ 0 <= weight /\ weight <= 1
       /\ (intensity <= 10 -> weight <= intensity / 10).
Proof.
  intros Hi.
  destruct (locationGroups_hold filteredReports) as [(Hnd & Hsum & Hg) Hp].
  unfold Heatmap.createHeatmapData. split.
  - rewrite length_map.
    assert (Hone : forall l : Heatmap.Groups,
               (forall k g, In (k, g) l -> (1 <= Heatmap.count g)%Z) ->
               (Z.of_nat (length l) <= sumZ (map (fun e => Heatmap.count (snd e)) l))%Z).
    { induction l as [| [k g] l IH]; intros H; [simpl; lia |].
      change (sumZ (map (fun e => Heatmap.count (snd e)) ((k, g) :: l)))
        with (Heatmap.count g + sumZ (map (fun e => Heatmap.count (snd e)) l))%Z.
      assert (1 <= Heatmap.count g)%Z by (apply (H k); now left).
      assert (Z.of_nat (length l) <= sumZ (map (fun e => Heatmap.count (snd e)) l))%Z
        by (apply IH; intros k' g' Hin; apply (H k'); now right).
      simpl length. lia. }
    assert (Z.of_nat (length (Heatmap.locationGroups filteredReports))
            <= Z.of_nat (length filteredReports))%Z; [| lia].
    etransitivity; [apply Hone |].
    + intros k g Hin. destruct (Hg k g Hin) as (_ & C & _ & Ne & _).
      rewrite C. destruct (Heatmap.reports g); [congruence | simpl; lia].
    + rewrite Hsum. apply inj_le. apply filter_length_le.
  - intros lat lng weight Hin. apply in_map_iff in Hin.
    destruct Hin as ([k g] & E & Hin). simpl in E. unfold Heatmap.heatPoint in E.
    injection E as <- <- <-.
    destruct (Hg k g Hin) as (B & C & F & Ne & _).
    split; [exact F |]. split; [exact B |].
    assert (Hc : 1 <= inject_Z (Heatmap.count g)).
    { change 1 with (inject_Z 1). rewrite <- Zle_Qle.
      rewrite C. destruct (Heatmap.reports g); [congruence | simpl; lia]. }
    set (c := inject_Z (Heatmap.count g)) in *.
    assert (Hd : 0 <= c / 10) by (apply Qle_shift_div_l; lra).
    assert (Hb : 0 <= Math.min 1 (c / 10) /\ Math.min 1 (c / 10) <= 1).
    { unfold Math.min. destruct (Q.min_spec 1 (c / 10)) as [[L E] | [L E]]; rewrite E.
      - split; [discriminate | apply Qle_refl].
      - split; [exact Hd | exact L]. }
    set (b := Math.min 1 (c / 10)) in *.
    assert (Ht : 0 <= intensity / 10) by (apply Qle_shift_div_l; lra).
    assert (Hm : 0 <= b * (intensity / 10)) by (apply Qmult_le_0_compat; tauto).
    assert (Hu : b * (intensity / 10) <= intensity / 10) by nra.
    unfold Math.min.
    destruct (Q.min_spec 1 (b * (intensity / 10))) as [[L E] | [L E]]; rewrite E.
    + split; [discriminate |]. split; [apply Qle_refl |]. intros _.
      apply Qlt_le_weak. apply (Qlt_le_trans _ _ _ L Hu).
    + split; [exact Hm |]. split; [exact L |]. intros _. exact Hu.
Qed.

End HeatmapGroups.

(** ** User accounts *)

Lemma or_truthy (a b : JS.Value) : JS.truthy (a ||| b) = JS.truthy a || JS.truthy b.
Proof.
  unfold JS.or. destruct (JS.truthy a) eqn:E; [exact E | reflexivity].
Qed.

(** X17. The list shows exactly the accounts that have both an e-mail address and
    a first name, and the total counts these only; where nothing is stored
    the list is empty; a failed read leaves list and total as they were and
    reports the failure. *)
Theorem listed_users_complete (st : Users.State) (civilianData : list (string * JS.Value)) :
  let listed := Users.fetchUsers st (Some (Some civilianData)) in
  Users.totalUsers listed = length (Users.users listed)
  /\ (Users.totalUsers listed <= length civilianData)%nat
  /\ (forall userId,
        In userId (map Users.id (Users.users listed))
        <-> exists userData,
              In (userId, userData) civilianData
              /\ JS.truthy (JS.get userData "email") = true
              /\ JS.truthy (JS.get userData "firstName") = true)
  /\ (forall user, In user (Users.users listed) ->
        JS.truthy (Users.email user) = true
        /\ JS.truthy (Users.firstName user) = true
        /\ JS.truthy (Users.createdAt user) = true
        /\ Users.suspendedAt user <> JS.Undefined
        /\ Users.suspendedBy user <> JS.Undefined)
  /\ Users.users (Users.fetchUsers st (Some None)) = []
  /\ Users.users (Users.fetchUsers st None) = Users.users st
  /\ Users.totalUsers (Users.fetchUsers st None) = Users.totalUsers st
  /\ Users.error (Users.fetchUsers st None) = Users.loadFailed.
Proof.
  cbv zeta. simpl.
  split; [reflexivity |].
  split; [rewrite length_map; apply filter_length_le |].
  split; [| split; [| repeat split]].
  - intros userId. rewrite map_map. rewrite in_map_iff. split.
    + intros ([k d] & E & Hin). simpl in E. subst k.
      apply filter_In in Hin. destruct Hin as [Hin Hc].
      apply andb_prop in Hc. exists d. tauto.
    + intros (d & Hin & He & Hf). exists (userId, d). split; [reflexivity |].
      apply filter_In. split; [exact Hin |]. unfold Users.complete. simpl.
      now rewrite He, Hf.
  - intros user Hin. apply in_map_iff in Hin. destruct Hin as ([k d] & <- & Hin).
    apply filter_In in Hin. destruct Hin as [_ Hc]. apply andb_prop in Hc. simpl in Hc.
    simpl. split; [tauto |]. split; [tauto |].
    split; [rewrite or_truthy; apply orb_true_r |].
    split; unfold JS.or.
    + destruct (JS.truthy (JS.get d "suspendedAt")) eqn:E; [| discriminate].
      intros E'. rewrite E' in E. discriminate.
    + destruct (JS.truthy (JS.get d "suspendedBy")) eqn:E; [| discriminate].
      intros E'. rewrite E' in E. discriminate.
Qed.

Section UserStatus.
Context {D : DateLib}.

(** X18. A status change touches nothing but the suspension fields of the account
    it names: the list keeps its length and order, every other account is
    left as it was, and so is the total.  When the database rejects the
    update the list is not changed at all and the failure is reported. *)
Theorem status_change_is_local (now : Z) (st : Users.State) (written : bool)
        (userId : string) (currentStatus : JS.Value) :
  let after := fst (Users.handleSuspendUser now st written userId currentStatus) in
  Forall2 (fun user user' =>
             Users.id user' = Users.id user
             /\ Users.firstName user' = Users.firstName user
             /\ Users.email user' = Users.email user
             /\ Users.createdAt user' = Users.createdAt user
             /\ (Users.id user <> userId -> user' = user))
          (Users.users st) (Users.users after)
  /\ Users.totalUsers after = Users.totalUsers st
  /\ Users.actionLoading after = None
  /\ (written = false ->
        Users.users after = Users.users st /\ Users.error after = Users.updateFailed).
Proof.
  cbv zeta. simpl.
  split; [| split; [reflexivity | split; [reflexivity | intros ->; split; reflexivity]]].
  destruct written.
  - induction (Users.users st) as [| user l IH]; simpl; constructor; [| exact IH].
    unfold Users.withStatus.
    destruct (String.eqb_spec (Users.id user) userId) as [E | Hne]; simpl.
    + do 4 (split; [reflexivity |]). intros Hne. contradiction.
    + do 4 (split; [reflexivity |]). reflexivity.
  - induction (Users.users st) as [| user l IH]; constructor; [| exact IH].
    do 4 (split; [reflexivity |]). reflexivity.
Qed.

(** X19. Suspending an account that is not suspended and then reinstating it, as
    the list then shows it: the first update sent marks the account as
    suspended at the clock reading by the administrator, the second clears
    the three fields; in between every account of that name shows as
    suspended; afterwards the accounts of that name show as not suspended
    with both fields null, so a list whose account had these values is back
    where it was. *)
Theorem suspend_then_reinstate (now later : Z) (st : Users.State) (userId : string)
        (currentStatus : JS.Value) :
  JS.truthy currentStatus = false ->
  let suspended := Users.handleSuspendUser now st true userId currentStatus in
  let reinstated :=
    Users.handleSuspendUser later (fst suspended) true userId (JS.Bool true) in
  snd suspended
  = {| Updates.isSuspended := true; Updates.suspendedAt := JS.Str (toISOString now);
       Updates.suspendedBy := JS.Str Users.admin |}
  /\ snd reinstated
     = {| Updates.isSuspended := false; Updates.suspendedAt := JS.Null;
          Updates.suspendedBy := JS.Null |}
  /\ (forall user, In user (Users.users (fst suspended)) -> Users.id user = userId ->
        Users.isSuspended user = JS.Bool true
        /\ Users.suspendedAt user = JS.Str (toISOString now)
        /\ Users.suspendedBy user = JS.Str Users.admin)
  /\ Users.users (fst reinstated)
     = map (Users.withStatus later userId (JS.Bool true)) (Users.users st)
  /\ ((forall user, In user (Users.users st) -> Users.id user = userId ->
         Users.isSuspended user = JS.Bool false
         /\ Users.suspendedAt user = JS.Null /\ Users.suspendedBy user = JS.Null) ->
      Users.users (fst reinstated) = Users.users st).
Proof.
  intros Hs. cbv zeta. simpl.
  assert (Htwice : map (Users.withStatus later userId (JS.Bool true))
                       (map (Users.withStatus now userId currentStatus) (Users.users st))
                   = map (Users.withStatus later userId (JS.Bool true)) (Users.users st)).
  { rewrite map_map. apply map_ext. intros user. unfold Users.withStatus.
    destruct (String.eqb (Users.id user) userId) eqn:E; simpl; rewrite E; reflexivity. }
  split; [unfold Users.updates; now rewrite Hs |].
  split; [reflexivity |].
  split; [| split; [exact Htwice |]].
  - intros user Hin Hid. apply in_map_iff in Hin. destruct Hin as (u & <- & _).
    unfold Users.withStatus in *.
    destruct (String.eqb_spec (Users.id u) userId) as [E | Hne]; [| contradiction].
    simpl. rewrite Hs. simpl. repeat split.
  - intros Hclear. rewrite Htwice.
    rewrite <- (map_id (Users.users st)) at 2. apply map_ext_in.
    intros user Hin. unfold Users.withStatus.
    destruct (String.eqb_spec (Users.id user) userId) as [E | Hne]; [| reflexivity].
    destruct (Hclear user Hin E) as (H1 & H2 & H3). destruct user; simpl in *.
    now subst.
Qed.

End UserStatus.

(** ** The live chart: the buckets *)

Lemma filterOrThrow_Some {A : Type} (keep : A -> option bool) (l kept : list A) :
  filterOrThrow keep l = Some kept ->
  kept = filter (passes keep) l /\ forall x, In x l -> keep x <> None.
Proof.
  revert kept. induction l as [| x l IH]; simpl; intros kept E.
  - injection E as <-. split; [reflexivity | intros x []].
  - unfold passes at 1. destruct (keep x) as [b |] eqn:Ex; [| discriminate].
    destruct (filterOrThrow keep l) as [rest |]; [| discriminate].
    destruct (IH rest eq_refl) as [-> Hall]. injection E as <-.
    split; [now destruct b |].
    intros y [<- | Hy]; [congruence | now apply Hall].
Qed.

Lemma filterOrThrow_None {A : Type} (keep : A -> option bool) (l : list A) :
  filterOrThrow keep l = None <-> exists x, In x l /\ keep x = None.
Proof.
  induction l as [| x l IH]; simpl.
  - split; [discriminate | intros (x & [] & _)].
  - destruct (keep x) as [b |] eqn:Ex.
    + destruct (filterOrThrow keep l) as [rest |].
      * split; [discriminate |]. intros (y & [<- | Hy] & Ey); [congruence |].
        destruct IH as [_ IH]. discriminate IH. now exists y.
      * split; [| reflexivity]. intros _. destruct IH as [IH _].
        destruct (IH eq_refl) as (y & Hy & Ey). exists y. split; [now right | exact Ey].
    + split; [| reflexivity]. intros _. exists x. split; [now left | exact Ex].
Qed.

Lemma sumZ_app (l l' : list Z) : sumZ (l ++ l') = (sumZ l + sumZ l')%Z.
Proof.
  unfold sumZ. induction l as [| x l IH]; simpl; [reflexivity | rewrite IH; lia].
Qed.

Lemma bucket_keys (k : Z) (g : Realtime.Grouped) :
  map fst (Realtime.increment k g)
  = if existsb (Z.eqb k) (map fst g) then map fst g else map fst g ++ [k].
Proof.
  induction g as [| [k' c] g IH]; simpl; [reflexivity |].
  rewrite (Z.eqb_sym k k'). destruct (k' =? k)%Z; simpl; [reflexivity |].
  rewrite IH. now destruct (existsb (Z.eqb k) (map fst g)).
Qed.

Lemma existsb_Zeqb (k : Z) (l : list Z) : existsb (Z.eqb k) l = true <-> In k l.
Proof.
  rewrite existsb_exists. split.
  - intros (x & Hx & E). apply Z.eqb_eq in E. now subst.
  - intros H. exists k. split; [exact H | apply Z.eqb_refl].
Qed.

Lemma bucket_NoDup (k : Z) (g : Realtime.Grouped) :
  NoDup (map fst g) -> NoDup (map fst (Realtime.increment k g)).
Proof.
  intros Hnd. rewrite bucket_keys.
  destruct (existsb (Z.eqb k) (map fst g)) eqn:E; [exact Hnd |].
  apply NoDup_app; [exact Hnd | repeat constructor; intros [] |].
  intros a Ha [<- | []].
  apply existsb_Zeqb in Ha. congruence.
Qed.

Lemma bucket_sum (k : Z) (g : Realtime.Grouped) :
  sumZ (map snd (Realtime.increment k g)) = (sumZ (map snd g) + 1)%Z.
Proof.
  unfold sumZ. induction g as [| [k' c] g IH]; simpl; [reflexivity |].
  destruct (k' =? k)%Z; simpl; [lia | rewrite IH; lia].
Qed.

Lemma bucket_In (k : Z) (g : Realtime.Grouped) (k' c' : Z) :
  NoDup (map fst g) ->
  In (k', c') (Realtime.increment k g) ->
  (k' <> k /\ In (k', c') g)
  \/ (k' = k /\ ((~ In k (map fst g) /\ c' = 1%Z) \/ exists c, In (k, c) g /\ c' = (c + 1)%Z)).
Proof.
  induction g as [| [k0 c0] g IH]; simpl; intros Hnd.
  - intros [[= <- <-] | []]. right. split; [reflexivity |]. left. split; [tauto | reflexivity].
  - inversion Hnd as [| ? ? Hk0 Hg]; subst.
    destruct (Z.eqb_spec k0 k) as [-> | Hne]; simpl.
    + intros [[= <- <-] | Hin].
      * right. split; [reflexivity |]. right. exists c0. split; [now left | reflexivity].
      * left. split; [| now right]. intros ->. apply Hk0.
        apply (in_map fst) in Hin. exact Hin.
    + intros [[= <- <-] | Hin].
      * left. split; [exact Hne | now left].
      * destruct (IH Hg Hin) as [[Hk H] | [-> [[Hno ->] | (c & Hc & ->)]]].
        -- left. split; [exact Hk | now right].
        -- right. split; [reflexivity |]. left. split; [| reflexivity].
           intros [E | H]; [congruence | contradiction].
        -- right. split; [reflexivity |]. right. exists c. split; [now right | reflexivity].
Qed.

Lemma bucket_step (key : JS.Value -> Z) (items : list JS.Value) (g : Realtime.Grouped)
      (item : JS.Value) :
  bucketsOf key items g -> bucketsOf key (items ++ [item]) (Realtime.increment (key item) g).
Proof.
  intros (Hnd & Hsum & Hall & Hg).
  split; [now apply bucket_NoDup |].
  split; [rewrite bucket_sum, Hsum, length_app; simpl; lia |].
  split.
  - intros x Hx. rewrite bucket_keys. apply in_app_or in Hx.
    destruct (existsb (Z.eqb (key item)) (map fst g)) eqn:E.
    + destruct Hx as [Hx | [<- | []]]; [now apply Hall | now apply existsb_Zeqb].
    + apply in_or_app. destruct Hx as [Hx | [<- | []]]; [left; now apply Hall | right; now left].
  - intros k c Hin. rewrite filter_app, length_app. simpl.
    destruct (bucket_In _ _ _ _ Hnd Hin) as [[Hk Hold] | [-> [[Hno ->] | (c0 & Hc & ->)]]].
    + destruct (Hg k c Hold) as (-> & x & Hx & Ex).
      split.
      * destruct (Z.eqb_spec (key item) k); [congruence | simpl; lia].
      * exists x. split; [apply in_or_app; now left | exact Ex].
    + rewrite Z.eqb_refl. simpl. split.
      * assert (E : filter (fun x => (key x =? key item)%Z) items = []); [| now rewrite E].
        destruct (filter (fun x => (key x =? key item)%Z) items) as [| x l] eqn:E;
          [reflexivity |].
        assert (Hx : In x (filter (fun x => (key x =? key item)%Z) items))
          by (rewrite E; now left).
        apply filter_In in Hx. destruct Hx as [Hx Ex]. apply Z.eqb_eq in Ex.
        exfalso. apply Hno. rewrite <- Ex. now apply Hall.
      * exists item. split; [apply in_or_app; right; now left | reflexivity].
    + rewrite Z.eqb_refl. simpl. destruct (Hg _ c0 Hc) as (-> & x & Hx & Ex).
      split; [lia |]. exists item. split; [apply in_or_app; right; now left | reflexivity].
Qed.

Lemma bucket_loop (key : JS.Value -> Z) (rest items : list JS.Value) (g : Realtime.Grouped) :
  bucketsOf key items g ->
  bucketsOf key (items ++ rest)
            (fold_left (fun g item => Realtime.increment (key item) g) rest g).
Proof.
  revert items g. induction rest as [| item rest IH]; intros items g Hb; simpl.
  - now rewrite app_nil_r.
  - replace (items ++ item :: rest) with ((items ++ [item]) ++ rest)
      by now rewrite <- app_assoc.
    apply IH. now apply bucket_step.
Qed.

Lemma filter_split_perm {A : Type} (f : A -> bool) (l : list A) :
  Permutation (filter f l ++ filter (fun x => negb (f x)) l) l.
Proof.
  induction l as [| x l IH]; simpl; [constructor |].
  destruct (f x); simpl.
  - now constructor.
  - eapply perm_trans; [apply Permutation_sym, Permutation_middle | now constructor].
Qed.

Lemma entries_perm (g : Realtime.Grouped) : Permutation (Realtime.entries g) g.
Proof.
  unfold Realtime.entries.
  eapply perm_trans; [| apply (filter_split_perm (fun e => Realtime.isIndex (fst e)))].
  apply Permutation_app_tail. apply Permutation_sym. apply sortBy_perm.
Qed.

Lemma ascending_times (l : list Z) :
  NoDup l -> Sorted (fun a b => (a - b <= 0)%Z) l -> Sorted Z.lt l.
Proof.
  induction l as [| a l IH]; intros Hnd Hs; [constructor |].
  inversion Hnd as [| ? ? Ha Hl]; subst. inversion Hs as [| ? ? Hs' Hhd]; subst.
  constructor; [now apply IH |].
  destruct l as [| b l]; constructor.
  inversion Hhd as [| ? ? Hab]; subst.
  assert (a <> b) by (intros ->; apply Ha; now left). lia.
Qed.

Lemma Sorted_map {A B : Type} (f : A -> B) (R : B -> B -> Prop) (l : list A) :
  Sorted (fun a b => R (f a) (f b)) l -> Sorted R (map f l).
Proof.
  induction l as [| a l IH]; intros Hs; simpl; [constructor |].
  inversion Hs as [| ? ? Hs' Hhd]; subst.
  constructor; [now apply IH |].
  destruct l as [| b l]; simpl; constructor. now inversion Hhd.
Qed.

Lemma interval_start (t k i : Z) :
  (0 < i)%Z -> (k mod i = 0)%Z ->
  (t / i * i =? k)%Z = ((k <=? t) && (t <? k + i))%Z.
Proof.
  intros Hi Hk.
  assert (Ek : (k = i * (k / i))%Z) by (apply Z.div_exact; lia).
  assert (Et := Z.div_mod t i ltac:(lia)).
  assert (Hm := Z.mod_pos_bound t i Hi).
  destruct (Z.eqb_spec (t / i * i) k) as [E | Hne];
    destruct (Z.leb_spec k t); destruct (Z.ltb_spec t (k + i)); simpl; try reflexivity;
    try nia.
  exfalso. apply Hne.
  assert (k / i = t / i)%Z; [| nia].
  apply Z.div_unique with (r := (t - i * (k / i))%Z); lia.
Qed.

Lemma intervalMs_positive (timeWindow : string) : (0 < Realtime.intervalMs timeWindow)%Z.
Proof.
  unfold Realtime.intervalMs. destruct (String.eqb timeWindow "7d"); lia.
Qed.

Section LiveChart.
Context {D : DateLib} {H : HostLib}.
Variable now : Z.

Lemma kept_has_time (timeWindow crimeTypeFilter : string) (item : JS.Value) :
  passes (Realtime.keeps now timeWindow crimeTypeFilter) item = true ->
  exists t cutoff,
    Realtime.itemTime item = Some t
    /\ Realtime.cutoffTime now timeWindow = Some cutoff /\ (cutoff <= t)%Z.
Proof.
  unfold passes, Realtime.keeps, Realtime.timeMatch.
  destruct (Realtime.crimeTypeMatch crimeTypeFilter item) as [m |]; simpl; [| discriminate].
  destruct (Realtime.itemTime item) as [t |]; simpl; [| discriminate].
  destruct (Realtime.cutoffTime now timeWindow) as [cutoff |]; simpl; [| discriminate].
  destruct (Z.leb_spec cutoff t); simpl; [| discriminate].
  intros _. now exists t, cutoff.
Qed.

(** X20. The chart of the live data: its points stand at distinct interval
    starts in ascending order, each a multiple of the interval; a point
    counts the kept items whose date falls into its interval, at least one;
    the counts add up to the number of kept items; no point lies more than
    one interval before the cutoff.  A time window the table does not know
    gives an empty chart. *)
Theorem realtime_buckets (data : list JS.Value) (timeWindow crimeTypeFilter : string)
        (chartData : list Realtime.Point) :
  Realtime.processRealtimeData now data timeWindow crimeTypeFilter = Some chartData ->
  let kept := filter (passes (Realtime.keeps now timeWindow crimeTypeFilter)) data in
  let interval := Realtime.intervalMs timeWindow in
  Sorted Z.lt (map Realtime.time chartData)
  /\ sumZ (map Realtime.value chartData) = Z.of_nat (length kept)
  /\ (forall point, In point chartData ->
        (Realtime.time point mod interval = 0)%Z
        /\ (1 <= Realtime.value point)%Z
        /\ Realtime.value point
           = Z.of_nat (length (filter (within (Realtime.time point) interval) kept))
        /\ Realtime.label point = toLocaleTimeString (Realtime.time point)
        /\ forall cutoff, Realtime.cutoffTime now timeWindow = Some cutoff ->
                          (cutoff - interval < Realtime.time point)%Z)
  /\ (Realtime.timeWindowMs timeWindow = None -> chartData = []).
Proof.
  unfold Realtime.processRealtimeData.
  destruct (filterOrThrow (Realtime.keeps now timeWindow crimeTypeFilter) data)
    as [filteredData |] eqn:Ef; [| discriminate].
  intros [= <-]. cbv zeta.
  destruct (filterOrThrow_Some _ _ _ Ef) as [Ek _]. rewrite <- Ek.
  assert (Hkept : forall item, In item filteredData ->
            passes (Realtime.keeps now timeWindow crimeTypeFilter) item = true).
  { intros item Hin. rewrite Ek in Hin. now apply filter_In in Hin. }
  clear Ek Ef.
  assert (Hi := intervalMs_positive timeWindow).
  set (interval := Realtime.intervalMs timeWindow) in *.
  set (g := Realtime.groupedData timeWindow filteredData).
  assert (Hb : bucketsOf (Realtime.intervalKey timeWindow) filteredData g).
  { apply (bucket_loop (Realtime.intervalKey timeWindow) filteredData [] []).
    split; [constructor | split; [reflexivity | split; [intros x [] | intros k c []]]]. }
  destruct Hb as (Hnd & Hsum & Hall & Hg).
  set (chart := sortBy (fun a b => (Realtime.time a - Realtime.time b)%Z)
                       (map Realtime.toPoint (Realtime.entries g))).
  assert (Hperm : Permutation (map Realtime.toPoint g) chart).
  { eapply perm_trans; [| apply sortBy_perm].
    apply Permutation_map, Permutation_sym, entries_perm. }
  assert (Htimes : map Realtime.time (map Realtime.toPoint g) = map fst g)
    by (rewrite map_map; reflexivity).
  assert (Hvalues : map Realtime.value (map Realtime.toPoint g) = map snd g)
    by (rewrite map_map; reflexivity).
  split; [| split; [| split]].
  - apply ascending_times.
    + apply (Permutation_NoDup (l := map fst g)); [| exact Hnd].
      rewrite <- Htimes. now apply Permutation_map.
    + apply Sorted_map with (R := fun a b => (a - b <= 0)%Z).
      apply (sortBy_ordered (fun a b => (Realtime.time a - Realtime.time b)%Z)).
      intros a b E. apply Z.leb_gt in E. lia.
  - rewrite <- Hsum, <- Hvalues. apply sumZ_perm. apply Permutation_map.
    now apply Permutation_sym.
  - intros point Hin. apply (Permutation_in _ (Permutation_sym Hperm)) in Hin.
    apply in_map_iff in Hin. destruct Hin as ([k c] & <- & Hin). simpl.
    destruct (Hg k c Hin) as (Ec & item & Hitem & Ekey).
    destruct (kept_has_time _ _ _ (Hkept item Hitem)) as (t & cutoff & Et & Ecut & Hle).
    assert (Hmod : (k mod interval = 0)%Z).
    { rewrite <- Ekey. unfold Realtime.intervalKey. rewrite Et. apply Z.mod_mul. lia. }
    assert (Hsame : filter (fun x => (Realtime.intervalKey timeWindow x =? k)%Z) filteredData
                    = filter (within k interval) filteredData).
    { apply filter_ext_in. intros x Hx.
      destruct (kept_has_time _ _ _ (Hkept x Hx)) as (tx & _ & Etx & _).
      unfold Realtime.intervalKey, within. rewrite Etx.
      now apply interval_start. }
    split; [exact Hmod |]. split; [| split; [now rewrite <- Hsame | split; [reflexivity |]]].
    + rewrite Ec.
      assert (Hx : In item (filter (fun x => (Realtime.intervalKey timeWindow x =? k)%Z)
                                   filteredData))
        by (apply filter_In; split; [exact Hitem | now apply Z.eqb_eq]).
      destruct (filter (fun x => (Realtime.intervalKey timeWindow x =? k)%Z) filteredData);
        [destruct Hx | simpl; lia].
    + intros cutoff' Ecut'. rewrite Ecut in Ecut'. injection Ecut' as <-.
      rewrite <- Ekey. unfold Realtime.intervalKey. rewrite Et. fold interval.
      assert (Hd := Z.div_mod t interval ltac:(lia)).
      assert (Hm := Z.mod_pos_bound t interval Hi).
      rewrite (Z.mul_comm (t / interval) interval). lia.
  - intros Hnone.
    assert (E : filteredData = []).
    { destruct filteredData as [| item rest]; [reflexivity |].
      destruct (kept_has_time _ _ _ (Hkept item (or_introl eq_refl))) as (t & c & _ & Ec & _).
      unfold Realtime.cutoffTime in Ec. rewrite Hnone in Ec. discriminate. }
    subst chart g. rewrite E. reflexivity.
Qed.

(** X21. The call ends with a type error exactly when a crime type is selected
    and some item carries a crime type that is truthy but not a string; the
    dates play no part in this. *)
Theorem realtime_type_error (data : list JS.Value) (timeWindow crimeTypeFilter : string) :
  Realtime.processRealtimeData now data timeWindow crimeTypeFilter = None
  <-> crimeTypeFilter <> EmptyString
      /\ exists item, In item data
                      /\ JS.truthy (JS.get item "crimeType") = true
                      /\ forall s, JS.get item "crimeType" <> JS.Str s.
Proof.
  unfold Realtime.processRealtimeData.
  assert (Hone : forall item,
            Realtime.keeps now timeWindow crimeTypeFilter item = None
            <-> crimeTypeFilter <> EmptyString
                /\ JS.truthy (JS.get item "crimeType") = true
                /\ forall s, JS.get item "crimeType" <> JS.Str s).
  { intros item. unfold Realtime.keeps, Realtime.crimeTypeMatch.
    destruct (String.eqb_spec crimeTypeFilter EmptyString) as [-> | Hne]; simpl.
    - split; [discriminate | intros [Hf _]; now elim Hf].
    - destruct (JS.truthy (JS.get item "crimeType")) eqn:Et.
      + destruct (JS.get item "crimeType") eqn:Ev; simpl;
          try (split; [intros _; split; [exact Hne | split; [reflexivity | discriminate]]
                      | reflexivity]).
        split; [discriminate |]. intros (_ & _ & Hs). now elim (Hs s).
      + simpl. split; [discriminate | intros (_ & Hf & _); discriminate]. }
  destruct (filterOrThrow (Realtime.keeps now timeWindow crimeTypeFilter) data) eqn:Ef.
  - split; [discriminate |]. intros (Hne & item & Hin & Ht & Hs).
    destruct (filterOrThrow_Some _ _ _ Ef) as [_ Hall].
    exfalso. apply (Hall item Hin). apply Hone. tauto.
  - split; [| reflexivity]. intros _.
    apply filterOrThrow_None in Ef. destruct Ef as (item & Hin & Ei).
    apply Hone in Ei. destruct Ei as (Hne & Ht & Hs).
    split; [exact Hne |]. exists item. tauto.
Qed.

End LiveChart.

(** ** The live chart: the statistics *)













(** ** The reports behind the heat map *)

Lemma get_of_truthy (v : JS.Value) (k : string) :
  JS.truthy (JS.get v k) = true -> JS.truthy v = true.
Proof.
  destruct v; simpl; try discriminate. reflexivity.
Qed.

Lemma or_of_truthy (a b : JS.Value) : JS.truthy a = true -> a ||| b = a.
Proof.
  intros E. unfold JS.or. now rewrite E.
Qed.

Lemma toReport_location (key : string) (data : JS.Value) :
  JS.get (Reports.toReport (key, data)) "location"
  = JS.get data "location"
    ||| JS.Obj [("latitude", JS.get data "latitude" ||| JS.get data "lat");
                ("longitude", JS.get data "longitude" ||| JS.get data "lng");
                ("address", JS.get data "address" ||| JS.get data "location_address"
                            ||| JS.Str "Unknown location")]%string.
Proof.
  reflexivity.
Qed.

Lemma filter_skip {A : Type} (f : A -> bool) (l : list A) (x : A) (l' : list A) :
  f x = false -> filter f (l ++ x :: l') = filter f (l ++ l').
Proof.
  intros E. rewrite !filter_app. simpl. now rewrite E.
Qed.

Section HeatmapFeed.
Context {N : NumberLib} {D : DateLib} {H : HostLib}.
Variable now : Z.

Lemma positioned_coordinates (report : JS.Value) :
  Reports.hasPosition report = true ->
  Heatmap.coordinates report
  = (JS.parseFloat (JS.get (JS.get report "location") "latitude"),
     JS.parseFloat (JS.get (JS.get report "location") "longitude")).
Proof.
  unfold Reports.hasPosition, Heatmap.coordinates. intros Hp.
  apply andb_prop in Hp. destruct Hp as [Hlat Hlng].
  rewrite (get_of_truthy _ _ Hlat).
  now rewrite (or_of_truthy _ _ Hlat), (or_of_truthy _ _ Hlng).
Qed.

Lemma filtered_positioned (reports : list JS.Value)
      (selectedCrimeTypeHeatmap timeRange : string) (filtered : list JS.Value) :
  Reports.getFilteredReports now reports selectedCrimeTypeHeatmap timeRange = Some filtered ->
  forall report, In report filtered ->
                 In report reports /\ Reports.hasPosition report = true.
Proof.
  unfold Reports.getFilteredReports. intros E report Hin.
  apply (proj1 (filter_In Reports.hasPosition report reports)).
  destruct (negb (String.eqb selectedCrimeTypeHeatmap EmptyString)).
  - destruct (filterOrThrow _ _) as [byType |] eqn:Ef; [| discriminate].
    apply filterOrThrow_Some in Ef. destruct Ef as [-> _]. injection E as <-.
    destruct (negb (String.eqb timeRange "all")).
    + apply filter_In in Hin. destruct Hin as [Hin _].
      apply filter_In in Hin. tauto.
    + apply filter_In in Hin. tauto.
  - injection E as <-. destruct (negb (String.eqb timeRange "all")).
    + apply filter_In in Hin. tauto.
    + exact Hin.
Qed.

(** X24. Whatever the filters, a report reaches the heat map only with a truthy
    [location.latitude] and [location.longitude], and the map then reads its
    position from these two alone: every heat point stands at the parsed
    [location.latitude] and [location.longitude] of one of the reports.
    Without a crime type and with the range [all], the filter keeps exactly
    the reports that have such a position. *)
Theorem heat_map_reads_location (reports : list JS.Value)
        (selectedCrimeTypeHeatmap timeRange : string) (intensity : Q)
        (filtered : list JS.Value) :
  Reports.getFilteredReports now reports selectedCrimeTypeHeatmap timeRange = Some filtered ->
  (forall report, In report filtered ->
     In report reports
     /\ Reports.hasPosition report = true
     /\ Heatmap.coordinates report
        = (JS.parseFloat (JS.get (JS.get report "location") "latitude"),
           JS.parseFloat (JS.get (JS.get report "location") "longitude")))
  /\ Reports.heatmapPoints now reports selectedCrimeTypeHeatmap timeRange intensity
     = Some (Heatmap.createHeatmapData intensity filtered)
  /\ (forall lat lng weight,
        In (lat, lng, weight) (Heatmap.createHeatmapData intensity filtered) ->
        exists report,
          In report reports
          /\ JS.parseFloat (JS.get (JS.get report "location") "latitude") = Some lat
          /\ JS.parseFloat (JS.get (JS.get report "location") "longitude") = Some lng)
  /\ (selectedCrimeTypeHeatmap = EmptyString -> timeRange = "all"%string ->
      filtered = filter Reports.hasPosition reports).
Proof.
  intros E. assert (Hpos := filtered_positioned _ _ _ _ E).
  split; [| split; [| split]].
  - intros report Hin. destruct (Hpos report Hin) as [H1 H2].
    split; [exact H1 |]. split; [exact H2 | now apply positioned_coordinates].
  - unfold Reports.heatmapPoints. now rewrite E.
  - intros lat lng weight Hin. unfold Heatmap.createHeatmapData in Hin.
    apply in_map_iff in Hin. destruct Hin as ([k g] & Ep & Hin).
    unfold Heatmap.heatPoint in Ep. simpl in Ep. injection Ep as <- <- _.
    destruct (locationGroups_hold filtered) as [(_ & _ & Hg) _].
    destruct (Hg k g Hin) as (_ & _ & (first & Hfirst & Ec) & _).
    destruct (Hpos first Hfirst) as [H1 H2].
    rewrite (positioned_coordinates first H2) in Ec. injection Ec as E1 E2.
    exists first. tauto.
  - intros -> ->. unfold Reports.getFilteredReports in E. simpl in E. now injection E.
Qed.

(** X25. A stored record that has a location whose [latitude] or [longitude] is
    missing (a location given as [lat]/[lng], say) never reaches the heat
    map: the points are those of the store without the record, whatever the
    filters and the intensity, although the aggregation itself would read
    [location.lat] and [location.lng]. *)
Theorem lat_lng_location_never_mapped (before after : list (string * JS.Value))
        (key : string) (data : JS.Value)
        (selectedCrimeTypeHeatmap timeRange : string) (intensity : Q) :
  JS.truthy (JS.get data "location") = true ->
  JS.truthy (JS.get (JS.get data "location") "latitude")
  && JS.truthy (JS.get (JS.get data "location") "longitude") = false ->
  Reports.heatmapPoints now (Reports.reportsArray (before ++ (key, data) :: after))
                        selectedCrimeTypeHeatmap timeRange intensity
  = Reports.heatmapPoints now (Reports.reportsArray (before ++ after))
                          selectedCrimeTypeHeatmap timeRange intensity.
Proof.
  intros Hloc Hmiss.
  assert (Hno : Reports.hasPosition (Reports.toReport (key, data)) = false).
  { unfold Reports.hasPosition. rewrite toReport_location.
    now rewrite (or_of_truthy _ _ Hloc). }
  unfold Reports.heatmapPoints, Reports.getFilteredReports, Reports.reportsArray.
  rewrite !map_app, map_cons.
  now rewrite (filter_skip Reports.hasPosition _ _ _ Hno).
Qed.

(** X26. A stored record without a location is given one from its own
    [latitude]/[lat] and [longitude]/[lng]; when both are there it passes
    the position filter and the heat map reads these very values. *)
Theorem flat_record_position (key : string) (data : JS.Value) :
  JS.truthy (JS.get data "location") = false ->
  JS.truthy (JS.get data "latitude" ||| JS.get data "lat") = true ->
  JS.truthy (JS.get data "longitude" ||| JS.get data "lng") = true ->
  Reports.hasPosition (Reports.toReport (key, data)) = true
  /\ Heatmap.coordinates (Reports.toReport (key, data))
     = (JS.parseFloat (JS.get data "latitude" ||| JS.get data "lat"),
        JS.parseFloat (JS.get data "longitude" ||| JS.get data "lng"))
  /\ JS.get (JS.get (Reports.toReport (key, data)) "location") "address"
     = JS.get data "address" ||| JS.get data "location_address"
       ||| JS.Str "Unknown location".
Proof.
  intros Hloc Hlat Hlng.
  assert (Hp : Reports.hasPosition (Reports.toReport (key, data)) = true).
  { unfold Reports.hasPosition. rewrite toReport_location, (or_falsy _ _ Hloc).
    simpl. now rewrite Hlat, Hlng. }
  split; [exact Hp |]. split.
  - rewrite (positioned_coordinates _ Hp), toReport_location, (or_falsy _ _ Hloc).
    reflexivity.
  - rewrite toReport_location, (or_falsy _ _ Hloc). reflexivity.
Qed.

End HeatmapFeed.

(** ** Notifications read per user *)

Lemma ofNat_inj (i j : nat) : ofNat i == ofNat j -> i = j.
Proof.
  unfold ofNat, Qeq. cbn [Qnum Qden inject_Z]. lia.
Qed.

(** X27. One entry per user of the snapshot, in its order; a user's number
    of read notifications never exceeds the total, the engagement rate lies
    between 0 and 100, it is 100 exactly when there are notifications and all
    are read, and 0 exactly when none is read.  Without a snapshot, or when
    the read fails, the state stays as it was. *)
Theorem engagement_rate_range (userEngagement : list Engagement.Entry)
        (notificationsData : list (string * JS.Value)) :
  let result :=
    Engagement.fetchUserEngagement userEngagement (Some (Some notificationsData)) in
  map Engagement.userId result = map fst notificationsData
  /\ (forall entry, In entry result ->
        (Engagement.readNotifications entry <= Engagement.totalNotifications entry)%nat
        /\ 0 <= Engagement.engagementRate entry
        /\ Engagement.engagementRate entry <= 100
        /\ (Engagement.engagementRate entry == 100
            <-> (0 < Engagement.totalNotifications entry)%nat
                /\ Engagement.readNotifications entry = Engagement.totalNotifications entry)
        /\ (Engagement.engagementRate entry == 0
            <-> Engagement.readNotifications entry = 0%nat))
  /\ Engagement.fetchUserEngagement userEngagement (Some None) = userEngagement
  /\ Engagement.fetchUserEngagement userEngagement None = userEngagement.
Proof.
  cbv zeta. simpl. split; [| split; [| split; reflexivity]].
  - rewrite map_map. apply map_ext. now intros [k v].
  - intros entry Hin. apply in_map_iff in Hin. destruct Hin as ([k v] & <- & _).
    unfold Engagement.toEntry.
    cbn [Engagement.readNotifications Engagement.totalNotifications
         Engagement.engagementRate].
    set (all := Engagement.values v).
    set (read := filter (fun n => JS.truthy (JS.get n "isRead")) all).
    assert (Hle : (length read <= length all)%nat) by apply filter_length_le.
    split; [exact Hle |].
    destruct (Nat.ltb_spec 0 (length all)) as [Hpos | Hzero].
    + assert (HT : 0 < ofNat (length all)).
      { unfold ofNat. change 0 with (inject_Z 0). rewrite <- Zlt_Qlt. lia. }
      assert (HR := ofNat_nonneg (length read)).
      assert (HRT := ofNat_le _ _ Hle).
      destruct (Qdiv_unit_interval _ _ HR HRT HT) as [H0 H1].
      assert (Eq : ofNat (length read)
                   == ofNat (length read) / ofNat (length all) * ofNat (length all))
        by (field; lra).
      set (R := ofNat (length read)) in *. set (T := ofNat (length all)) in *.
      split; [lra |]. split; [lra |]. split.
      * split.
        -- intros E. split; [exact Hpos |]. apply ofNat_inj. fold R T.
           assert (E1 : R / T == 1) by lra. rewrite Eq, E1. ring.
        -- intros [_ E]. unfold R, T. rewrite E. fold T. field. lra.
      * split.
        -- intros E. apply ofNat_inj. fold R.
           assert (E0 : R / T == 0) by lra. rewrite Eq, E0. unfold ofNat. simpl. ring.
        -- intros E. unfold R. rewrite E. unfold ofNat. simpl. field. lra.
    + assert (Ea : length all = 0%nat) by lia.
      assert (Er : length read = 0%nat) by lia.
      split; [discriminate |]. split; [discriminate |]. split.
      * split; [discriminate | intros [Hpos _]; lia].
      * split; [intros _; exact Er | reflexivity].
Qed.

(** ** The live chart: from the store to the chart *)

Section LiveFetch.
Context {N : NumberLib} {D : DateLib} {H : HostLib}.
Variable now : Z.

Lemma chart_buckets (data : list JS.Value) (timeWindow crimeTypeFilter : string)
      (chartData : list Realtime.Point) :
  Realtime.processRealtimeData now data timeWindow crimeTypeFilter = Some chartData ->
  exists g,
    bucketsOf (Realtime.intervalKey timeWindow)
              (filter (passes (Realtime.keeps now timeWindow crimeTypeFilter)) data) g
    /\ Permutation (map Realtime.toPoint g) chartData.
Proof.
  unfold Realtime.processRealtimeData.
  destruct (filterOrThrow (Realtime.keeps now timeWindow crimeTypeFilter) data)
    as [filteredData |] eqn:Ef; [| discriminate].
  intros [= <-]. destruct (filterOrThrow_Some _ _ _ Ef) as [<- _].
  exists (Realtime.groupedData timeWindow filteredData). split.
  - apply (bucket_loop (Realtime.intervalKey timeWindow) filteredData [] []).
    split; [constructor | split; [reflexivity | split; [intros x [] | intros k c []]]].
  - eapply perm_trans; [| apply sortBy_perm].
    apply Permutation_map, Permutation_sym, entries_perm.
Qed.

Lemma no_filter_no_error (data : list JS.Value) (timeWindow : string) :
  exists chartData,
    Realtime.processRealtimeData now data timeWindow EmptyString = Some chartData.
Proof.
  unfold Realtime.processRealtimeData.
  destruct (filterOrThrow (Realtime.keeps now timeWindow EmptyString) data) eqn:Ef;
    [eexists; reflexivity |].
  apply filterOrThrow_None in Ef. destruct Ef as (item & _ & E).
  unfold Realtime.keeps, Realtime.crimeTypeMatch in E. simpl in E. discriminate.
Qed.

Lemma keeps_without_filter (timeWindow : string) (item : JS.Value) :
  passes (Realtime.keeps now timeWindow EmptyString) item
  = Realtime.timeMatch now timeWindow item.
Proof.
  unfold passes, Realtime.keeps, Realtime.crimeTypeMatch. simpl.
  now destruct (Realtime.timeMatch now timeWindow item).
Qed.

Lemma lookup_spread (k : string) (fields : list (string * JS.Value)) (key : string) :
  k <> "id"%string ->
  JS.lookup k (fields ++ [("id"%string, JS.Str key)]) = JS.lookup k fields.
Proof.
  intros Hk. induction fields as [| [k' v] fields IH]; cbn [app JS.lookup].
  - destruct (String.eqb_spec "id" k); [congruence | reflexivity].
  - now rewrite IH.
Qed.

Lemma toItem_reads (key : string) (data : JS.Value) (k : string) :
  k <> "id"%string -> k <> "timestamp"%string -> k <> "crimeType"%string ->
  JS.get (Realtime.toItem now (key, data)) k = JS.get (reportData data) k.
Proof.
  intros H1 H2 H3. unfold Realtime.toItem. fold (reportData data). cbn [JS.get JS.lookup].
  destruct (String.eqb_spec "timestamp" k); [congruence |].
  destruct (String.eqb_spec "crimeType" k); [congruence |].
  rewrite lookup_spread by exact H1. now destruct (reportData data).
Qed.

Lemma toItem_timestamp (key : string) (data : JS.Value) :
  JS.get (Realtime.toItem now (key, data)) "timestamp"
  = JS.get (reportData data) "dateTime" ||| JS.get (reportData data) "createdAt"
    ||| JS.get (reportData data) "timestamp" ||| JS.Str (toISOString now).
Proof.
  unfold Realtime.toItem. fold (reportData data). reflexivity.
Qed.

(** X28. A stored record is read from the report nested under its own
    [reportId], where there is one, else from the record itself.  When that
    report has none of [dateTime], [createdAt] and [timestamp], the record
    is drawn as happening now: with a known time window and no crime type
    selected, the chart that the call leaves in the state has a point, of
    value at least 1, at the start of the interval that holds the clock
    reading. *)
Theorem undated_record_on_live_chart (st : Realtime.State)
        (rawData : list (string * JS.Value)) (key : string) (data : JS.Value)
        (timeWindow : string) (window : Z) :
  In (key, data) rawData ->
  unresolved (reportData data) ["dateTime"; "createdAt"; "timestamp"]%string ->
  Date_parse (toISOString now) = Some now ->
  Realtime.timeWindowMs timeWindow = Some window ->
  exists point,
    In point (Realtime.realtimeChartData
                (Realtime.fetchRealtimeChartData now st (Some (Some rawData))
                                                 timeWindow EmptyString))
    /\ Realtime.time point
       = (now / Realtime.intervalMs timeWindow * Realtime.intervalMs timeWindow)%Z
    /\ (1 <= Realtime.value point)%Z.
Proof.
  intros Hin Hun Hparse Hwin.
  assert (Hpos : (0 < window)%Z).
  { unfold Realtime.timeWindowMs in Hwin.
    repeat match type of Hwin with
           | (if ?b then _ else _) = _ => destruct b
           end; inversion Hwin; lia. }
  set (item := Realtime.toItem now (key, data)).
  assert (Etime : Realtime.itemTime item = Some now).
  { unfold Realtime.itemTime, item.
    rewrite (toItem_reads key data "dateTime") by discriminate.
    rewrite (toItem_reads key data "createdAt") by discriminate.
    rewrite (toItem_timestamp key data).
    repeat first
      [ rewrite (or_falsy (JS.get (reportData data) "dateTime")) by (apply Hun; simpl; tauto)
      | rewrite (or_falsy (JS.get (reportData data) "createdAt")) by (apply Hun; simpl; tauto)
      | rewrite (or_falsy (JS.get (reportData data) "timestamp")) by (apply Hun; simpl; tauto) ].
    exact Hparse. }
  assert (Hkeep : passes (Realtime.keeps now timeWindow EmptyString) item = true).
  { rewrite keeps_without_filter. unfold Realtime.timeMatch, Realtime.cutoffTime.
    rewrite Etime, Hwin. simpl. apply Z.leb_le. lia. }
  unfold Realtime.fetchRealtimeChartData.
  destruct (no_filter_no_error (map (Realtime.toItem now) rawData) timeWindow)
    as (chartData & Echart).
  rewrite Echart. cbn [Realtime.realtimeChartData].
  destruct (chart_buckets _ _ _ _ Echart) as (g & (Hnd & Hsum & Hall & Hg) & Hperm).
  assert (Hitem : In item (filter (passes (Realtime.keeps now timeWindow EmptyString))
                                  (map (Realtime.toItem now) rawData))).
  { apply filter_In. split; [| exact Hkeep].
    apply in_map_iff. exists (key, data). split; [reflexivity | exact Hin]. }
  specialize (Hall item Hitem). apply in_map_iff in Hall.
  destruct Hall as ([k c] & Ek & Hkc). simpl in Ek. subst k.
  exists (Realtime.toPoint (Realtime.intervalKey timeWindow item, c)).
  split; [apply (Permutation_in _ Hperm), in_map, Hkc |].
  split.
  - simpl. unfold Realtime.intervalKey. now rewrite Etime.
  - simpl. destruct (Hg _ c Hkc) as (-> & _).
    set (same := filter (fun x => (Realtime.intervalKey timeWindow x
                                   =? Realtime.intervalKey timeWindow item)%Z)
                        (filter (passes (Realtime.keeps now timeWindow EmptyString))
                                (map (Realtime.toItem now) rawData))).
    assert (Hx : In item same)
      by (apply filter_In; split; [exact Hitem | apply Z.eqb_refl]).
    destruct same; [destruct Hx | simpl; lia].
Qed.

(** X29. Without a crime type selected the call never fails on the data:
    the state then holds the chart and the statistics of that very chart,
    and the counts of the chart add up to the number of stored records dated
    (or, lacking a date, clocked) inside the time window.  Where nothing is
    stored the chart is empty and the statistics are zero; a failed read
    leaves the state as it was. *)
Theorem live_chart_without_filter (st : Realtime.State)
        (rawData : list (string * JS.Value)) (timeWindow : string) :
  let after :=
    Realtime.fetchRealtimeChartData now st (Some (Some rawData)) timeWindow EmptyString in
  Realtime.chartStats after = Realtime.calculateChartStats (Realtime.realtimeChartData after)
  /\ sumZ (map Realtime.value (Realtime.realtimeChartData after))
     = Z.of_nat (length (filter (fun entry =>
                                   Realtime.timeMatch now timeWindow
                                                      (Realtime.toItem now entry))
                                rawData))
  /\ Realtime.fetchRealtimeChartData now st (Some None) timeWindow EmptyString
     = {| Realtime.realtimeChartData := []; Realtime.chartStats := Realtime.noStats |}
  /\ Realtime.fetchRealtimeChartData now st None timeWindow EmptyString = st.
Proof.
  cbv zeta. unfold Realtime.fetchRealtimeChartData.
  destruct (no_filter_no_error (map (Realtime.toItem now) rawData) timeWindow)
    as (chartData & Echart).
  rewrite Echart. cbn [Realtime.realtimeChartData Realtime.chartStats].
  split; [reflexivity |]. split; [| split; reflexivity].
  destruct (chart_buckets _ _ _ _ Echart) as (g & (_ & Hsum & _) & Hperm).
  rewrite <- (sumZ_perm _ _ (Permutation_map Realtime.value Hperm)).
  rewrite map_map. simpl. change (map (fun x => snd x) g) with (map snd g).
  rewrite Hsum. f_equal.
  rewrite (filter_ext _ _ (keeps_without_filter timeWindow)).
  clear. induction rawData as [| entry rest IH]; simpl; [reflexivity |].
  destruct (Realtime.timeMatch now timeWindow (Realtime.toItem now entry)); simpl; now rewrite IH.
Qed.

End LiveFetch.

(** ** The further properties at concrete inputs *)

Lemma band_does_not_widen_witness :
  let y := [3; 5; 4; 8; 6] in
  let up := Math.round ((196 # 100) * @Math_sqrt Reference.math (Trend.variance y)) in
  let down := Math.round (- ((196 # 100) * @Math_sqrt Reference.math (Trend.variance y))) in
  (up = 3%Z /\ down = (-3)%Z
   /\ exists fit,
        @Trend.generateForecast Reference.math y 3 = Trend.Fitted fit
        /\ Trend.forecast fit = [8; 9; 10]%Z
        /\ Trend.confidenceUpper fit = [11; 12; 13]%Z
        /\ Trend.confidenceLower fit = [5; 6; 7]%Z)
  /\ exists fit,
       @Trend.generateForecast Reference.math y 3 = Trend.Fitted fit
       /\ length (Trend.forecast fit) = 3%nat
       /\ length (Trend.confidenceUpper fit) = 3%nat
       /\ length (Trend.confidenceLower fit) = 3%nat
       /\ (0 <= up)%Z /\ (- up <= down <= 1 - up)%Z /\ (down <= 0)%Z
       /\ forall i, (i < 3)%nat ->
            nth i (Trend.confidenceUpper fit) 0%Z = (nth i (Trend.forecast fit) 0 + up)%Z
            /\ nth i (Trend.confidenceLower fit) 0%Z
               = Z.max 0 (nth i (Trend.forecast fit) 0 + down)%Z.
Proof.
  cbv zeta. split.
  - split; [vm_compute; reflexivity |]. split; [vm_compute; reflexivity |].
    eexists. split; [reflexivity |]. split; [vm_compute; reflexivity |].
    split; vm_compute; reflexivity.
  - apply (@band_does_not_widen Reference.math [3; 5; 4; 8; 6] 3).
    + simpl; lia.
    + intros v _. apply reference_sqrt_nonneg.
Defined.

Lemma forecast_follows_trend_witness :
  exists fit,
    @Trend.generateForecast Reference.math [4; 0; 7; 2] 2 = Trend.Fitted fit
    /\ (0 <= Trend.trend fit ->
        forall i j, (i <= j < 2)%nat ->
                    (nth i (Trend.forecast fit) 0 <= nth j (Trend.forecast fit) 0)%Z)
    /\ (Trend.trend fit <= 0 ->
        forall i j, (i <= j < 2)%nat ->
                    (nth j (Trend.forecast fit) 0 <= nth i (Trend.forecast fit) 0)%Z).
Proof.
  apply (@forecast_follows_trend Reference.math [4; 0; 7; 2] 2).
  simpl; lia.
Defined.

Lemma r_squared_range_witness :
  exists fit,
    @Trend.generateForecast Reference.math [4; 0; 7; 2] 2 = Trend.Fitted fit
    /\ (forall r, Trend.rSquared fit = Some r -> 0 <= r /\ r <= 1)
    /\ (Trend.rSquared fit = None ->
        forall v, In v [4; 0; 7; 2] -> v == Trend.sumY [4; 0; 7; 2] / ofNat 4).
Proof.
  apply (@r_squared_range Reference.math [4; 0; 7; 2] 2).
  simpl; lia.
Defined.

Lemma constant_series_forecast_witness :
  exists fit,
    @Trend.generateForecast Reference.math Scenario.flat 2 = Trend.Fitted fit
    /\ Trend.trend fit == 0
    /\ Trend.rSquared fit = None
    /\ Trend.forecast fit = repeat (Z.max 0 (Math.round 5)) 2
    /\ Trend.confidenceUpper fit = Trend.forecast fit
    /\ Trend.confidenceLower fit = Trend.forecast fit.
Proof.
  apply (@constant_series_forecast Reference.math 5 Scenario.flat).
  - simpl; lia.
  - unfold Scenario.flat. repeat (constructor; [reflexivity |]). constructor.
  - intros v Hv. change (Reference.sqrt v == 0).
    rewrite (reference_sqrt_compat v 0 Hv). reflexivity.
Defined.

Lemma unreadable_date_is_counted_witness :
  exists h,
    @Monthly.fetchHistoricalData Reference.numbers Reference.utc ReferenceText.years
      (Some [Scenario.misdated]) "Theft" "Barangay 41" = inr h
    /\ In invalidLabel (Monthly.labels h)
    /\ In Scenario.misdated (Monthly.rawData h).
Proof.
  apply (@unreadable_date_is_counted Reference.numbers Reference.utc ReferenceText.years
           [Scenario.misdated] "Theft" "Barangay 41" Scenario.misdated).
  - now left.
  - reflexivity.
  - reflexivity.
Defined.

Lemma forecast_labels_continue_witness :
  @Monthly.generateForecastLabels Reference.utc ReferenceText.years ReferenceText.strings
    Scenario.now (["2023-11"%string] ++ [labelOf 2023 11]) 3
  = map (fun i => labelOf (2023 + (11 + Z.of_nat i) / 12) ((11 + Z.of_nat i) mod 12))
        (seq 1 3).
Proof.
  apply (@forecast_labels_continue Reference.utc ReferenceText.years ReferenceText.strings
           Scenario.now ["2023-11"%string] 2023 11 3).
  - intros s d E. simpl. unfold ReferenceText.numberOfString. now rewrite E.
  - lia.
  - lia.
Defined.

Lemma daily_forecast_shape_witness :
  length (@Daily.generateCrimeForecast Reference.utc Scenario.now Scenario.quarter
                                       Scenario.midnight "1week") = 7%nat
  /\ forall day,
       In day (@Daily.generateCrimeForecast Reference.utc Scenario.now Scenario.quarter
                                            Scenario.midnight "1week") ->
       map fst (Day.hourlyBreakdown day) = seq 0 24
       /\ (0 <= Day.predictedCrimes day)%Z
       /\ Forall (fun count => (0 <= count)%Z) (map snd (Day.hourlyBreakdown day)).
Proof.
  apply (@daily_forecast_shape Reference.utc Scenario.now Scenario.quarter
           Scenario.midnight "1week").
  - discriminate.
  - intros k. discriminate.
Defined.

Lemma no_pattern_is_low_witness :
  In (@Daily.forecastDay Reference.utc Scenario.now Scenario.quarter Scenario.midnight 3)
     (@Daily.generateCrimeForecast Reference.utc Scenario.now Scenario.quarter
                                   Scenario.midnight "1week")
  /\ Day.riskLevel
       (@Daily.forecastDay Reference.utc Scenario.now Scenario.quarter Scenario.midnight 3)
     = "Low"%string.
Proof.
  apply (@no_pattern_is_low Reference.utc Scenario.now Scenario.quarter
           Scenario.midnight "1week" 3).
  - discriminate.
  - vm_compute; lia.
  - reflexivity.
  - vm_compute; reflexivity.
  - vm_compute; reflexivity.
Defined.

Lemma ml_forecast_insights_witness :
  @Fetch.fetchCrimeForecast Reference.numbers Reference.utc Scenario.now Scenario.quarter
     Scenario.idle (Some Scenario.served) (Some Scenario.staleReports) EmptyString "1week"
  = @Fetch.fetchCrimeForecast Reference.numbers Reference.utc Scenario.now Scenario.quarter
       Scenario.idle (Some Scenario.served) None EmptyString "1week"
  /\ Fetch.forecastError
       (@Fetch.fetchCrimeForecast Reference.numbers Reference.utc Scenario.now
          Scenario.quarter Scenario.idle (Some Scenario.served)
          (Some Scenario.staleReports) EmptyString "1week") = None
  /\ Fetch.forecastLoading
       (@Fetch.fetchCrimeForecast Reference.numbers Reference.utc Scenario.now
          Scenario.quarter Scenario.idle (Some Scenario.served)
          (Some Scenario.staleReports) EmptyString "1week") = false
  /\ Permutation
       (map Fetch.fromML Scenario.served)
       (Fetch.forecastData
          (@Fetch.fetchCrimeForecast Reference.numbers Reference.utc Scenario.now
             Scenario.quarter Scenario.idle (Some Scenario.served)
             (Some Scenario.staleReports) EmptyString "1week"))
  /\ exists insights,
      Fetch.forecastInsights
        (@Fetch.fetchCrimeForecast Reference.numbers Reference.utc Scenario.now
           Scenario.quarter Scenario.idle (Some Scenario.served)
           (Some Scenario.staleReports) EmptyString "1week") = Some insights
      /\ Insight.peakHours insights = []
      /\ ~ In nightTip (Insight.recommendations insights)
      /\ (In communityTip (Insight.recommendations insights)
          <-> (0 < Insight.predictedCrimeCount insights)%Z).
Proof.
  apply (@ml_forecast_insights Reference.numbers Reference.utc Scenario.now Scenario.quarter
           Scenario.idle Scenario.served (Some Scenario.staleReports) EmptyString "1week").
  discriminate.
Defined.

Lemma undated_record_qualifies_witness :
  (JS.truthy (JS.get Scenario.nested "reportId") = true
   /\ JS.get Scenario.nested "dateTime" = JS.Str "2020-01-01T00:00:00.000Z"
   /\ @reportData Reference.numbers Scenario.nested
      = JS.Obj [("crimeType", JS.Str "Theft")]%string
   /\ @reportData Reference.numbers Scenario.undated = Scenario.undated)
  /\ (Fetch.timestamp
        (@Fetch.toItem Reference.numbers Reference.utc Scenario.now
           ("r1"%string, Scenario.nested))
      = JS.Str (@toISOString Reference.utc Scenario.now)
      /\ @Fetch.qualifies Reference.utc Scenario.now EmptyString
           (@Fetch.toItem Reference.numbers Reference.utc Scenario.now
              ("r1"%string, Scenario.nested)) = true
      /\ (JS.truthy (JS.get Scenario.nested "reportId") = false ->
          @reportData Reference.numbers Scenario.nested = Scenario.nested))
  /\ (Fetch.timestamp
        (@Fetch.toItem Reference.numbers Reference.utc Scenario.now
           ("r2"%string, Scenario.undated))
      = JS.Str (@toISOString Reference.utc Scenario.now)
      /\ @Fetch.qualifies Reference.utc Scenario.now EmptyString
           (@Fetch.toItem Reference.numbers Reference.utc Scenario.now
              ("r2"%string, Scenario.undated)) = true
      /\ (JS.truthy (JS.get Scenario.undated "reportId") = false ->
          @reportData Reference.numbers Scenario.undated = Scenario.undated)).
Proof.
  split; [| split].
  - split; [reflexivity |]. split; [reflexivity |]. split; reflexivity.
  - apply (@undated_record_qualifies Reference.numbers Reference.utc Scenario.now "r1"
             Scenario.nested).
    + intros k [<- | [<- | [<- | []]]]; reflexivity.
    + vm_compute; reflexivity.
    + vm_compute; discriminate.
  - apply (@undated_record_qualifies Reference.numbers Reference.utc Scenario.now "r2"
             Scenario.undated).
    + intros k [<- | [<- | [<- | []]]]; reflexivity.
    + vm_compute; reflexivity.
    + vm_compute; discriminate.
Defined.

Lemma heat_points_bounded_witness :
  (length (@Heatmap.createHeatmapData Reference.numbers 5
             [Scenario.reportA; Scenario.reportB; Scenario.origin])
   <= length [Scenario.reportA; Scenario.reportB; Scenario.origin])%nat
  /\ forall lat lng weight,
       In (lat, lng, weight)
          (@Heatmap.createHeatmapData Reference.numbers 5
             [Scenario.reportA; Scenario.reportB; Scenario.origin]) ->
       (exists report,
           In report [Scenario.reportA; Scenario.reportB; Scenario.origin]
           /\ @Heatmap.coordinates Reference.numbers report = (Some lat, Some lng))
       /\ inBox lat lng
       /\ 0 <= weight /\ weight <= 1
       /\ (5 <= 10 -> weight <= 5 / 10).
Proof.
  apply (@heat_points_bounded Reference.numbers 5
           [Scenario.reportA; Scenario.reportB; Scenario.origin]).
  discriminate.
Defined.

Lemma suspend_then_reinstate_witness :
  snd (@Users.handleSuspendUser Reference.utc Scenario.now Scenario.accounts true "u1"
         (JS.Bool false))
  = {| Updates.isSuspended := true;
       Updates.suspendedAt := JS.Str (@toISOString Reference.utc Scenario.now);
       Updates.suspendedBy := JS.Str Users.admin |}
  /\ snd (@Users.handleSuspendUser Reference.utc (Scenario.now + 1)
            (fst (@Users.handleSuspendUser Reference.utc Scenario.now Scenario.accounts true
                    "u1" (JS.Bool false)))
            true "u1" (JS.Bool true))
     = {| Updates.isSuspended := false; Updates.suspendedAt := JS.Null;
          Updates.suspendedBy := JS.Null |}
  /\ (forall user,
        In user (Users.users
                   (fst (@Users.handleSuspendUser Reference.utc Scenario.now
                           Scenario.accounts true "u1" (JS.Bool false)))) ->
        Users.id user = "u1"%string ->
        Users.isSuspended user = JS.Bool true
        /\ Users.suspendedAt user = JS.Str (@toISOString Reference.utc Scenario.now)
        /\ Users.suspendedBy user = JS.Str Users.admin)
  /\ Users.users
       (fst (@Users.handleSuspendUser Reference.utc (Scenario.now + 1)
               (fst (@Users.handleSuspendUser Reference.utc Scenario.now Scenario.accounts
                       true "u1" (JS.Bool false)))
               true "u1" (JS.Bool true)))
     = map (@Users.withStatus Reference.utc (Scenario.now + 1) "u1" (JS.Bool true))
           (Users.users Scenario.accounts)
  /\ ((forall user, In user (Users.users Scenario.accounts) -> Users.id user = "u1"%string ->
         Users.isSuspended user = JS.Bool false
         /\ Users.suspendedAt user = JS.Null /\ Users.suspendedBy user = JS.Null) ->
      Users.users
        (fst (@Users.handleSuspendUser Reference.utc (Scenario.now + 1)
                (fst (@Users.handleSuspendUser Reference.utc Scenario.now Scenario.accounts
                        true "u1" (JS.Bool false)))
                true "u1" (JS.Bool true)))
      = Users.users Scenario.accounts).
Proof.
  apply (@suspend_then_reinstate Reference.utc Scenario.now (Scenario.now + 1)
           Scenario.accounts "u1" (JS.Bool false)).
  reflexivity.
Defined.

Lemma realtime_buckets_witness :
  Sorted Z.lt (map Realtime.time Scenario.liveChart)
  /\ sumZ (map Realtime.value Scenario.liveChart)
     = Z.of_nat
         (length (filter (passes (@Realtime.keeps Reference.utc ReferenceHost.host
                                    Scenario.now "24h" EmptyString))
                         Scenario.liveItems))
  /\ (forall point, In point Scenario.liveChart ->
        (Realtime.time point mod Realtime.intervalMs "24h" = 0)%Z
        /\ (1 <= Realtime.value point)%Z
        /\ Realtime.value point
           = Z.of_nat
               (length
                  (filter (@within Reference.utc (Realtime.time point)
                                   (Realtime.intervalMs "24h"))
                          (filter (passes (@Realtime.keeps Reference.utc ReferenceHost.host
                                             Scenario.now "24h" EmptyString))
                                  Scenario.liveItems)))
        /\ Realtime.label point = @toLocaleTimeString ReferenceHost.host (Realtime.time point)
        /\ forall cutoff, Realtime.cutoffTime Scenario.now "24h" = Some cutoff ->
                          (cutoff - Realtime.intervalMs "24h" < Realtime.time point)%Z)
  /\ (Realtime.timeWindowMs "24h" = None -> Scenario.liveChart = []).
Proof.
  apply (@realtime_buckets Reference.utc ReferenceHost.host Scenario.now Scenario.liveItems
           "24h" EmptyString Scenario.liveChart).
  vm_compute; reflexivity.
Defined.



Lemma heat_map_reads_location_witness :
  (forall report, In report [Scenario.reportA; Scenario.reportB] ->
     In report [Scenario.reportA; Scenario.flatRecord; Scenario.reportB]
     /\ Reports.hasPosition report = true
     /\ @Heatmap.coordinates Reference.numbers report
        = (@JS.parseFloat Reference.numbers (JS.get (JS.get report "location") "latitude"),
           @JS.parseFloat Reference.numbers (JS.get (JS.get report "location") "longitude")))
  /\ @Reports.heatmapPoints Reference.utc ReferenceHost.host Scenario.now Reference.numbers
       [Scenario.reportA; Scenario.flatRecord; Scenario.reportB] EmptyString "all" 5
     = Some (@Heatmap.createHeatmapData Reference.numbers 5
               [Scenario.reportA; Scenario.reportB])
  /\ (forall lat lng weight,
        In (lat, lng, weight)
           (@Heatmap.createHeatmapData Reference.numbers 5
              [Scenario.reportA; Scenario.reportB]) ->
        exists report,
          In report [Scenario.reportA; Scenario.flatRecord; Scenario.reportB]
          /\ @JS.parseFloat Reference.numbers (JS.get (JS.get report "location") "latitude")
             = Some lat
          /\ @JS.parseFloat Reference.numbers (JS.get (JS.get report "location") "longitude")
             = Some lng)
  /\ (EmptyString = EmptyString -> "all"%string = "all"%string ->
      [Scenario.reportA; Scenario.reportB]
      = filter Reports.hasPosition [Scenario.reportA; Scenario.flatRecord; Scenario.reportB]).
Proof.
  apply (@heat_map_reads_location Reference.numbers Reference.utc ReferenceHost.host
           Scenario.now [Scenario.reportA; Scenario.flatRecord; Scenario.reportB]
           EmptyString "all" 5 [Scenario.reportA; Scenario.reportB]).
  reflexivity.
Defined.

Lemma lat_lng_location_never_mapped_witness :
  let points := fun store =>
    @Reports.heatmapPoints Reference.utc ReferenceHost.host Scenario.now Reference.numbers
      (Reports.reportsArray store) EmptyString "all" 5 in
  let weights := option_map (map (fun point : Q * Q * Q => Qred (snd point))) in
  (weights (points [("r1"%string, Scenario.reportA); ("r2"%string, Scenario.shortNames);
                    ("r3"%string, Scenario.reportB)]) = Some [1 # 10]
   /\ weights (points [("r1"%string, Scenario.reportA); ("r2"%string, Scenario.shortNames)])
      = Some [1 # 20]
   /\ length (@Heatmap.createHeatmapData Reference.numbers 5
                [Reports.toReport ("r2"%string, Scenario.shortNames)]) = 1%nat)
  /\ points ([("r1"%string, Scenario.reportA)]
             ++ ("r2"%string, Scenario.shortNames) :: [("r3"%string, Scenario.reportB)])
     = points ([("r1"%string, Scenario.reportA)] ++ [("r3"%string, Scenario.reportB)]).
Proof.
  cbv zeta. split.
  - split; [vm_compute; reflexivity |]. split; vm_compute; reflexivity.
  - apply (@lat_lng_location_never_mapped Reference.numbers Reference.utc ReferenceHost.host
             Scenario.now [("r1"%string, Scenario.reportA)] [("r3"%string, Scenario.reportB)]
             "r2" Scenario.shortNames EmptyString "all" 5).
    + reflexivity.
    + reflexivity.
Defined.

Lemma flat_record_position_witness :
  Reports.hasPosition (Reports.toReport ("r3"%string, Scenario.flatRecord)) = true
  /\ @Heatmap.coordinates Reference.numbers
       (Reports.toReport ("r3"%string, Scenario.flatRecord))
     = (@JS.parseFloat Reference.numbers
          (JS.get Scenario.flatRecord "latitude" ||| JS.get Scenario.flatRecord "lat"),
        @JS.parseFloat Reference.numbers
          (JS.get Scenario.flatRecord "longitude" ||| JS.get Scenario.flatRecord "lng"))
  /\ JS.get (JS.get (Reports.toReport ("r3"%string, Scenario.flatRecord)) "location")
            "address"
     = JS.get Scenario.flatRecord "address" ||| JS.get Scenario.flatRecord "location_address"
       ||| JS.Str "Unknown location".
Proof.
  apply (@flat_record_position Reference.numbers "r3" Scenario.flatRecord).
  - reflexivity.
  - reflexivity.
  - reflexivity.
Defined.

Lemma undated_record_on_live_chart_witness :
  (JS.truthy (JS.get Scenario.nested "reportId") = true
   /\ @Realtime.itemTime Reference.utc
        (@Realtime.toItem Reference.numbers Reference.utc Scenario.now
           ("r1"%string, Scenario.nested)) = Some Scenario.now)
  /\ exists point,
       In point
          (Realtime.realtimeChartData
             (@Realtime.fetchRealtimeChartData Reference.numbers Reference.utc
                ReferenceHost.host Scenario.now Scenario.blank
                (Some (Some [("r1"%string, Scenario.nested); ("r2"%string, Scenario.undated)]))
                "24h" EmptyString))
       /\ Realtime.time point
          = (Scenario.now / Realtime.intervalMs "24h" * Realtime.intervalMs "24h")%Z
       /\ (1 <= Realtime.value point)%Z.
Proof.
  split.
  - split; [reflexivity | vm_compute; reflexivity].
  - apply (@undated_record_on_live_chart Reference.numbers Reference.utc ReferenceHost.host
             Scenario.now Scenario.blank
             [("r1"%string, Scenario.nested); ("r2"%string, Scenario.undated)] "r1"
             Scenario.nested "24h" (24 * 60 * 60 * 1000)).
    + now left.
    + intros k [<- | [<- | [<- | []]]]; reflexivity.
    + vm_compute; reflexivity.
    + reflexivity.
Defined.
